(** * Pointa: recording sessions, CDP capture and timeline correlation

    A shallow embedding of the recording engine of the Pointa browser
    extension and of its two backend log clients:

    - [Background]   : the debugger-sharing and CDP capture code of
                       [extension/background/background.js];
    - [BugRecorder]  : the timeline correlator of [bug-recorder.js]
                       (filter, normalise, merge, sort, dedupe, key issues);
    - [BugRecorderV1]: the earlier [bug-recorder.js] kept in the repository;
    - [RecorderSession]: [startRecording], [stopRecording] and the page
                       handlers of [bug-recorder.js];
    - [Preload]      : the injected backend log client [preload.cjs];
    - [ServerLogger] : the SDK client [server-logger/src/logger.js];
    - [LoggerProcess]: the listeners the SDK client adds to [process].

    Conventions.  JavaScript strings are Rocq strings, one character per
    code unit (text outside ASCII, like the [×] of a repeat count, is the
    UTF-8 text of this file).  Numbers that the code only uses as integers
    (millisecond clocks, HTTP status codes, line numbers, counters) are [Z]
    or [nat]; the one fractional quantity, the backoff delay of the SDK
    logger, is a [Q].  A property that may be [undefined] is an [option].
    [Date.now()] and [new Date().toISOString()] are explicit arguments [now]
    and [iso] of the functions that read the clock.  An [async] function is
    run to completion without interleaving.  The browser ([chrome.debugger])
    and the socket are modelled by what the code can observe of them; a
    page event is what its handler reads of it.  The selectors computed
    from the document, the screenshots, the user interface and the HTTP
    calls to the Pointa server are outside the model. *)

From Stdlib Require Import ZArith QArith Qpower List String Ascii Lia.
From Stdlib Require Import Sorting.Sorted Sorting.Permutation DecimalString.
From stdpp Require Import base option list gmap strings.

Local Open Scope string_scope.
Local Open Scope list_scope.
Local Open Scope Z_scope.

(* ===================================================================== *)
(** ** JavaScript primitives used by the code *)
(* ===================================================================== *)

Module JS.

(** [s.startsWith(p)] *)
Definition startsWith (s p : string) : bool := String.prefix p s.

(** [s.includes(sub)] *)
Fixpoint includes (s sub : string) : bool :=
  String.prefix sub s ||
  match s with
  | EmptyString => false
  | String _ rest => includes rest sub
  end.

(** [a || b] on a possibly-undefined string: the empty string is falsy. *)
Definition orElse (a : option string) (b : string) : string :=
  match a with
  | Some s => if decide (s = "") then b else s
  | None => b
  end.

(** [String(n)] for a non-negative integer counter. *)
Definition natToString (n : nat) : string :=
  NilZero.string_of_uint (Nat.to_uint n).

(** [String(z)] for an integer-valued number. *)
Definition numToString (z : Z) : string :=
  NilZero.string_of_int (Z.to_int z).

(** A template slot [${x}] holding a possibly-undefined string. *)
Definition show (x : option string) : string :=
  match x with Some s => s | None => "undefined" end.

(** [parts.join(sep)] *)
Fixpoint join (sep : string) (parts : list string) : string :=
  match parts with
  | [] => ""
  | [p] => p
  | p :: rest => p +:+ sep +:+ join sep rest
  end.

(** *** The regular expressions of the sources

    Every pattern used by the modelled code is a sequence of character
    classes, each repeated between [atLeast] and [atMost] times and greedy
    (a literal character is a class repeated once).  [matchItems] matches
    such a pattern at the start of a string the way a backtracking engine
    does: each item first takes as many characters as it can and gives them
    back one by one while the rest of the pattern fails.  White space is
    ASCII white space. *)

Record Item := {
  class : ascii -> bool;
  atLeast : nat;
  atMost : option nat
}.

Definition code (c : ascii) : nat := nat_of_ascii c.

Definition isSpace (c : ascii) : bool :=
  ((9 <=? code c) && (code c <=? 13) || (code c =? 32))%nat.

Definition isDigit (c : ascii) : bool :=
  ((48 <=? code c) && (code c <=? 57))%nat.

Definition isUpper (c : ascii) : bool :=
  ((65 <=? code c) && (code c <=? 90))%nat.

Definition isLower (c : ascii) : bool :=
  ((97 <=? code c) && (code c <=? 122))%nat.

(** [\w] *)
Definition isWord (c : ascii) : bool :=
  (isDigit c || isUpper c || isLower c || (code c =? 95))%nat.

(** [[0-9a-fA-F]] *)
Definition isHex (c : ascii) : bool :=
  (isDigit c || (65 <=? code c) && (code c <=? 70)
   || (97 <=? code c) && (code c <=? 102))%nat.

Definition toLower (c : ascii) : ascii :=
  if isUpper c then ascii_of_nat (code c + 32) else c.

(** A literal character, under the [i] flag when [ignoreCase]. *)
Definition char (ignoreCase : bool) (c : ascii) : Item :=
  {| class := fun x =>
       if ignoreCase then (code (toLower x) =? code (toLower c))%nat
       else (code x =? code c)%nat;
     atLeast := 1; atMost := Some 1%nat |}.

Fixpoint literal (ignoreCase : bool) (s : string) : list Item :=
  match s with
  | EmptyString => []
  | String c rest => char ignoreCase c :: literal ignoreCase rest
  end.

(** [class*], [class+], [class?], [class{lo,hi}], [class{lo,}] *)
Definition star (class : ascii -> bool) : Item :=
  {| class := class; atLeast := 0; atMost := None |}.
Definition plus (class : ascii -> bool) : Item :=
  {| class := class; atLeast := 1; atMost := None |}.
Definition optional (class : ascii -> bool) : Item :=
  {| class := class; atLeast := 0; atMost := Some 1%nat |}.
Definition between (class : ascii -> bool) (lo hi : nat) : Item :=
  {| class := class; atLeast := lo; atMost := Some hi |}.
Definition atLeastTimes (class : ascii -> bool) (lo : nat) : Item :=
  {| class := class; atLeast := lo; atMost := None |}.

(** How many leading characters of [s] are in the class. *)
Fixpoint runLength (class : ascii -> bool) (s : string) : nat :=
  match s with
  | String c rest => if class c then S (runLength class rest) else 0
  | EmptyString => 0
  end.

Fixpoint dropChars (n : nat) (s : string) : string :=
  match n, s with
  | S n', String _ rest => dropChars n' rest
  | _, _ => s
  end.

(** The rest of [s] after the leftmost-greedy match of the pattern at its
    start, if there is one. *)
Fixpoint matchItems (pattern : list Item) (s : string) : option string :=
  match pattern with
  | [] => Some s
  | item :: rest =>
      let available := runLength (class item) s in
      let most :=
        match atMost item with
        | Some hi => Nat.min hi available
        | None => available
        end in
      (fix giveBack (k : nat) : option string :=
         if (k <? atLeast item)%nat then None
         else
           match matchItems rest (dropChars k s) with
           | Some r => Some r
           | None =>
               match k with
               | O => None
               | S k' => giveBack k'
               end
           end) most
  end.

(** [s.replace(/pattern/g, replacement)] for a pattern that matches no
    empty string; [fuel] bounds the scan by the length of [s]. *)
Fixpoint replaceAllFrom (fuel : nat) (pattern : list Item)
    (replacement s : string) : string :=
  match fuel, s with
  | S fuel', String c rest =>
      match matchItems pattern s with
      | Some after =>
          if (String.length after <? String.length s)%nat
          then replacement +:+ replaceAllFrom fuel' pattern replacement after
          else String c (replaceAllFrom fuel' pattern replacement rest)
      | None => String c (replaceAllFrom fuel' pattern replacement rest)
      end
  | _, _ => s
  end.

Definition replaceAll (pattern : list Item) (replacement s : string)
    : string :=
  replaceAllFrom (String.length s) pattern replacement s.

Fixpoint trimStart (s : string) : string :=
  match s with
  | String c rest => if isSpace c then trimStart rest else s
  | EmptyString => s
  end.

Fixpoint reverse (acc s : string) : string :=
  match s with
  | String c rest => reverse (String c acc) rest
  | EmptyString => acc
  end.

(** [s.trim()] *)
Definition trim (s : string) : string :=
  reverse "" (trimStart (reverse "" (trimStart s))).

(** [s.trimEnd()] *)
Definition trimEnd (s : string) : string :=
  reverse "" (trimStart (reverse "" s)).

End JS.

(* ===================================================================== *)
(** ** Events, as every producer of the repository builds them *)
(* ===================================================================== *)

(** A payload value that the modelled code carries along without reading. *)
Inductive JsAtom :=
| JUndefined
| JNull
| JBool (b : bool)
| JNum (z : Z)
| JStr (s : string).

(** A call frame as forwarded in [data.stackTrace]. *)
Record Frame := {
  functionName : option string;
  frameUrl : option string;
  frameLine : option Z
}.

(** The [data] object of an event.  Every producer in the sources builds a
    [data] object; the fields read by the modelled functions are typed, the
    remaining ones ([statusText], [mimeType], [element], ...) are kept in
    [extra]. *)
Record EventData := {
  message : option string;
  level : option string;
  dataSource : option string;      (* data.source *)
  url : option string;
  method : option string;
  status : option Z;
  lineNumber : option Z;
  columnNumber : option Z;
  stack : option string;
  stackTrace : option (list Frame);
  responseBody : option string;
  extra : list (string * JsAtom)
}.

Record Event := {
  timestamp : string;
  relativeTime : Z;
  type : string;
  subtype : option string;
  severity : string;
  source : option string;
  data : EventData
}.

Definition emptyData : EventData :=
  {| message := None; level := None; dataSource := None; url := None;
     method := None; status := None; lineNumber := None; columnNumber := None;
     stack := None; stackTrace := None; responseBody := None; extra := [] |}.

(** [{...d, message: m}] *)
Definition withMessage (d : EventData) (m : option string) : EventData :=
  {| message := m; level := level d; dataSource := dataSource d; url := url d;
     method := method d; status := status d; lineNumber := lineNumber d;
     columnNumber := columnNumber d; stack := stack d;
     stackTrace := stackTrace d; responseBody := responseBody d;
     extra := extra d |}.

(** [{...d, message: m, stackTrace: st}] *)
Definition withMessageAndTrace (d : EventData) (m : option string)
    (st : option (list Frame)) : EventData :=
  {| message := m; level := level d; dataSource := dataSource d; url := url d;
     method := method d; status := status d; lineNumber := lineNumber d;
     columnNumber := columnNumber d; stack := stack d;
     stackTrace := st; responseBody := responseBody d;
     extra := extra d |}.

(** [{...e, data: d}] *)
Definition withData (e : Event) (d : EventData) : Event :=
  {| timestamp := timestamp e; relativeTime := relativeTime e; type := type e;
     subtype := subtype e; severity := severity e; source := source e;
     data := d |}.

(** [events.sort((a, b) => a.relativeTime - b.relativeTime)]:
    [Array.prototype.sort] is stable, so equal keys keep their order. *)
Section StableSort.
Context {A : Type} (key : A -> Z).

Fixpoint insertByKey (x : A) (l : list A) : list A :=
  match l with
  | [] => [x]
  | y :: rest =>
      if key x <=? key y then x :: y :: rest
      else y :: insertByKey x rest
  end.

Definition sortByKey (l : list A) : list A := foldr insertByKey [] l.
End StableSort.

(* ===================================================================== *)
(** ** bug-recorder.js: the timeline correlator *)
(* ===================================================================== *)

Module BugRecorder.

Record RecordingData := {
  console : list Event;
  network : list Event;
  interactions : list Event;
  backendLogs : option (list Event)
}.

Record Summary := {
  totalEvents : nat;
  userInteractions : nat;
  networkRequests : nat;
  networkFailures : nat;
  consoleErrors : nat;
  backendLogCount : nat;           (* summary.backendLogs *)
  backendErrors : nat;
  consoleWarnings : nat;
  consoleLogs : nat
}.

Record Timeline := {
  events : list Event;
  summary : Summary
}.

(** [shouldFilterConsoleEvent(event)] *)
Definition shouldFilterConsoleEvent (event : Event) : bool :=
  let source := JS.orElse (dataSource (data event)) "" in
  let message := JS.orElse (message (data event)) "" in
  if JS.startsWith source "chrome-extension://" then true
  else if JS.includes message "[code-inspector-plugin]" then true
  else if JS.includes message "[HMR]" && bool_decide (type event = "console-log")
  then true
  else false.

(** [shouldFilterNetworkEvent(event)] *)
Definition shouldFilterNetworkEvent (event : Event) : bool :=
  let url := JS.orElse (url (data event)) "" in
  let method := JS.orElse (method (data event)) "" in
  if JS.includes url "127.0.0.1:4242/health" then true
  else if JS.includes url "localhost:4242/health" then true
  else if bool_decide (method = "OPTIONS") then true
  else if JS.includes url "127.0.0.1:4242/api/backend" then true
  else false.

(** [truncateMessage(message, maxLength)] *)
Definition truncateMessage (message : option string) (maxLength : nat)
    : option string :=
  match message with
  | None => None
  | Some m =>
      if decide (m = "") then Some m
      else if (String.length m <=? maxLength)%nat then Some m
      else Some (String.substring 0 maxLength m +:+ "...")
  end.

(** The patterns of [stripConsoleStyling]. *)
Definition styleMarker : list JS.Item := JS.literal false "%c".

(** [/color:\s*#[0-9a-fA-F]{3,6};?/gi] *)
Definition colorRule : list JS.Item :=
  JS.literal true "color:"
  ++ [JS.star JS.isSpace; JS.char true "#"%char; JS.between JS.isHex 3 6;
      JS.optional (fun c => (JS.code c =? 59)%nat)].

(** [/font-weight:\s*\w+;?/gi] *)
Definition fontWeightRule : list JS.Item :=
  JS.literal true "font-weight:"
  ++ [JS.star JS.isSpace; JS.plus JS.isWord;
      JS.optional (fun c => (JS.code c =? 59)%nat)].

(** [/font-size:\s*[\d.]+px;?/gi] *)
Definition fontSizeRule : list JS.Item :=
  JS.literal true "font-size:"
  ++ [JS.star JS.isSpace;
      JS.plus (fun c => JS.isDigit c || (JS.code c =? 46)%nat)]
  ++ JS.literal true "px"
  ++ [JS.optional (fun c => (JS.code c =? 59)%nat)].

(** [/font-family:\s*[^;]+;?/gi] *)
Definition fontFamilyRule : list JS.Item :=
  JS.literal true "font-family:"
  ++ [JS.star JS.isSpace; JS.plus (fun c => negb (JS.code c =? 59)%nat);
      JS.optional (fun c => (JS.code c =? 59)%nat)].

(** [/background:\s*[^;]+;?/gi] *)
Definition backgroundRule : list JS.Item :=
  JS.literal true "background:"
  ++ [JS.star JS.isSpace; JS.plus (fun c => negb (JS.code c =? 59)%nat);
      JS.optional (fun c => (JS.code c =? 59)%nat)].

(** [/\s{2,}/g] *)
Definition spaces : list JS.Item := [JS.atLeastTimes JS.isSpace 2].

(** [stripConsoleStyling(message)] *)
Definition stripConsoleStyling (message : option string) : option string :=
  match message with
  | None => None
  | Some m =>
      if decide (m = "") then Some m
      else
        let cleaned :=
          JS.trim
            (JS.replaceAll spaces " "
               (JS.replaceAll backgroundRule ""
                  (JS.replaceAll fontFamilyRule ""
                     (JS.replaceAll fontSizeRule ""
                        (JS.replaceAll fontWeightRule ""
                           (JS.replaceAll colorRule ""
                              (JS.replaceAll styleMarker "" m))))))) in
        if decide (cleaned = "") then Some m else Some cleaned
  end.

(** [optimizeConsoleEvent(event)] *)
Definition optimizeConsoleEvent (event : Event) : Event :=
  withData event
    (withMessageAndTrace (data event)
       (truncateMessage (stripConsoleStyling (message (data event))) 300)
       (if decide (type event = "console-log") then None
        else stackTrace (data event))).


(** The loop state of [dedupeEvents]. *)
Record DedupeState := {
  deduped : list Event;
  lastEvent : option Event;
  repeatCount : nat
}.

(** [isSameMessage] of the loop body, for a present [lastEvent]. *)
Definition isSameMessage (lastEvent event : Event) : bool :=
  bool_decide (type lastEvent = type event)
  && bool_decide (message (data lastEvent) = message (data event))
  && (Z.abs (relativeTime event - relativeTime lastEvent) <? 100).

(** The suffixed message [`${lastEvent.data.message} (×${repeatCount + 1})`]. *)
Definition repeatMessage (m : option string) (repeatCount : nat) : string :=
  JS.show m +:+ " (×" +:+ JS.natToString (repeatCount + 1) +:+ ")".

(** What is pushed for a finished run: the run's first event, with its
    message annotated when [repeatCount > 0]. *)
Definition closeRun (lastEvent : Event) (repeatCount : nat) : Event :=
  if (0 <? repeatCount)%nat then
    withData lastEvent
      (withMessage (data lastEvent)
         (Some (repeatMessage (message (data lastEvent)) repeatCount)))
  else lastEvent.

(** [if (lastEvent) { ...; deduped.push(lastEvent) }] *)
Definition flushRun (st : DedupeState) : list Event :=
  match lastEvent st with
  | Some l => deduped st ++ [closeRun l (repeatCount st)]
  | None => deduped st
  end.

(** One iteration of [for (const event of events)]. *)
Definition dedupeStep (st : DedupeState) (event : Event) : DedupeState :=
  let same :=
    match lastEvent st with
    | Some l => isSameMessage l event
    | None => false
    end in
  if same then
    {| deduped := deduped st; lastEvent := lastEvent st;
       repeatCount := S (repeatCount st) |}
  else
    {| deduped := flushRun st; lastEvent := Some event; repeatCount := 0 |}.

(** [dedupeEvents(events)] *)
Definition dedupeEvents (events : list Event) : list Event :=
  match events with
  | [] => events
  | _ =>
      flushRun
        (fold_left dedupeStep events
           {| deduped := []; lastEvent := None; repeatCount := 0 |})
  end.

(** The same loop as a recursion over the events that follow a run's
    first event, [count] of them folded into [first] so far.  It is only
    used to reason about [dedupeEvents] (see [dedupeEvents_cons]). *)
Fixpoint dedupeFrom (first : Event) (count : nat) (rest : list Event)
    : list Event :=
  match rest with
  | [] => [closeRun first count]
  | e :: rest' =>
      if isSameMessage first e then dedupeFrom first (S count) rest'
      else closeRun first count :: dedupeFrom e 0 rest'
  end.

(** The object literal handed to [addTimelineEvent]: the callers pass
    [type], [severity], [data] and sometimes [subtype], never a time. *)
Record TimelineEventInit := {
  initType : string;
  initSubtype : option string;
  initSeverity : string;
  initData : EventData
}.

(** [addTimelineEvent(event)], on [this.startTime] and [this.recordingData]
    (set by [startRecording] before any caller runs). *)
Definition addTimelineEvent (iso : string) (now : Z) (startTime : Z)
    (event : TimelineEventInit) (recordingData : RecordingData)
    : RecordingData :=
  let timelineEvent :=
    {| timestamp := iso; relativeTime := now - startTime;
       type := initType event; subtype := initSubtype event;
       severity := initSeverity event; source := None;
       data := initData event |} in
  if JS.startsWith (initType event) "console" then
    {| console := console recordingData ++ [timelineEvent];
       network := network recordingData;
       interactions := interactions recordingData;
       backendLogs := backendLogs recordingData |}
  else if decide (initType event = "network") then
    {| console := console recordingData;
       network := network recordingData ++ [timelineEvent];
       interactions := interactions recordingData;
       backendLogs := backendLogs recordingData |}
  else if JS.startsWith (initType event) "user-interaction" then
    {| console := console recordingData;
       network := network recordingData;
       interactions := interactions recordingData ++ [timelineEvent];
       backendLogs := backendLogs recordingData |}
  else recordingData.

(** [this.recordingData] as [startRecording] initialises it. *)
Definition freshRecording : RecordingData :=
  {| console := []; network := []; interactions := [];
     backendLogs := Some [] |}.

(** [events.filter(pred).length] *)
Definition countIf (pred : Event -> bool) (l : list Event) : nat :=
  length (List.filter pred l).

(** The four sequences that [generateTimeline] concatenates. *)
Definition filteredConsole (rd : RecordingData) : list Event :=
  map optimizeConsoleEvent
    (List.filter (fun e => negb (shouldFilterConsoleEvent e)) (console rd)).

Definition filteredNetwork (rd : RecordingData) : list Event :=
  List.filter (fun e => negb (shouldFilterNetworkEvent e)) (network rd).

Definition truncatedBackendLogs (rd : RecordingData) : list Event :=
  map (fun e =>
         withData e
           (withMessage (data e) (truncateMessage (message (data e)) 300)))
    (default [] (backendLogs rd)).

(** [generateTimeline()], on [this.recordingData]. *)
Definition generateTimeline (rd : RecordingData) : Timeline :=
  let filteredConsole := filteredConsole rd in
  let filteredNetwork := filteredNetwork rd in
  let backendLogs := truncatedBackendLogs rd in
  let allEvents :=
    filteredConsole ++ filteredNetwork ++ interactions rd ++ backendLogs in
  let allEvents := sortByKey relativeTime allEvents in
  let allEvents := dedupeEvents allEvents in
  {| events := allEvents;
     summary :=
       {| totalEvents := length allEvents;
          userInteractions := length (interactions rd);
          networkRequests := length filteredNetwork;
          networkFailures :=
            countIf (fun e => bool_decide (subtype e = Some "failed"))
              filteredNetwork;
          consoleErrors :=
            countIf (fun e => bool_decide (type e = "console-error"))
              filteredConsole;
          backendLogCount := length backendLogs;
          backendErrors :=
            countIf (fun e => bool_decide (type e = "backend-error"))
              backendLogs;
          consoleWarnings :=
            countIf (fun e => bool_decide (type e = "console-warning"))
              filteredConsole;
          consoleLogs :=
            countIf (fun e => bool_decide (type e = "console-log"))
              filteredConsole |} |}.

(** A key issue.  [isRootCause] is [true] when the property has been set
    ([rootCause.isRootCause = true]) and [false] while it is absent. *)
Record KeyIssue := {
  issueType : string;
  description : option string;
  issueTimestamp : string;
  issueRelativeTime : Z;
  issueSeverity : string;
  issueSource : option string;
  issueLineNumber : option Z;
  issueUrl : option string;
  issueStatus : option Z;
  issueResponseBody : option string;
  issueStack : option string;
  isRootCause : bool
}.

(** [${failure.data.status || 'unknown'}]: a missing status and the number 0
    are falsy. *)
Definition statusOrUnknown (st : option Z) : string :=
  match st with
  | Some z => if z =? 0 then "unknown" else JS.numToString z
  | None => "unknown"
  end.

Definition consoleErrorIssue (error : Event) : KeyIssue :=
  {| issueType := "console-error";
     description := message (data error);
     issueTimestamp := timestamp error;
     issueRelativeTime := relativeTime error;
     issueSeverity := "error";
     issueSource := dataSource (data error);
     issueLineNumber := lineNumber (data error);
     issueUrl := None; issueStatus := None; issueResponseBody := None;
     issueStack := None; isRootCause := false |}.

Definition networkFailureIssue (failure : Event) : KeyIssue :=
  {| issueType := "network-failure";
     description :=
       Some (JS.show (method (data failure)) +:+ " "
             +:+ JS.show (url (data failure)) +:+ " failed with status "
             +:+ statusOrUnknown (status (data failure)));
     issueTimestamp := timestamp failure;
     issueRelativeTime := relativeTime failure;
     issueSeverity := "error";
     issueSource := None; issueLineNumber := None;
     issueUrl := url (data failure);
     issueStatus := status (data failure);
     issueResponseBody := responseBody (data failure);
     issueStack := None; isRootCause := false |}.

Definition backendErrorIssue (error : Event) : KeyIssue :=
  {| issueType := "backend-error";
     description := message (data error);
     issueTimestamp := timestamp error;
     issueRelativeTime := relativeTime error;
     issueSeverity := "error";
     issueSource := Some "backend";
     issueLineNumber := None; issueUrl := None; issueStatus := None;
     issueResponseBody := None;
     issueStack := stack (data error); isRootCause := false |}.

(** [rootCause.isRootCause = true] *)
Definition markRootCause (k : KeyIssue) : KeyIssue :=
  {| issueType := issueType k; description := description k;
     issueTimestamp := issueTimestamp k;
     issueRelativeTime := issueRelativeTime k;
     issueSeverity := issueSeverity k; issueSource := issueSource k;
     issueLineNumber := issueLineNumber k; issueUrl := issueUrl k;
     issueStatus := issueStatus k; issueResponseBody := issueResponseBody k;
     issueStack := issueStack k; isRootCause := true |}.

(** The tail of [analyzeKeyIssues]: sort by time and flag the first. *)
Definition detectRootCause (keyIssues : list KeyIssue) : list KeyIssue :=
  match keyIssues with
  | [] => keyIssues
  | _ =>
      match sortByKey issueRelativeTime keyIssues with
      | rootCause :: rest => markRootCause rootCause :: rest
      | [] => []
      end
  end.

Definition isConsoleError (e : Event) : bool :=
  if negb (bool_decide (type e = "console-error")) then false
  else if JS.startsWith (JS.orElse (dataSource (data e)) "")
            "chrome-extension://" then false
  else true.

Definition isNetworkFailure (e : Event) : bool :=
  bool_decide (type e = "network") && bool_decide (subtype e = Some "failed").

Definition isBackendError (e : Event) : bool :=
  bool_decide (type e = "backend-error").

(** [analyzeKeyIssues(timeline)] *)
Definition analyzeKeyIssues (timeline : Timeline) : list KeyIssue :=
  let events := events timeline in
  let consoleErrors := List.filter isConsoleError events in
  let networkFailures := List.filter isNetworkFailure events in
  let backendErrors := List.filter isBackendError events in
  let keyIssues :=
    map consoleErrorIssue consoleErrors
    ++ map networkFailureIssue networkFailures
    ++ map backendErrorIssue backendErrors in
  detectRootCause keyIssues.

(** [String(n).padStart(2, '0')] *)
Definition padStart2 (s : string) : string :=
  if (String.length s <? 2)%nat then "0" +:+ s else s.

(** [formatRelativeTime(ms)]: [Math.floor] of the quotients, and [%],
    whose sign is the sign of the dividend. *)
Definition formatRelativeTime (ms : Z) : string :=
  let seconds := ms / 1000 in
  let minutes := seconds / 60 in
  let remainingSeconds := Z.rem seconds 60 in
  padStart2 (JS.numToString minutes) +:+ ":"
  +:+ padStart2 (JS.numToString remainingSeconds).

End BugRecorder.

(* ===================================================================== *)
(** ** The earlier bug-recorder.js: no filtering, no backend logs *)
(* ===================================================================== *)

Module BugRecorderV1.

Import BugRecorder.

(** [generateTimeline()]: merge and sort only.  The summary of this version
    has no backend counters; they are reported as 0 here. *)
Definition generateTimeline (rd : RecordingData) : Timeline :=
  let allEvents :=
    sortByKey relativeTime (console rd ++ network rd ++ interactions rd) in
  {| events := allEvents;
     summary :=
       {| totalEvents := length allEvents;
          userInteractions := length (interactions rd);
          networkRequests := length (network rd);
          networkFailures :=
            countIf (fun e => bool_decide (subtype e = Some "failed"))
              (network rd);
          consoleErrors :=
            countIf (fun e => bool_decide (type e = "console-error"))
              (console rd);
          backendLogCount := 0%nat;
          backendErrors := 0%nat;
          consoleWarnings :=
            countIf (fun e => bool_decide (type e = "console-warning"))
              (console rd);
          consoleLogs :=
            countIf (fun e => bool_decide (type e = "console-log"))
              (console rd) |} |}.

(** [analyzeKeyIssues(timeline)]: console errors, then network failures. *)
Definition analyzeKeyIssues (timeline : Timeline) : list KeyIssue :=
  let events := events timeline in
  let consoleErrors :=
    List.filter (fun e => bool_decide (type e = "console-error")) events in
  let networkFailures := List.filter isNetworkFailure events in
  detectRootCause
    (map consoleErrorIssue consoleErrors
     ++ map networkFailureIssue networkFailures).

End BugRecorderV1.

(* ===================================================================== *)
(** ** background.js: the shared debugger and the CDP capture *)
(* ===================================================================== *)

Module Background.

(** *** The browser side of [chrome.debugger]

    The extension reaches the page through [chrome.debugger.attach],
    [.sendCommand] and [.detach].  The browser keeps one attachment per tab:
    attaching twice fails, commands and detaching need an attachment.  A call
    can also be rejected for a reason of the browser's own (the tab was
    closed, the page refuses the domain): [rejects] gives the error message
    of every call the browser rejects. *)

Inductive DebuggerCall :=
| Attach
| Detach
| SendCommand (command : string).

Record Chrome := {
  attached : gset Z;
  rejects : Z -> DebuggerCall -> option string
}.

(** *** The extension's state *)

Record PendingRequest := {
  pendingUrl : string;
  pendingMethod : string
}.

(** One entry of [this.cdpRecordings]. *)
Record Recording := {
  recEvents : list Event;                                  (* events *)
  startTime : Z;
  pendingRequests : option (gmap string PendingRequest)
}.

Record State := {
  viewportOverrides : gmap Z (Z * Z);
  cdpRecordings : gmap Z Recording;
  chrome : Chrome
}.

(** *** Promises: state passing with exceptions *)

Inductive Result (A : Type) :=
| Ok (a : A)
| Throw (error : string).
Arguments Ok {A} a.
Arguments Throw {A} error.

Definition M (A : Type) : Type := State -> Result A * State.

Definition ret {A} (a : A) : M A := fun st => (Ok a, st).
Definition throw {A} (error : string) : M A := fun st => (Throw error, st).
Definition bind {A B} (m : M A) (k : A -> M B) : M B :=
  fun st =>
    match m st with
    | (Ok a, st') => k a st'
    | (Throw e, st') => (Throw e, st')
    end.
Definition gets {A} (f : State -> A) : M A := fun st => (Ok (f st), st).
Definition modify (f : State -> State) : M unit := fun st => (Ok tt, f st).

(** [try { body } catch (error) { handler }] *)
Definition tryCatch {A} (body : M A) (handler : string -> M A) : M A :=
  fun st =>
    match body st with
    | (Ok a, st') => (Ok a, st')
    | (Throw e, st') => handler e st'
    end.

(** [await] sequencing, with stdpp's monad notations [x ← m; k] and [m;; k]. *)
#[local] Instance M_ret : MRet M := @ret.
#[local] Instance M_bind : MBind M := fun A B k m => bind m k.

Definition setChrome (c : Chrome) (st : State) : State :=
  {| viewportOverrides := viewportOverrides st;
     cdpRecordings := cdpRecordings st;
     chrome := c |}.

Definition setViewportOverrides (v : gmap Z (Z * Z)) (st : State) : State :=
  {| viewportOverrides := v;
     cdpRecordings := cdpRecordings st;
     chrome := chrome st |}.

Definition setCdpRecordings (r : gmap Z Recording) (st : State) : State :=
  {| viewportOverrides := viewportOverrides st;
     cdpRecordings := r;
     chrome := chrome st |}.

(** [await chrome.debugger.attach({ tabId }, '1.3')] *)
Definition debuggerAttach (tabId : Z) : M unit := fun st =>
  let c := chrome st in
  match rejects c tabId Attach with
  | Some error => (Throw error, st)
  | None =>
      if decide (tabId ∈ attached c) then
        (Throw "Another debugger is already attached to the tab", st)
      else
        (Ok tt,
         setChrome {| attached := {[tabId]} ∪ attached c;
                      rejects := rejects c |} st)
  end.

(** [await chrome.debugger.sendCommand({ tabId }, command, {})] *)
Definition debuggerSendCommand (tabId : Z) (command : string) : M unit :=
  fun st =>
    let c := chrome st in
    match rejects c tabId (SendCommand command) with
    | Some error => (Throw error, st)
    | None =>
        if decide (tabId ∈ attached c) then (Ok tt, st)
        else (Throw "Debugger is not attached to the tab", st)
    end.

(** [await chrome.debugger.detach({ tabId })] *)
Definition debuggerDetach (tabId : Z) : M unit := fun st =>
  let c := chrome st in
  match rejects c tabId Detach with
  | Some error => (Throw error, st)
  | None =>
      if decide (tabId ∈ attached c) then
        (Ok tt,
         setChrome {| attached := attached c ∖ {[tabId]};
                      rejects := rejects c |} st)
      else (Throw "Debugger is not attached to the tab", st)
  end.

(** *** Viewport emulation *)

(** [setViewport(tabId, width, height)] *)
Definition setViewport (tabId width height : Z) : M unit :=
  tryCatch
    (isAttached ← gets (fun st => bool_decide (is_Some (viewportOverrides st !! tabId)));
     (if negb isAttached then debuggerAttach tabId else ret tt);;
     debuggerSendCommand tabId "Emulation.setDeviceMetricsOverride";;
     modify (fun st =>
       setViewportOverrides (<[tabId := (width, height)]> (viewportOverrides st)) st))
    (fun error => throw error).

(** [resetViewport(tabId)] *)
Definition resetViewport (tabId : Z) : M unit :=
  tryCatch
    (debuggerSendCommand tabId "Emulation.clearDeviceMetricsOverride";;
     debuggerDetach tabId;;
     modify (fun st =>
       setViewportOverrides (delete tabId (viewportOverrides st)) st))
    (fun _ => ret tt).

(** *** CDP recording *)

(** [startCDPRecording(tabId)] *)
Definition startCDPRecording (now : Z) (tabId : Z) : M unit :=
  tryCatch
    (recording ← gets (fun st => cdpRecordings st !! tabId);
     match recording with
     | Some _ => ret tt
     | None =>
         modify (fun st =>
           setCdpRecordings
             (<[tabId := {| recEvents := []; startTime := now;
                            pendingRequests := Some ∅ |}]> (cdpRecordings st))
             st);;
         isAttached ← gets (fun st => bool_decide (is_Some (viewportOverrides st !! tabId)));
         (if negb isAttached then debuggerAttach tabId else ret tt);;
         debuggerSendCommand tabId "Network.enable";;
         debuggerSendCommand tabId "Log.enable";;
         debuggerSendCommand tabId "Runtime.enable"
     end)
    (fun error =>
       modify (fun st => setCdpRecordings (delete tabId (cdpRecordings st)) st);;
       throw error).

(** The value [stopCDPRecording] resolves to. *)
Record CapturedEvents := {
  capturedNetwork : list Event;
  capturedConsole : list Event
}.

(** [stopCDPRecording(tabId)] *)
Definition stopCDPRecording (tabId : Z) : M CapturedEvents :=
  tryCatch
    (recording ← gets (fun st => cdpRecordings st !! tabId);
     match recording with
     | None => ret {| capturedNetwork := []; capturedConsole := [] |}
     | Some recording =>
         tryCatch
           (debuggerSendCommand tabId "Network.disable";;
            debuggerSendCommand tabId "Log.disable";;
            debuggerSendCommand tabId "Runtime.disable")
           (fun _ => ret tt);;
         usedByViewport ← gets (fun st => bool_decide (is_Some (viewportOverrides st !! tabId)));
         (if negb usedByViewport
          then tryCatch (debuggerDetach tabId) (fun _ => ret tt)
          else ret tt);;
         let events := recEvents recording in
         modify (fun st => setCdpRecordings (delete tabId (cdpRecordings st)) st);;
         ret {| capturedNetwork :=
                  List.filter (fun e => bool_decide (type e = "network")) events;
                capturedConsole :=
                  List.filter (fun e => JS.startsWith (type e) "console") events |}
     end)
    (fun error =>
       modify (fun st => setCdpRecordings (delete tabId (cdpRecordings st)) st);;
       throw error).

(** *** The CDP event listener ([setupCDPEventListener]) *)

(** The protocol objects the listener reads.  Fields it reaches through
    [?.] or [||] are optional. *)
Record Response := {
  responseUrl : string;
  responseStatus : Z;
  responseStatusText : string;
  responseMimeType : string
}.

Record LogEntry := {
  entryLevel : string;
  entryText : string;
  entrySource : string;
  entryUrl : option string;
  entryLineNumber : option Z
}.

Record CallFrame := {
  cfFunctionName : option string;
  cfUrl : option string;
  cfLineNumber : option Z;
  cfColumnNumber : option Z
}.

(** [stackTrace], with its [callFrames] when present. *)
Record StackTrace := {
  callFrames : option (list CallFrame)
}.

Record PropertyPreview := {
  propName : string;
  propValue : option string
}.

Record ObjectPreview := {
  previewProperties : option (list PropertyPreview);
  previewDescription : option string
}.

(** A console argument ([Runtime.RemoteObject]).  Numeric values are
    integers in this model. *)
Record RemoteObject := {
  argType : string;
  argValue : JsAtom;
  argDescription : option string;
  argPreview : option ObjectPreview
}.

Record ExceptionDetails := {
  exceptionText : string;
  exceptionDescription : option string;     (* exception?.description *)
  exceptionUrl : option string;
  exceptionLineNumber : option Z;
  exceptionColumnNumber : option Z;
  exceptionStackTrace : option StackTrace
}.

(** [(method, params)] of [chrome.debugger.onEvent]. *)
Inductive CDPEvent :=
| NetworkResponseReceived (requestId : string) (response : Response)
    (resourceType : option string)
| NetworkLoadingFailed (requestId : string) (errorText : option string)
    (canceled : option bool) (blockedReason : option string)
| NetworkRequestWillBeSent (requestId : string) (requestUrl : string)
    (requestMethod : string)
| LogEntryAdded (entry : LogEntry)
| RuntimeConsoleAPICalled (callType : string) (args : list RemoteObject)
    (stackTrace : option StackTrace)
| RuntimeExceptionThrown (exceptionDetails : ExceptionDetails)
| OtherMethod (name : string).

Definition optStr (o : option string) : JsAtom :=
  match o with Some s => JStr s | None => JUndefined end.

Definition optBool (o : option bool) : JsAtom :=
  match o with Some b => JBool b | None => JUndefined end.

(** [String(v)] *)
Definition atomToString (v : JsAtom) : string :=
  match v with
  | JUndefined => "undefined"
  | JNull => "null"
  | JBool true => "true"
  | JBool false => "false"
  | JNum z => JS.numToString z
  | JStr s => s
  end.

(** An element of [Array.prototype.join]: [undefined] and [null] print as
    the empty string. *)
Definition joinElement (v : JsAtom) : string :=
  match v with
  | JUndefined | JNull => ""
  | _ => atomToString v
  end.

(** [url.includes('chrome-extension://') && (url.includes('/content/') ||
    url.includes('/background/') || url.includes('/popup/'))] *)
Definition isPointaUrl (url : option string) : bool :=
  match url with
  | Some u =>
      JS.includes u "chrome-extension://"
      && (JS.includes u "/content/" || JS.includes u "/background/"
          || JS.includes u "/popup/")
  | None => false
  end.

(** [recording.pendingRequests?.get(requestId)] *)
Definition trackedRequest (recording : Recording) (requestId : string)
    : option PendingRequest :=
  match pendingRequests recording with
  | Some pending => pending !! requestId
  | None => None
  end.

(** [recording.events.push(event)] *)
Definition pushEvent (recording : Recording) (event : Event) : Recording :=
  {| recEvents := recEvents recording ++ [event];
     startTime := startTime recording;
     pendingRequests := pendingRequests recording |}.

(** The callback of [args.map] in the [Runtime.consoleAPICalled] branch. *)
Definition formatArg (arg : RemoteObject) : JsAtom :=
  if decide (argType arg = "string") then argValue arg
  else if decide (argType arg = "number") then JStr (atomToString (argValue arg))
  else if decide (argType arg = "boolean") then JStr (atomToString (argValue arg))
  else if decide (argType arg = "undefined") then JStr "undefined"
  else if decide (argType arg = "object") then
    match argPreview arg with
    | Some preview =>
        match previewProperties preview with
        | Some properties =>
            let props :=
              JS.join ", "
                (map (fun p => propName p +:+ ": " +:+ JS.show (propValue p))
                   properties) in
            JStr ("{" +:+ props +:+ "}")
        | None => JStr (JS.orElse (previewDescription preview) "[Object]")
        end
    | None => JStr (JS.orElse (argDescription arg) "[Object]")
    end
  else
    JStr (JS.orElse (argDescription arg)
            (JS.orElse (Some (atomToString (argValue arg))) "[Unknown]")).

(** [callFrames.slice(0, 3).map(f => ({ functionName, url, lineNumber }))] *)
Definition forwardedFrames (frames : list CallFrame) : list Frame :=
  map (fun f => {| functionName := cfFunctionName f;
                   frameUrl := cfUrl f;
                   frameLine := cfLineNumber f |})
    (take 3 frames).

Definition showNum (o : option Z) : string :=
  match o with Some z => JS.numToString z | None => "undefined" end.

(** One line of the [stack] text of an uncaught exception. *)
Definition stackLine (f : CallFrame) : string :=
  "    at " +:+ JS.orElse (cfFunctionName f) "(anonymous)" +:+ " ("
  +:+ JS.show (cfUrl f) +:+ ":" +:+ showNum (cfLineNumber f) +:+ ":"
  +:+ showNum (cfColumnNumber f) +:+ ")".

(** The newline of ['\n']. *)
Definition newline : string := String (ascii_of_nat 10) EmptyString.

(** [eventType] and [severity] chosen from a console level. *)
Definition consoleEventType (lvl : string) : string :=
  if decide (lvl = "error") then "console-error"
  else if decide (lvl = "warning") then "console-warning"
  else "console-log".

Definition consoleSeverity (lvl : string) : string :=
  if decide (lvl = "error") then "error"
  else if decide (lvl = "warning") then "warning"
  else "info".

(** The body of the listener for a tab that has a recording: [timestamp]
    is [iso], [relativeTime] is [Date.now() - recording.startTime]. *)
Definition handleEvent (iso : string) (relativeTime : Z) (ev : CDPEvent)
    (recording : Recording) : Recording :=
  match ev with
  | NetworkResponseReceived requestId response resourceType =>
      let isSuccess :=
        (200 <=? responseStatus response) && (responseStatus response <? 400) in
      let tracked := trackedRequest recording requestId in
      pushEvent recording
        {| timestamp := iso; relativeTime := relativeTime;
           type := "network";
           subtype := Some (if isSuccess then "success" else "failed");
           severity := if isSuccess then "info" else "error";
           source := None;
           data :=
             {| message := None; level := None; dataSource := None;
                url := Some (responseUrl response);
                method := Some (JS.orElse (pendingMethod <$> tracked) "GET");
                status := Some (responseStatus response);
                lineNumber := None; columnNumber := None;
                stack := None; stackTrace := None; responseBody := None;
                extra :=
                  [("statusText", JStr (responseStatusText response));
                   ("mimeType", JStr (responseMimeType response));
                   ("resourceType", optStr resourceType);
                   ("type", JStr "cdp")] |} |}
  | NetworkLoadingFailed requestId errorText canceled blockedReason =>
      let request := trackedRequest recording requestId in
      pushEvent recording
        {| timestamp := iso; relativeTime := relativeTime;
           type := "network"; subtype := Some "failed";
           severity := "error"; source := None;
           data :=
             {| message := None; level := None; dataSource := None;
                url := Some (JS.orElse (pendingUrl <$> request) "unknown");
                method := Some (JS.orElse (pendingMethod <$> request) "unknown");
                status := None; lineNumber := None; columnNumber := None;
                stack := None; stackTrace := None; responseBody := None;
                extra :=
                  [("error", optStr errorText);
                   ("canceled", optBool canceled);
                   ("blockedReason", optStr blockedReason);
                   ("type", JStr "cdp")] |} |}
  | NetworkRequestWillBeSent requestId requestUrl requestMethod =>
      {| recEvents := recEvents recording;
         startTime := startTime recording;
         pendingRequests :=
           Some (<[requestId := {| pendingUrl := requestUrl;
                                   pendingMethod := requestMethod |}]>
                   (default ∅ (pendingRequests recording))) |}
  | LogEntryAdded entry =>
      if isPointaUrl (entryUrl entry) then recording
      else
        pushEvent recording
          {| timestamp := iso; relativeTime := relativeTime;
             type := consoleEventType (entryLevel entry); subtype := None;
             severity := consoleSeverity (entryLevel entry); source := None;
             data :=
               {| message := Some (entryText entry);
                  level := Some (entryLevel entry);
                  dataSource := Some (entrySource entry);
                  url := entryUrl entry; method := None; status := None;
                  lineNumber := entryLineNumber entry; columnNumber := None;
                  stack := None; stackTrace := None; responseBody := None;
                  extra := [] |} |}
  | RuntimeConsoleAPICalled callType args stackTrace =>
      let frames := default [] (stackTrace ≫= callFrames) in
      if existsb (fun frame => isPointaUrl (cfUrl frame)) frames then recording
      else
        let message := JS.join " " (map (fun a => joinElement (formatArg a)) args) in
        pushEvent recording
          {| timestamp := iso; relativeTime := relativeTime;
             type := consoleEventType callType; subtype := None;
             severity := consoleSeverity callType; source := None;
             data :=
               {| message := Some message; level := Some callType;
                  dataSource := None; url := None; method := None;
                  status := None; lineNumber := None; columnNumber := None;
                  stack := None;
                  stackTrace := forwardedFrames <$> (stackTrace ≫= callFrames);
                  responseBody := None; extra := [] |} |}
  | RuntimeExceptionThrown exception =>
      pushEvent recording
        {| timestamp := iso; relativeTime := relativeTime;
           type := "console-error"; subtype := None;
           severity := "error"; source := None;
           data :=
             {| message :=
                  Some (JS.orElse (Some (exceptionText exception))
                          (JS.orElse (exceptionDescription exception)
                             "Uncaught exception"));
                level := Some "error";
                dataSource := exceptionUrl exception;
                url := None; method := None; status := None;
                lineNumber := exceptionLineNumber exception;
                columnNumber := exceptionColumnNumber exception;
                stack :=
                  (fun frames => JS.join newline (map stackLine frames))
                    <$> (exceptionStackTrace exception ≫= callFrames);
                stackTrace := None; responseBody := None; extra := [] |} |}
  | OtherMethod _ => recording
  end.

(** The listener registered with [chrome.debugger.onEvent]: events of a tab
    without a recording are ignored. *)
Definition onEvent (iso : string) (now : Z) (tabId : Z) (ev : CDPEvent)
    (st : State) : State :=
  match cdpRecordings st !! tabId with
  | None => st
  | Some recording =>
      setCdpRecordings
        (<[tabId := handleEvent iso (now - startTime recording) ev recording]>
           (cdpRecordings st))
        st
  end.

(** *** The listener over time *)

(** One call of the listener: the clock readings, the tab of [source] and
    the CDP event. *)
Record Delivery := {
  atIso : string;
  atNow : Z;
  onTab : Z;
  delivered : CDPEvent
}.

Definition deliver (st : State) (d : Delivery) : State :=
  onEvent (atIso d) (atNow d) (onTab d) (delivered d) st.

(** The listener called for each delivery in turn. *)
Definition deliverAll (st : State) (ds : list Delivery) : State :=
  fold_left deliver ds st.

(** *** The message listener ([setupMessageListener]) for the two
    recording actions: [.then(...)] answers success, [.catch(...)] answers
    the error message. *)

Record StartReply := {
  startSuccess : bool;
  startError : option string
}.

Record StopReply := {
  stopSuccess : bool;
  stopEvents : option CapturedEvents;
  stopError : option string
}.

(** [case 'startCDPRecording'], for the tab of the sender. *)
Definition onStartCDPRecording (now tabId : Z) (st : State)
    : StartReply * State :=
  match startCDPRecording now tabId st with
  | (Ok _, st') => ({| startSuccess := true; startError := None |}, st')
  | (Throw error, st') =>
      ({| startSuccess := false; startError := Some error |}, st')
  end.

(** [case 'stopCDPRecording'], for the tab of the sender. *)
Definition onStopCDPRecording (tabId : Z) (st : State) : StopReply * State :=
  match stopCDPRecording tabId st with
  | (Ok events, st') =>
      ({| stopSuccess := true; stopEvents := Some events;
          stopError := None |}, st')
  | (Throw error, st') =>
      ({| stopSuccess := false; stopEvents := None;
          stopError := Some error |}, st')
  end.

End Background.

(* ===================================================================== *)
(** ** bug-recorder.js: the recording session *)
(* ===================================================================== *)

(** [startRecording], [stopRecording] and the handlers they install, on the
    fields of the [BugRecorder] object.  The results of
    [chrome.runtime.sendMessage] are arguments; [captureScreenshot], which
    only writes [recordingData.screenshot], and [recordingData.metadata]
    are left out. *)
Module RecorderSession.
Import BugRecorder.

#[global] Instance JsAtom_eq_dec : EqDecision JsAtom.
Proof. solve_decision. Defined.

(** JavaScript truthiness of a payload value. *)
Definition truthy (v : JsAtom) : bool :=
  match v with
  | JUndefined | JNull => false
  | JBool b => b
  | JNum z => negb (z =? 0)
  | JStr s => negb (bool_decide (s = ""))
  end.

Record Recorder := {
  isRecording : bool;
  recordingData : option RecordingData;    (* null until the first start *)
  startTime : option Z;                    (* null until the first start *)
  includeBackendLogs : JsAtom;
  captureStdout : JsAtom
}.

(** The object literal [BugRecorder] as the script defines it. *)
Definition initial : Recorder :=
  {| isRecording := false; recordingData := None; startTime := None;
     includeBackendLogs := JBool false; captureStdout := JBool false |}.

(** The messages sent to the background script. *)
Inductive Request :=
| StartCDPRecording
| StartBackendLogRecording (captureStdout : JsAtom)
| StopCDPRecording
| StopBackendLogRecording.

Definition setRecordingData (rd : RecordingData) (r : Recorder) : Recorder :=
  {| isRecording := isRecording r; recordingData := Some rd;
     startTime := startTime r;
     includeBackendLogs := includeBackendLogs r;
     captureStdout := captureStdout r |}.

Definition setFlags (include capture : JsAtom) (r : Recorder) : Recorder :=
  {| isRecording := isRecording r; recordingData := recordingData r;
     startTime := startTime r;
     includeBackendLogs := include; captureStdout := capture |}.

(** [setIncludeBackendLogs(include)] *)
Definition setIncludeBackendLogs (include : JsAtom) (r : Recorder)
    : Recorder :=
  if truthy include && bool_decide (captureStdout r = JBool false)
  then setFlags include (JBool true) r
  else setFlags include (captureStdout r) r.

(** [setCaptureStdout(capture)] *)
Definition setCaptureStdout (capture : JsAtom) (r : Recorder) : Recorder :=
  setFlags (includeBackendLogs r) capture r.

(** [this.addTimelineEvent(event)]; [None] is the [TypeError] of reading
    [this.recordingData.console] while [recordingData] is [null]. *)
Definition record (iso : string) (now : Z) (event : TimelineEventInit)
    (r : Recorder) : option Recorder :=
  match recordingData r with
  | Some rd =>
      Some (setRecordingData
              (addTimelineEvent iso now (default 0 (startTime r)) event rd) r)
  | None => None
  end.

(** [startRecording(options)]: [include] is [options.includeBackendLogs],
    [href] is [window.location.href]; the clock is read for [startTime] and
    again by [addTimelineEvent].  The replies of the background script are
    only logged.  The result is the new state and the messages sent. *)
Definition startRecording (include : JsAtom) (href : string) (now : Z)
    (isoMarker : string) (nowMarker : Z) (r : Recorder)
    : option (Recorder * list Request) :=
  if isRecording r then Some (r, [])
  else
    let include :=
      if decide (include = JUndefined) then includeBackendLogs r
      else include in
    let capture :=
      if truthy include && bool_decide (captureStdout r = JBool false)
      then JBool true else captureStdout r in
    let started :=
      {| isRecording := true; recordingData := Some freshRecording;
         startTime := Some now;
         includeBackendLogs := include; captureStdout := capture |} in
    marked ← record isoMarker nowMarker
      {| initType := "recording-start"; initSubtype := None;
         initSeverity := "info";
         initData :=
           {| message := None; level := None; dataSource := None;
              url := Some href; method := None; status := None;
              lineNumber := None; columnNumber := None; stack := None;
              stackTrace := None; responseBody := None;
              extra := [("pageState", JStr "loaded");
                        ("includesBackendLogs", include)] |} |}
      started;
    Some (marked,
          StartCDPRecording
          :: (if truthy include then [StartBackendLogRecording capture]
              else [])).

(** The [error] event of the window. *)
Record ErrorEvent := {
  errorMessage : option string;
  errorFilename : option string;
  errorLineno : option Z;
  errorColno : option Z;
  errorStack : option string             (* event.error?.stack *)
}.

(** [this.errorHandler] *)
Definition errorHandler (iso : string) (now : Z) (event : ErrorEvent)
    (r : Recorder) : option Recorder :=
  if isRecording r then
    record iso now
      {| initType := "console-error"; initSubtype := None;
         initSeverity := "error";
         initData :=
           {| message := errorMessage event; level := Some "error";
              dataSource := errorFilename event; url := None;
              method := None; status := None;
              lineNumber := errorLineno event;
              columnNumber := errorColno event;
              stack := errorStack event; stackTrace := None;
              responseBody := None;
              extra := [("capturedBy", JStr "window-error-handler")] |} |}
      r
  else Some r.

(** The reason of a rejected promise, as the handler uses it: the
    template [`...${event.reason}`] and [String(event.reason)] convert it
    to a string.  [Printable text] is a reason both convert to [text];
    [Unprintable] is one whose conversion throws a [TypeError]: a symbol
    in the template, or an object without a usable [toString], like one
    made by [Object.create(null)]. *)
Inductive Reason :=
| Printable (text : string)
| Unprintable.

(** [this.rejectionHandler]; [None] is the [TypeError] of the conversion
    of an unprintable reason, thrown while the event is built, before
    [addTimelineEvent] is called. *)
Definition rejectionHandler (iso : string) (now : Z) (reason : Reason)
    (r : Recorder) : option Recorder :=
  if isRecording r then
    match reason with
    | Unprintable => None
    | Printable reason =>
        record iso now
          {| initType := "console-error"; initSubtype := None;
             initSeverity := "error";
             initData :=
               {| message :=
                    Some ("Unhandled Promise Rejection: " +:+ reason);
                  level := Some "error"; dataSource := None; url := None;
                  method := None; status := None; lineNumber := None;
                  columnNumber := None; stack := None; stackTrace := None;
                  responseBody := None;
                  extra :=
                    [("reason", JStr reason);
                     ("capturedBy",
                      JStr "unhandled-rejection-handler")] |} |}
          r
    end
  else Some r.

(** The target of an [input] event, as the handler reads it.
    [targetTagName] is [target.tagName.toLowerCase()], [None] when the
    target has no tag name (the document, the window) and the call throws.
    [targetValue] is [target.value], whatever the element keeps there.
    [targetSelector] and [targetXpath] are the results of
    [generateSelector(target)] and [getXPath(target)], which read the
    document; [None] when they throw (an ancestor whose [tagName] is not
    a string). *)
Record InputTarget := {
  targetTagName : option string;
  targetType : option string;
  targetId : string;
  targetClassName : string;
  targetValue : JsAtom;
  targetSelector : option string;
  targetXpath : option string
}.

(** [target.value?.substring(0, 20) || ''] : [None] is the [TypeError] of
    calling [substring] on a value that has none, a value that is neither
    a string nor [undefined] nor [null]. *)
Definition cutValue (value : JsAtom) : option string :=
  match value with
  | JUndefined | JNull => Some ""
  | JStr v =>
      let cut := String.substring 0 20 v in
      Some (if decide (cut = "") then "" else cut)
  | JBool _ | JNum _ => None
  end.

(** The [value] recorded for an input; [None] when computing it throws. *)
Definition recordedValue (target : InputTarget) : option string :=
  if negb (bool_decide (targetType target = Some "password"))
     && negb (bool_decide (targetType target = Some "email"))
  then cutValue (targetValue target)
  else Some "[REDACTED]".

(** [inputHandler] of [captureInteractions]; [None] when it throws while
    it reads the target, before [addTimelineEvent] is called. *)
Definition inputHandler (iso : string) (now : Z) (target : InputTarget)
    (r : Recorder) : option Recorder :=
  if negb (isRecording r) then Some r
  else
    tagName ← targetTagName target;
    value ← recordedValue target;
    selector ← targetSelector target;
    xpath ← targetXpath target;
    record iso now
      {| initType := "user-interaction"; initSubtype := Some "input";
         initSeverity := "info";
         initData :=
           {| message := None; level := None; dataSource := None;
              url := None; method := None; status := None;
              lineNumber := None; columnNumber := None; stack := None;
              stackTrace := None; responseBody := None;
              extra :=
                [("element.tagName", JStr tagName);
                 ("element.type",
                  match targetType target with
                  | Some t => JStr t
                  | None => JUndefined
                  end);
                 ("element.id", JStr (targetId target));
                 ("element.className", JStr (targetClassName target));
                 ("element.selector", JStr selector);
                 ("element.xpath", JStr xpath);
                 ("value", JStr value)] |} |}
      r.

(** [keypressHandler] of [captureInteractions]. *)
Definition keypressHandler (iso : string) (now : Z) (key : string)
    (r : Recorder) : option Recorder :=
  if negb (isRecording r) then Some r
  else if bool_decide (key = "Enter") || bool_decide (key = "Escape")
          || bool_decide (key = "Tab")
  then
    record iso now
      {| initType := "user-interaction"; initSubtype := Some "keypress";
         initSeverity := "info";
         initData :=
           {| message := None; level := None; dataSource := None;
              url := None; method := None; status := None;
              lineNumber := None; columnNumber := None; stack := None;
              stackTrace := None; responseBody := None;
              extra := [("key", JStr key)] |} |}
      r
  else Some r.

(** A log of the backend as the server returns it. *)
Record BackendLog := {
  logTimestamp : string;
  logRelativeTime : option Z;
  logLevel : string;
  logMessage : option string;
  logStack : option string
}.

(** The callback of [response.logs.map] in [stopRecording]:
    [relativeTime] is [log.relativeTime || 0]. *)
Definition backendLogEvent (log : BackendLog) : Event :=
  {| timestamp := logTimestamp log;
     relativeTime := default 0 (logRelativeTime log);
     type := "backend-" +:+ logLevel log;
     subtype := None;
     severity :=
       if decide (logLevel log = "error") then "error"
       else if decide (logLevel log = "warn") then "warning"
       else "info";
     source := Some "backend";
     data :=
       {| message := logMessage log; level := Some (logLevel log);
          dataSource := None; url := None; method := None; status := None;
          lineNumber := None; columnNumber := None;
          stack := logStack log; stackTrace := None; responseBody := None;
          extra := [] |} |}.

(** The answer to [stopBackendLogRecording]. *)
Record BackendStopReply := {
  backendSuccess : bool;
  backendLogEntries : option (list BackendLog)     (* response.logs *)
}.

(** The value [stopRecording] resolves to when a recording was running:
    [{...this.recordingData, timeline, keyIssues, endTime, duration}]. *)
Record Report := {
  reportData : RecordingData;
  reportTimeline : Timeline;
  reportKeyIssues : list KeyIssue;
  endTime : string;
  duration : Z
}.

(** The merge of the CDP events: a missing answer, a rejected message and
    an answer without [events] all end in the [catch] or the [else]. *)
Definition mergeCDP (reply : option Background.StopReply)
    (rd : RecordingData) : RecordingData :=
  match reply with
  | Some reply =>
      if Background.stopSuccess reply then
        match Background.stopEvents reply with
        | Some captured =>
            {| console := console rd ++ Background.capturedConsole captured;
               network := network rd ++ Background.capturedNetwork captured;
               interactions := interactions rd;
               backendLogs := backendLogs rd |}
        | None => rd
        end
      else rd
  | None => rd
  end.

(** The merge of the backend logs. *)
Definition mergeBackend (reply : option BackendStopReply)
    (rd : RecordingData) : RecordingData :=
  match reply with
  | Some reply =>
      match backendSuccess reply, backendLogEntries reply with
      | true, Some logs =>
          {| console := console rd; network := network rd;
             interactions := interactions rd;
             backendLogs := Some (map backendLogEvent logs) |}
      | _, _ => rd
      end
  | None => rd
  end.

(** [stopRecording()]: the two replies of the background script ([None]
    when [sendMessage] rejects or answers nothing), the clock readings of
    [addTimelineEvent] and of the result.  The result is what the promise
    resolves to ([None] for [null]), the new state and the messages sent;
    the outer [None] is a rejection. *)
Definition stopRecording (cdpReply : option Background.StopReply)
    (backendReply : option BackendStopReply)
    (isoMarker : string) (nowMarker : Z) (isoEnd : string) (nowEnd : Z)
    (r : Recorder) : option (option Report * Recorder * list Request) :=
  if negb (isRecording r) then Some (None, r, [])
  else
    let stopped :=
      {| isRecording := false; recordingData := recordingData r;
         startTime := startTime r;
         includeBackendLogs := includeBackendLogs r;
         captureStdout := captureStdout r |} in
    rd ← recordingData r;
    let rd := mergeCDP cdpReply rd in
    let rd :=
      if truthy (includeBackendLogs r) then mergeBackend backendReply rd
      else rd in
    marked ← record isoMarker nowMarker
      {| initType := "recording-end"; initSubtype := None;
         initSeverity := "info";
         initData :=
           {| message := None; level := None; dataSource := None;
              url := None; method := Some "user-stopped"; status := None;
              lineNumber := None; columnNumber := None; stack := None;
              stackTrace := None; responseBody := None;
              extra :=
                [("totalEvents",
                  JNum (Z.of_nat (length (console rd) + length (network rd)
                                  + length (interactions rd))))] |} |}
      (setRecordingData rd stopped);
    rd ← recordingData marked;
    let timeline := generateTimeline rd in
    Some (Some {| reportData := rd;
                  reportTimeline := timeline;
                  reportKeyIssues := analyzeKeyIssues timeline;
                  endTime := isoEnd;
                  duration := nowEnd - default 0 (startTime r) |},
          marked,
          StopCDPRecording
          :: (if truthy (includeBackendLogs r) then [StopBackendLogRecording]
              else [])).

(** What happens to the recorder, in the order it happens. *)
Inductive Action :=
| SetIncludeBackendLogs (include : JsAtom)
| SetCaptureStdout (capture : JsAtom)
| Start (include : JsAtom) (href : string) (now : Z)
    (isoMarker : string) (nowMarker : Z)
| WindowError (iso : string) (now : Z) (event : ErrorEvent)
| UnhandledRejection (iso : string) (now : Z) (reason : Reason)
| InputEvent (iso : string) (now : Z) (target : InputTarget)
| KeyDown (iso : string) (now : Z) (key : string)
| Stop (cdpReply : option Background.StopReply)
    (backendReply : option BackendStopReply)
    (isoMarker : string) (nowMarker : Z) (isoEnd : string) (nowEnd : Z).

(** What an action gives back: the messages it sent, for a stop the
    value it resolved to, and for a page event whether its handler
    threw. *)
Record Outcome := {
  sent : list Request;
  resolved : option Report;
  threw : bool
}.

(** A page event handed to its listener.  A listener that throws ends
    there: the page reports the exception and goes on, and the recorder is
    as the listener left it, which is as it was, since the handlers write
    to the recorder only in [addTimelineEvent], their last step. *)
Definition listen (r : Recorder) (handled : option Recorder)
    : Recorder * Outcome :=
  match handled with
  | Some r' => (r', {| sent := []; resolved := None; threw := false |})
  | None => (r, {| sent := []; resolved := None; threw := true |})
  end.

(** One action; [None] is a rejection of [startRecording] or
    [stopRecording]. *)
Definition step (r : Recorder) (a : Action) : option (Recorder * Outcome) :=
  match a with
  | SetIncludeBackendLogs include =>
      Some (setIncludeBackendLogs include r,
            {| sent := []; resolved := None; threw := false |})
  | SetCaptureStdout capture =>
      Some (setCaptureStdout capture r,
            {| sent := []; resolved := None; threw := false |})
  | Start include href now isoMarker nowMarker =>
      '(r', requests) ← startRecording include href now isoMarker nowMarker r;
      Some (r', {| sent := requests; resolved := None; threw := false |})
  | WindowError iso now event =>
      Some (listen r (errorHandler iso now event r))
  | UnhandledRejection iso now reason =>
      Some (listen r (rejectionHandler iso now reason r))
  | InputEvent iso now target =>
      Some (listen r (inputHandler iso now target r))
  | KeyDown iso now key =>
      Some (listen r (keypressHandler iso now key r))
  | Stop cdpReply backendReply isoMarker nowMarker isoEnd nowEnd =>
      '(result, r', requests) ←
        stopRecording cdpReply backendReply isoMarker nowMarker isoEnd
          nowEnd r;
      Some (r', {| sent := requests; resolved := result; threw := false |})
  end.

(** The actions in turn, with what each gave back. *)
Fixpoint run (r : Recorder) (actions : list Action)
    : option (Recorder * list Outcome) :=
  match actions with
  | [] => Some (r, [])
  | a :: rest =>
      '(r', outcome) ← step r a;
      '(r'', outcomes) ← run r' rest;
      Some (r'', outcome :: outcomes)
  end.

End RecorderSession.

(* ===================================================================== *)
(** ** The backend log clients *)
(* ===================================================================== *)

(** [ws.readyState] *)
Inductive ReadyState :=
| CONNECTING
| OPEN
| CLOSING
| CLOSED.

#[global] Instance ReadyState_eq_dec : EqDecision ReadyState.
Proof. solve_decision. Defined.

(** A JSON frame sent to the Pointa server.  [Terminal] is the log frame
    of a line of terminal output ([source: 'terminal']). *)
Inductive Message :=
| Register (serverPort : string)
| Log (level message timestamp : string) (stack : option string)
| Terminal (level message timestamp : string)
| Pong.

(** A control frame received from the Pointa server. *)
Inductive ServerMessage :=
| StartRecording (captureStdout : option bool)
| StopRecording
| Ping
| Unknown.

(** *** preload.cjs: the client injected with [--require] *)

Module Preload.

Definition MAX_RECONNECT_ATTEMPTS : nat := 10.

(** The module-level variables, and the effects on the outside: the frames
    written to the socket ([wire]), the delays of the [setTimeout(connect,
    delay)] calls made so far ([timeouts], oldest first) and how many of
    these timers have not fired yet ([pendingTimers]).  [stdoutHooked]
    also stands for the hooks themselves: while it is set,
    [process.stdout.write] and [process.stderr.write] call
    [sendStdoutLog] first. *)
Record State := {
  ws : option ReadyState;
  isRecording : bool;
  captureStdout : bool;
  stdoutHooked : bool;
  messageQueue : list Message;
  reconnectAttempts : nat;
  wire : list Message;
  timeouts : list Z;
  pendingTimers : nat
}.

Definition initial : State :=
  {| ws := None; isRecording := false; captureStdout := false;
     stdoutHooked := false;
     messageQueue := []; reconnectAttempts := 0; wire := [];
     timeouts := []; pendingTimers := 0 |}.

(** [ws && ws.readyState === 1] *)
Definition isOpen (st : State) : bool := bool_decide (ws st = Some OPEN).

(** [Math.min(1000 * Math.pow(2, reconnectAttempts), 30000)] *)
Definition reconnectDelay (reconnectAttempts : nat) : Z :=
  Z.min (1000 * 2 ^ Z.of_nat reconnectAttempts) 30000.

(** The end of [sendLog] and of [sendStdoutLog]:
    [ws.send(JSON.stringify(message))] on an open socket,
    [messageQueue.push(message)] otherwise. *)
Definition sendOrQueue (frame : Message) (st : State) : State :=
  if isOpen st then
    {| ws := ws st; isRecording := isRecording st;
       captureStdout := captureStdout st; stdoutHooked := stdoutHooked st;
       messageQueue := messageQueue st;
       reconnectAttempts := reconnectAttempts st;
       wire := wire st ++ [frame];
       timeouts := timeouts st; pendingTimers := pendingTimers st |}
  else
    {| ws := ws st; isRecording := isRecording st;
       captureStdout := captureStdout st; stdoutHooked := stdoutHooked st;
       messageQueue := messageQueue st ++ [frame];
       reconnectAttempts := reconnectAttempts st;
       wire := wire st;
       timeouts := timeouts st; pendingTimers := pendingTimers st |}.

(** [sendLog(level, args, stack)]; [message] is [formatArgs(args)] and
    [iso] the timestamp.  [...(stack && { stack })] keeps a non-empty stack. *)
Definition sendLog (level message iso : string) (stack : option string)
    (st : State) : State :=
  if negb (isRecording st) then st
  else
    sendOrQueue
      (Log level message iso
         (match stack with
          | Some s => if decide (s = "") then None else Some s
          | None => None
          end))
      st.

(** [/\x1b\[[0-9;]*[a-zA-Z]/g] *)
Definition ansiCode : list JS.Item :=
  [JS.char false (ascii_of_nat 27); JS.char false "["%char;
   JS.star (fun c => JS.isDigit c || (JS.code c =? 59)%nat);
   JS.between (fun c => JS.isUpper c || JS.isLower c) 1 1].

(** [sendStdoutLog(stream, data)]; [data] is the text of the chunk and
    [iso] the timestamp. *)
Definition sendStdoutLog (stream data iso : string) (st : State) : State :=
  if negb (isRecording st) || negb (captureStdout st) then st
  else
    let text := JS.replaceAll ansiCode "" data in
    if decide (JS.trim text = "") then st
    else
      sendOrQueue
        (Terminal (if decide (stream = "stderr") then "stderr" else "stdout")
           (JS.trimEnd text) iso)
        st.

(** [process.stdout.write(chunk)] and [process.stderr.write(chunk)], as
    far as the client is concerned: the hook of [hookStdout], when it is
    installed, hands the chunk to [sendStdoutLog] before it is written. *)
Definition write (stream chunk iso : string) (st : State) : State :=
  if stdoutHooked st then sendStdoutLog stream chunk iso st else st.

(** The line feed that [console.log] ends its output with. *)
Definition lineFeed : string := String (ascii_of_nat 10) EmptyString.

(** [originalConsole.log(text)]: the text and a line feed are written to
    the standard output. *)
Definition print (text iso : string) (st : State) : State :=
  write "stdout" (text +:+ lineFeed) iso st.

Definition setStdoutHooked (hooked : bool) (st : State) : State :=
  {| ws := ws st; isRecording := isRecording st;
     captureStdout := captureStdout st; stdoutHooked := hooked;
     messageQueue := messageQueue st;
     reconnectAttempts := reconnectAttempts st;
     wire := wire st;
     timeouts := timeouts st; pendingTimers := pendingTimers st |}.

(** [hookStdout()] and [unhookStdout()] *)
Definition hookStdout (st : State) : State := setStdoutHooked true st.
Definition unhookStdout (st : State) : State := setStdoutHooked false st.

(** [connect()]: [wsInstalled] tells whether [require('ws')] succeeds. *)
Definition connect (wsInstalled : bool) (st : State) : State :=
  if (MAX_RECONNECT_ATTEMPTS <=? reconnectAttempts st)%nat then st
  else if negb wsInstalled then st
  else
    {| ws := Some CONNECTING; isRecording := isRecording st;
       captureStdout := captureStdout st; stdoutHooked := stdoutHooked st;
       messageQueue := messageQueue st;
       reconnectAttempts := reconnectAttempts st;
       wire := wire st;
       timeouts := timeouts st; pendingTimers := pendingTimers st |}.

(** The state once the module is loaded: its last statement is
    [connect()]. *)
Definition loaded (wsInstalled : bool) : State := connect wsInstalled initial.

(** [ws.on('open', ...)]: the counter is reset, the connection is
    announced on the standard output ([iso] is the clock if the line is
    captured), the client registers, then the queue is flushed in order. *)
Definition onOpen (serverPort iso : string) (st : State) : State :=
  let st :=
    {| ws := Some OPEN; isRecording := isRecording st;
       captureStdout := captureStdout st; stdoutHooked := stdoutHooked st;
       messageQueue := messageQueue st;
       reconnectAttempts := 0;
       wire := wire st;
       timeouts := timeouts st; pendingTimers := pendingTimers st |} in
  let st :=
    print ("[Pointa] Connected to server, registering as port "
           +:+ serverPort) iso st in
  {| ws := ws st; isRecording := isRecording st;
     captureStdout := captureStdout st; stdoutHooked := stdoutHooked st;
     messageQueue := [];
     reconnectAttempts := reconnectAttempts st;
     wire := wire st ++ [Register serverPort] ++ messageQueue st;
     timeouts := timeouts st; pendingTimers := pendingTimers st |}.

(** [msg.type] of the messages the handler knows. *)
Definition typeText (msg : ServerMessage) : string :=
  match msg with
  | StartRecording _ => "start_recording"
  | StopRecording => "stop_recording"
  | Ping => "ping"
  | Unknown => ""
  end.

(** [msg.captureStdout !== undefined ? `captureStdout=${...}` : ''] as
    it is printed.  The text is an input of the handler ([capture]); for
    a boolean [captureStdout] it is one of these two. *)
Definition captureText (captureStdout : bool) : string :=
  if captureStdout then "captureStdout=true" else "captureStdout=false".

(** Whether [capture] can be the text printed for [msg]. *)
Definition printedFor (msg : ServerMessage) (capture : string) : bool :=
  match msg with
  | StartRecording (Some captureStdout) =>
      bool_decide (capture = captureText captureStdout)
  | _ => true
  end.

(** The line [originalConsole.log('[Pointa] Received message:', type,
    capture)] prints: its arguments separated by spaces. *)
Definition received (type capture iso : string) (st : State) : State :=
  print ("[Pointa] Received message: " +:+ type +:+ " " +:+ capture) iso st.

(** [ws.on('message', ...)] for the messages the handler knows: the line
    about the message is printed at [isoReceived], the line about the
    recording at [isoNotice].  [StartRecording None] is a message whose
    [captureStdout] is absent or not a boolean.  [Unknown] is a frame
    that does not parse: the [catch] swallows the error before anything
    is printed. *)
Definition onMessage (msg : ServerMessage)
    (capture isoReceived isoNotice : string) (st : State) : State :=
  match msg with
  | Unknown => st
  | StartRecording captureStdout' =>
      let st := received (typeText msg) capture isoReceived st in
      let st :=
        {| ws := ws st; isRecording := true;
           captureStdout := bool_decide (captureStdout' = Some true);
           stdoutHooked := stdoutHooked st;
           messageQueue := messageQueue st;
           reconnectAttempts := reconnectAttempts st;
           wire := wire st;
           timeouts := timeouts st; pendingTimers := pendingTimers st |} in
      if captureStdout st then
        print "[Pointa] Backend log recording STARTED (console + terminal output)"
          isoNotice (hookStdout st)
      else
        print "[Pointa] Backend log recording STARTED (console only)"
          isoNotice st
  | StopRecording =>
      let st := received (typeText msg) capture isoReceived st in
      let st :=
        {| ws := ws st; isRecording := false; captureStdout := false;
           stdoutHooked := stdoutHooked st;
           messageQueue := messageQueue st;
           reconnectAttempts := reconnectAttempts st;
           wire := wire st;
           timeouts := timeouts st; pendingTimers := pendingTimers st |} in
      print "[Pointa] Backend log recording STOPPED" isoNotice
        (unhookStdout st)
  | Ping =>
      let st := received (typeText msg) capture isoReceived st in
      {| ws := ws st; isRecording := isRecording st;
         captureStdout := captureStdout st; stdoutHooked := stdoutHooked st;
         messageQueue := messageQueue st;
         reconnectAttempts := reconnectAttempts st;
         wire := wire st ++ [Pong];
         timeouts := timeouts st; pendingTimers := pendingTimers st |}
  end.

(** [ws.on('message', ...)] for a message of another type: only the line
    about it is printed; [type] is [msg.type] as [console.log] prints it. *)
Definition onOtherMessage (type capture iso : string) (st : State) : State :=
  received type capture iso st.

(** [ws.on('close', ...)] *)
Definition onClose (st : State) : State :=
  let reconnectAttempts := S (reconnectAttempts st) in
  {| ws := None; isRecording := isRecording st;
     captureStdout := captureStdout st; stdoutHooked := stdoutHooked st;
     messageQueue := messageQueue st;
     reconnectAttempts := reconnectAttempts;
     wire := wire st;
     timeouts := timeouts st ++ [reconnectDelay reconnectAttempts];
     pendingTimers := S (pendingTimers st) |}.

(** The stream [console[level]] writes to. *)
Definition streamOf (level : string) : string :=
  if decide (level = "warn") then "stderr"
  else if decide (level = "error") then "stderr"
  else "stdout".

(** An overridden [console[level](...args)]: [sendLog], then the original
    method, which writes [printed] (the arguments as Node formats them)
    and a line feed to the stream of the level. *)
Definition consoleCall (level message iso : string) (stack : option string)
    (printed isoPrinted : string) (st : State) : State :=
  write (streamOf level) (printed +:+ lineFeed) isoPrinted
    (sendLog level message iso stack st).

(** The listeners of [uncaughtException] and [unhandledRejection]:
    [sendLog('error', [message], stack)], where [message] is the message
    of the error, or [Unhandled Promise Rejection: ] and the message or
    the string of the reason. *)
Definition errorListener (message iso : string) (stack : option string)
    (st : State) : State :=
  sendLog "error" message iso stack st.

(** What can happen to the client: socket events need a socket, the
    text printed for a message is the one of the message, a timer can
    only fire once scheduled, the observed program may log and write to
    its standard streams any time. *)
Inductive Input :=
| SocketOpen (serverPort iso : string)
| SocketMessage (msg : ServerMessage) (capture isoReceived isoNotice : string)
| SocketOtherMessage (type capture iso : string)
| SocketClose
| TimerFires (wsInstalled : bool)
| ConsoleCall (level message iso : string) (stack : option string)
    (printed isoPrinted : string)
| ErrorListener (message iso : string) (stack : option string)
| StreamWrite (stream chunk iso : string).

Definition step (st : State) (i : Input) : option State :=
  match i with
  | SocketOpen serverPort iso =>
      if decide (ws st = Some CONNECTING) then Some (onOpen serverPort iso st)
      else None
  | SocketMessage msg capture isoReceived isoNotice =>
      if decide (ws st = Some OPEN) then
        if printedFor msg capture
        then Some (onMessage msg capture isoReceived isoNotice st)
        else None
      else None
  | SocketOtherMessage type capture iso =>
      if decide (ws st = Some OPEN)
      then Some (onOtherMessage type capture iso st)
      else None
  | SocketClose =>
      match ws st with
      | Some _ => Some (onClose st)
      | None => None
      end
  | TimerFires wsInstalled =>
      match pendingTimers st with
      | S n =>
          Some (connect wsInstalled
                  {| ws := ws st; isRecording := isRecording st;
                     captureStdout := captureStdout st;
                     stdoutHooked := stdoutHooked st;
                     messageQueue := messageQueue st;
                     reconnectAttempts := reconnectAttempts st;
                     wire := wire st;
                     timeouts := timeouts st; pendingTimers := n |})
      | O => None
      end
  | ConsoleCall level message iso stack printed isoPrinted =>
      Some (consoleCall level message iso stack printed isoPrinted st)
  | ErrorListener message iso stack =>
      Some (errorListener message iso stack st)
  | StreamWrite stream chunk iso => Some (write stream chunk iso st)
  end.

(** A run: every input must be possible in the state it arrives in. *)
Fixpoint run (st : State) (inputs : list Input) : option State :=
  match inputs with
  | [] => Some st
  | i :: rest =>
      match step st i with
      | Some st' => run st' rest
      | None => None
      end
  end.

End Preload.

(** *** server-logger/src/logger.js: the SDK client *)

Module ServerLogger.

(** The fields of a [PointaServerLogger].  [reconnectTimer] is the delay of
    the timer that is armed, if one is; [consoleIntercepted] tells whether
    [console.*] currently goes through the logger.  The effects on the
    outside: the frames written to the socket ([wire]) and the delays of
    the [setTimeout] calls made so far ([timeouts], oldest first). *)
Record State := {
  ws : option ReadyState;
  isConnected : bool;
  isRecording : bool;
  reconnectAttempts : nat;
  maxReconnectAttempts : nat;
  reconnectDelay : Q;
  reconnectTimer : option Q;
  buffer : list Message;
  maxBufferSize : nat;
  consoleIntercepted : bool;
  wire : list Message;
  timeouts : list Q
}.

(** The state the constructor leaves. *)
Definition initial : State :=
  {| ws := None; isConnected := false; isRecording := false;
     reconnectAttempts := 0; maxReconnectAttempts := 5;
     reconnectDelay := 2000; reconnectTimer := None;
     buffer := []; maxBufferSize := 100;
     consoleIntercepted := false; wire := []; timeouts := [] |}.

Definition setSocket (s : option ReadyState) (st : State) : State :=
  {| ws := s; isConnected := isConnected st; isRecording := isRecording st;
     reconnectAttempts := reconnectAttempts st;
     maxReconnectAttempts := maxReconnectAttempts st;
     reconnectDelay := reconnectDelay st;
     reconnectTimer := reconnectTimer st;
     buffer := buffer st; maxBufferSize := maxBufferSize st;
     consoleIntercepted := consoleIntercepted st; wire := wire st;
     timeouts := timeouts st |}.

Definition setFlags (connected recording intercepted : bool) (st : State)
    : State :=
  {| ws := ws st; isConnected := connected; isRecording := recording;
     reconnectAttempts := reconnectAttempts st;
     maxReconnectAttempts := maxReconnectAttempts st;
     reconnectDelay := reconnectDelay st;
     reconnectTimer := reconnectTimer st;
     buffer := buffer st; maxBufferSize := maxBufferSize st;
     consoleIntercepted := intercepted; wire := wire st;
     timeouts := timeouts st |}.

Definition setReconnect (attempts : nat) (timer : option Q) (st : State)
    : State :=
  {| ws := ws st; isConnected := isConnected st;
     isRecording := isRecording st;
     reconnectAttempts := attempts;
     maxReconnectAttempts := maxReconnectAttempts st;
     reconnectDelay := reconnectDelay st;
     reconnectTimer := timer;
     buffer := buffer st; maxBufferSize := maxBufferSize st;
     consoleIntercepted := consoleIntercepted st; wire := wire st;
     timeouts := timeouts st |}.

(** [this.reconnectTimer = setTimeout(() => this.connect(), delay)] *)
Definition armTimer (delay : Q) (st : State) : State :=
  {| ws := ws st; isConnected := isConnected st;
     isRecording := isRecording st;
     reconnectAttempts := reconnectAttempts st;
     maxReconnectAttempts := maxReconnectAttempts st;
     reconnectDelay := reconnectDelay st;
     reconnectTimer := Some delay;
     buffer := buffer st; maxBufferSize := maxBufferSize st;
     consoleIntercepted := consoleIntercepted st; wire := wire st;
     timeouts := timeouts st ++ [delay] |}.

Definition setQueues (buf w : list Message) (st : State) : State :=
  {| ws := ws st; isConnected := isConnected st;
     isRecording := isRecording st;
     reconnectAttempts := reconnectAttempts st;
     maxReconnectAttempts := maxReconnectAttempts st;
     reconnectDelay := reconnectDelay st;
     reconnectTimer := reconnectTimer st;
     buffer := buf; maxBufferSize := maxBufferSize st;
     consoleIntercepted := consoleIntercepted st; wire := w;
     timeouts := timeouts st |}.

(** [this.ws && this.ws.readyState === WebSocket.OPEN] *)
Definition isOpen (st : State) : bool := bool_decide (ws st = Some OPEN).

(** [send(data)] *)
Definition send (data : Message) (st : State) : State :=
  if isOpen st then setQueues (buffer st) (wire st ++ [data]) st
  else if (length (buffer st) <? maxBufferSize st)%nat
  then setQueues (buffer st ++ [data]) (wire st) st
  else st.

(** [flushBuffer()]: while the socket is open, [shift] the oldest entry and
    [send] it.  An open socket never buffers, so the loop walks the buffer
    it started with. *)
Fixpoint flushLoop (pending : list Message) (st : State) : State :=
  match pending with
  | [] => st
  | data :: rest =>
      if isOpen st then flushLoop rest (send data (setQueues rest (wire st) st))
      else st
  end.

Definition flushBuffer (st : State) : State := flushLoop (buffer st) st.

(** [this.reconnectDelay * Math.pow(1.5, this.reconnectAttempts - 1)] *)
Definition backoffDelay (reconnectDelay : Q) (reconnectAttempts : nat) : Q :=
  (reconnectDelay * (3 # 2) ^ (Z.of_nat reconnectAttempts - 1))%Q.

(** [scheduleReconnect()] *)
Definition scheduleReconnect (st : State) : State :=
  let st := setReconnect (reconnectAttempts st) None st in   (* clearTimeout *)
  if (maxReconnectAttempts st <=? reconnectAttempts st)%nat then st
  else
    let st := setReconnect (S (reconnectAttempts st)) None st in
    let delay := backoffDelay (reconnectDelay st) (reconnectAttempts st) in
    armTimer delay st.

(** [connect()] *)
Definition connect (st : State) : State :=
  if bool_decide (ws st = Some CONNECTING) || bool_decide (ws st = Some OPEN)
  then st
  else setSocket (Some CONNECTING) st.

(** [normalizeLevel(level)] *)
Definition normalizeLevel (level : string) : string :=
  if decide (level = "warn") then "warn"
  else if decide (level = "error") then "error"
  else "log".

(** [sendLog(level, args, stack)]; [message] is [formatArgs(args)]. *)
Definition sendLog (level message iso : string) (stack : option string)
    (st : State) : State :=
  send (Log (normalizeLevel level) message iso stack) st.

(** [handleServerMessage(message)] *)
Definition handleServerMessage (msg : ServerMessage) (st : State) : State :=
  match msg with
  | StartRecording _ => setFlags (isConnected st) true (consoleIntercepted st) st
  | StopRecording => setFlags (isConnected st) false (consoleIntercepted st) st
  | Ping => send Pong st
  | Unknown => st
  end.

(** [ws.on('open', ...)] *)
Definition onOpen (st : State) : State :=
  let st := setSocket (Some OPEN) st in
  let st := setFlags true (isRecording st) (consoleIntercepted st) st in
  let st := setReconnect 0 (reconnectTimer st) st in
  let st := flushBuffer st in
  setFlags (isConnected st) (isRecording st) true st.

(** [ws.on('close', ...)] *)
Definition onClose (st : State) : State :=
  let st := setSocket (Some CLOSED) st in
  let st := setFlags false false false st in
  scheduleReconnect st.

(** [ws.on('error', ...)]: [refused] is [error.code === 'ECONNREFUSED']. *)
Definition onError (refused : bool) (st : State) : State :=
  if refused then scheduleReconnect st else st.

(** An intercepted [console[level](...args)]. *)
Definition consoleCall (level message iso : string) (st : State) : State :=
  if isRecording st && isConnected st then sendLog level message iso None st
  else st.

Inductive Input :=
| SocketOpen
| SocketMessage (msg : ServerMessage)
| SocketError (refused : bool)
| SocketClosing
| SocketClose
| TimerFires
| ConsoleCall (level message iso : string)
| CallConnect.

(** Socket events need a live socket, the timer must be armed, an
    intercepted console call needs the interception installed. *)
Definition step (st : State) (i : Input) : option State :=
  match i with
  | SocketOpen =>
      if decide (ws st = Some CONNECTING) then Some (onOpen st) else None
  | SocketMessage msg =>
      if decide (ws st = Some OPEN) then Some (handleServerMessage msg st)
      else None
  | SocketError refused =>
      match ws st with
      | Some CONNECTING | Some OPEN | Some CLOSING => Some (onError refused st)
      | _ => None
      end
  | SocketClosing =>
      match ws st with
      | Some CONNECTING | Some OPEN => Some (setSocket (Some CLOSING) st)
      | _ => None
      end
  | SocketClose =>
      match ws st with
      | Some CONNECTING | Some OPEN | Some CLOSING => Some (onClose st)
      | _ => None
      end
  | TimerFires =>
      match reconnectTimer st with
      | Some _ => Some (connect (setReconnect (reconnectAttempts st) None st))
      | None => None
      end
  | ConsoleCall level message iso =>
      if consoleIntercepted st then Some (consoleCall level message iso st)
      else None
  | CallConnect => Some (connect st)
  end.

Fixpoint run (st : State) (inputs : list Input) : option State :=
  match inputs with
  | [] => Some st
  | i :: rest =>
      match step st i with
      | Some st' => run st' rest
      | None => None
      end
  end.

(** [disconnect()]: the timer is cleared, the console restored, the
    socket closed and forgotten. *)
Definition disconnect (st : State) : State :=
  let st := setReconnect (reconnectAttempts st) None st in
  let st := setFlags (isConnected st) (isRecording st) false st in
  let st := setSocket None st in
  setFlags false false (consoleIntercepted st) st.

End ServerLogger.

(** *** logger.js and the listeners it adds to [process]

    The [open] handler calls [process.on('unhandledRejection', ...)] each
    time a socket opens; [process] keeps every listener it is given and
    calls each of them for a rejection; [disconnect()] removes one. *)

Module LoggerProcess.

Record Process := {
  logger : ServerLogger.State;
  captureRejections : bool;          (* options.captureRejections !== false *)
  rejectionListeners : nat
}.

(** [new PointaServerLogger(options)] *)
Definition initial (captureRejections : bool) : Process :=
  {| logger := ServerLogger.initial;
     captureRejections := captureRejections;
     rejectionListeners := 0 |}.

Definition setLogger (st : ServerLogger.State) (p : Process) : Process :=
  {| logger := st; captureRejections := captureRejections p;
     rejectionListeners := rejectionListeners p |}.

(** [handleUnhandledRejection(reason)]; [message] is [reason.message] or
    [String(reason)], [stack] is [reason.stack] of an [Error]. *)
Definition handleUnhandledRejection (message iso : string)
    (stack : option string) (st : ServerLogger.State) : ServerLogger.State :=
  if ServerLogger.isRecording st && ServerLogger.isConnected st then
    ServerLogger.sendLog "error" ("Unhandled Promise Rejection: " +:+ message)
      iso stack st
  else st.

Inductive Input :=
| Socket (i : ServerLogger.Input)
| UnhandledRejection (message iso : string) (stack : option string)
| Disconnect.

Definition step (p : Process) (i : Input) : option Process :=
  match i with
  | Socket ServerLogger.SocketOpen =>
      st ← ServerLogger.step (logger p) ServerLogger.SocketOpen;
      Some {| logger := st; captureRejections := captureRejections p;
              rejectionListeners :=
                if captureRejections p then S (rejectionListeners p)
                else rejectionListeners p |}
  | Socket i => st ← ServerLogger.step (logger p) i; Some (setLogger st p)
  | UnhandledRejection message iso stack =>
      Some (setLogger
              (Nat.iter (rejectionListeners p)
                 (handleUnhandledRejection message iso stack) (logger p))
              p)
  | Disconnect =>
      Some {| logger := ServerLogger.disconnect (logger p);
              captureRejections := captureRejections p;
              rejectionListeners :=
                if captureRejections p then Nat.pred (rejectionListeners p)
                else rejectionListeners p |}
  end.

Fixpoint run (p : Process) (inputs : list Input) : option Process :=
  match inputs with
  | [] => Some p
  | i :: rest =>
      match step p i with
      | Some p' => run p' rest
      | None => None
      end
  end.

End LoggerProcess.

(* ===================================================================== *)
(** * Sample data and proof tools *)
(* ===================================================================== *)

(** ** Sample events *)

Module Samples.

(** A console error with message ["boom"] at relative time [t]. *)
Definition boom (t : Z) : Event :=
  {| timestamp := "2025-01-01T00:00:00.000Z"; relativeTime := t;
     type := "console-error"; subtype := None; severity := "error";
     source := None;
     data := withMessage emptyData (Some "boom") |}.

(** The same error after [n] occurrences were folded into it. *)
Definition boomTimes (t : Z) (n : string) : Event :=
  withData (boom t)
    (withMessage emptyData (Some ("boom (×" +:+ n +:+ ")"))).

(** A console warning in between. *)
Definition careful (t : Z) : Event :=
  {| timestamp := "2025-01-01T00:00:00.000Z"; relativeTime := t;
     type := "console-warning"; subtype := None; severity := "warning";
     source := None;
     data := withMessage emptyData (Some "careful") |}.

(** A network event of the CDP capture. *)
Definition request (t : Z) (outcome requestMethod requestUrl : string)
    (code : option Z) : Event :=
  {| timestamp := "2025-01-01T00:00:00.000Z"; relativeTime := t;
     type := "network"; subtype := Some outcome;
     severity := if decide (outcome = "failed") then "error" else "info";
     source := None;
     data :=
       {| message := None; level := None; dataSource := None;
          url := Some requestUrl; method := Some requestMethod;
          status := code; lineNumber := None; columnNumber := None;
          stack := None; stackTrace := None; responseBody := None;
          extra := [("type", JStr "cdp")] |} |}.

(** A console error with its source. *)
Definition errorFrom (t : Z) (text origin : string) : Event :=
  {| timestamp := "2025-01-01T00:00:00.000Z"; relativeTime := t;
     type := "console-error"; subtype := None; severity := "error";
     source := None;
     data :=
       {| message := Some text; level := Some "error";
          dataSource := Some origin;
          url := None; method := None; status := None;
          lineNumber := Some 12; columnNumber := None;
          stack := None; stackTrace := None; responseBody := None;
          extra := [] |} |}.

(** A recording with an error of the page and, in its network buffer, a
    CORS preflight, a health check of the Pointa server and a request of
    the page. *)
Definition noisyRecording : BugRecorder.RecordingData :=
  {| BugRecorder.console :=
       [errorFrom 50 "Failed to load" "http://localhost:3000/app.js"];
     BugRecorder.network :=
       [request 100 "success" "OPTIONS" "http://localhost:3000/api/data"
          (Some 204);
        request 150 "success" "GET" "http://127.0.0.1:4242/health" (Some 200);
        request 200 "success" "POST" "http://localhost:3000/api/data"
          (Some 201)];
     BugRecorder.interactions := [];
     BugRecorder.backendLogs := Some [] |}.

(** The three raw events of the scenario of the specification. *)
Definition scenarioRecording : BugRecorder.RecordingData :=
  {| BugRecorder.console :=
       [errorFrom 500 "Pointa overlay failed"
          "chrome-extension://abcdef/content/overlay.js";
        errorFrom 820 "Cannot read properties of undefined"
          "http://localhost:3000/app.js"];
     BugRecorder.network :=
       [request 800 "failed" "GET" "/api/data" (Some 500)];
     BugRecorder.interactions := [];
     BugRecorder.backendLogs := Some [] |}.

End Samples.

(** ** Sample browser states *)

Module DebuggerSamples.
Import Background.

(** A browser with no attachment that rejects nothing. *)
Definition quietChrome : Chrome :=
  {| attached := ∅; rejects := fun _ _ => None |}.

(** A browser in which the page of every tab refuses the Log domain. *)
Definition noLogDomain : Chrome :=
  {| attached := ∅;
     rejects := fun _ call =>
       match call with
       | SendCommand command =>
           if decide (command = "Log.enable") then Some "Log domain refused"
           else None
       | _ => None
       end |}.

(** A browser in which the page of every tab refuses every command, each
    with an error of its own. *)
Definition noDomains : Chrome :=
  {| attached := ∅;
     rejects := fun _ call =>
       match call with
       | SendCommand command => Some (command +:+ " refused")
       | _ => None
       end |}.

(** A browser that rejects nothing, with another debugger on tab 7. *)
Definition foreignDebugger : Chrome :=
  {| attached := {[7]}; rejects := fun _ _ => None |}.

Definition idle (c : Chrome) : State :=
  {| viewportOverrides := ∅; cdpRecordings := ∅; chrome := c |}.

(** Tab 7: viewport emulation switched on, then a recording started. *)
Definition emulating : State := (setViewport 7 1280 720 (idle quietChrome)).2.
Definition emulatingAndRecording : State :=
  (startCDPRecording 1000 7 emulating).2.

End DebuggerSamples.

(** ** Sample CDP traffic *)

Module ListenerSamples.
Import Background.

(** A recording as [startCDPRecording] creates it. *)
Definition started : Recording :=
  {| recEvents := []; startTime := 1000; pendingRequests := Some ∅ |}.

(** Request ["r1"] starts at 1200 and fails to load at 1250. *)
Definition r1Started : Recording :=
  handleEvent "2025-01-01T00:00:01.200Z" 200
    (NetworkRequestWillBeSent "r1" "http://localhost:3000/api/data" "POST")
    started.

Definition r1Failed : Recording :=
  handleEvent "2025-01-01T00:00:01.250Z" 250
    (NetworkLoadingFailed "r1" (Some "net::ERR_CONNECTION_REFUSED")
       (Some false) None)
    r1Started.

Definition frame (name : string) (line : Z) : CallFrame :=
  {| cfFunctionName := Some name;
     cfUrl := Some "http://localhost:3000/app.js";
     cfLineNumber := Some line; cfColumnNumber := Some 1 |}.

(** An uncaught exception four frames deep. *)
Definition deepException : ExceptionDetails :=
  {| exceptionText := "Uncaught TypeError";
     exceptionDescription := None;
     exceptionUrl := Some "http://localhost:3000/app.js";
     exceptionLineNumber := Some 10; exceptionColumnNumber := Some 1;
     exceptionStackTrace :=
       Some {| callFrames :=
                 Some [frame "a" 10; frame "b" 20; frame "c" 30;
                       frame "d" 40] |} |}.

End ListenerSamples.

(** ** Sample log client states *)

Module LogClientSamples.


(** [n] console calls with the same text. *)
Definition logs (n : nat) (text : string) : list ServerLogger.Input :=
  replicate n (ServerLogger.ConsoleCall "log" text "2025-01-01T00:00:02.000Z").

Definition after (st : ServerLogger.State) (inputs : list ServerLogger.Input)
    : ServerLogger.State :=
  default st (ServerLogger.run st inputs).

Definition afterPreload (st : Preload.State) (inputs : list Preload.Input)
    : Preload.State :=
  default st (Preload.run st inputs).


(** The preload client after ten connections in a row were closed. *)
Definition preloadExhausted : Preload.State :=
  afterPreload (Preload.loaded true)
    (Preload.SocketClose
     :: concat (replicate 9 [Preload.TimerFires true; Preload.SocketClose])).

End LogClientSamples.

(** ** The recording markers *)

(** A type that is neither of the two markers. *)
Definition notMarker (t : string) : Prop :=
  t <> "recording-start" /\ t <> "recording-end".

Definition noMarkers (l : list Event) : Prop :=
  Forall (fun e => notMarker (type e)) l.

(** ** Runs of repeated events *)

(** [e] repeats [first]: same type, same message, strictly less than
    100 ms away from it. *)
Definition repeats (first e : Event) : Prop :=
  type e = type first
  /\ message (data e) = message (data first)
  /\ Z.abs (relativeTime e - relativeTime first) < 100.

(** A run: a first event and the events after it that repeat it. *)
Definition Run : Type := Event * list Event.

Definition runEvents (r : Run) : list Event := r.1 :: r.2.

Definition isRun (r : Run) : Prop := Forall (repeats r.1) r.2.

(** No run can be extended: the first event of each run does not repeat
    the first event of the run before it. *)
Fixpoint separated (runs : list Run) : Prop :=
  match runs with
  | r :: (r' :: _) as later => ~ repeats r.1 r'.1 /\ separated later
  | _ => True
  end.

(** What a run is collapsed into: its first event, the message suffixed
    with the length of the run when it has two events or more. *)
Definition collapsed (r : Run) : Event :=
  match r.2 with
  | [] => r.1
  | _ :: _ =>
      withData r.1
        (withMessage (data r.1)
           (Some (JS.show (message (data r.1)) +:+ " (×"
                  +:+ JS.natToString (length r.2 + 1) +:+ ")")))
  end.

(** ** Running a promise symbolically *)

Ltac run_promise :=
  unfold Background.startCDPRecording, Background.stopCDPRecording,
    Background.setViewport, Background.resetViewport,
    Background.tryCatch, mbind, Background.M_bind, Background.bind,
    Background.gets, Background.modify, Background.ret, Background.throw,
    Background.debuggerAttach, Background.debuggerSendCommand,
    Background.debuggerDetach; simpl.

Ltac split_call :=
  match goal with
  | |- context [Background.rejects ?c ?t ?call] =>
      let E := fresh "Hrej" in destruct (Background.rejects c t call) eqn:E; simpl
  | |- context [decide (?t ∈ ?s)] =>
      let E := fresh "Hatt" in destruct (decide (t ∈ s)) as [E|E]; simpl
  | |- context [bool_decide (is_Some ?o)] =>
      let E := fresh "Hview" in destruct o eqn:E; simpl
  end.

(** ** The calls of a promise to the browser *)

(** One call to [chrome.debugger] for a tab. *)
Definition perform (tabId : Z) (call : Background.DebuggerCall)
    : Background.M unit :=
  match call with
  | Background.Attach => Background.debuggerAttach tabId
  | Background.Detach => Background.debuggerDetach tabId
  | Background.SendCommand command =>
      Background.debuggerSendCommand tabId command
  end.

(** Calls awaited one after the other: the first that throws ends the
    sequence. *)
Fixpoint performAll (tabId : Z) (calls : list Background.DebuggerCall)
    : Background.M unit :=
  match calls with
  | [] => Background.ret tt
  | call :: rest =>
      Background.bind (perform tabId call) (fun _ => performAll tabId rest)
  end.

(** The calls [startCDPRecording] makes for a tab without recording, in
    the order it makes them: the attach unless the viewport emulation
    holds the debugger, then the three domains. *)
Definition startCalls (st : Background.State) (tabId : Z)
    : list Background.DebuggerCall :=
  (if bool_decide (is_Some (Background.viewportOverrides st !! tabId))
   then [] else [Background.Attach])
  ++ [Background.SendCommand "Network.enable";
      Background.SendCommand "Log.enable";
      Background.SendCommand "Runtime.enable"].

(** ** The events the CDP listener builds *)

(** A request outcome: success with severity info, or failure with
    severity error. *)
Definition networkShape (e : Event) : Prop :=
  type e = "network"
  /\ ((subtype e = Some "success" /\ severity e = "info")
      \/ (subtype e = Some "failed" /\ severity e = "error")).

(** A console event, its severity following its type. *)
Definition consoleShape (e : Event) : Prop :=
  subtype e = None
  /\ ((type e = "console-error" /\ severity e = "error")
      \/ (type e = "console-warning" /\ severity e = "warning")
      \/ (type e = "console-log" /\ severity e = "info")).

(** No call frame kept with the event is one of the extension's own
    scripts, and a console event does not carry the url of one. *)
Definition noOwnFrames (e : Event) : Prop :=
  (type e = "network" \/ Background.isPointaUrl (url (data e)) = false)
  /\ forall frames, stackTrace (data e) = Some frames ->
       Forall (fun f => Background.isPointaUrl (frameUrl f) = false) frames.

(** What a recording holds when the listener built all its events. *)
Definition fromListener (e : Event) : Prop :=
  (networkShape e \/ consoleShape e) /\ source e = None /\ noOwnFrames e.

(** Where a recorded event comes from: a delivery of the run for this
    tab, whose clock readings it carries. *)
Definition stampedBy (ds : list Background.Delivery) (t start : Z)
    (e : Event) : Prop :=
  exists d, d ∈ ds /\ Background.onTab d = t
            /\ timestamp e = Background.atIso d
            /\ relativeTime e = Background.atNow d - start.

(** Tab 7 with a recording started at 1000. *)
Definition recordingTab7 : Background.State :=
  (Background.startCDPRecording 1000 7
     (DebuggerSamples.idle DebuggerSamples.quietChrome)).2.

(** The deliveries of a run that are for tab [t]. *)
Definition deliveriesFor (t : Z) (ds : list Background.Delivery)
    : list Background.Delivery :=
  List.filter (fun d => bool_decide (Background.onTab d = t)) ds.

(** A sample run on tabs 7 and 8: a request that fails, a console call of
    the page, one of the extension's own scripts and an event of tab 8. *)
Definition sampleRun : list Background.Delivery :=
  [ {| Background.atIso := "2024-05-01T10:00:00.100Z";
       Background.atNow := 1100; Background.onTab := 7;
       Background.delivered :=
         Background.NetworkRequestWillBeSent "r1"
           "http://localhost:3000/api/data" "POST" |};
    {| Background.atIso := "2024-05-01T10:00:00.250Z";
       Background.atNow := 1250; Background.onTab := 7;
       Background.delivered :=
         Background.NetworkLoadingFailed "r1" (Some "net::ERR_FAILED")
           None None |};
    {| Background.atIso := "2024-05-01T10:00:00.300Z";
       Background.atNow := 1300; Background.onTab := 8;
       Background.delivered :=
         Background.RuntimeConsoleAPICalled "log" [] None |};
    {| Background.atIso := "2024-05-01T10:00:00.400Z";
       Background.atNow := 1400; Background.onTab := 7;
       Background.delivered :=
         Background.RuntimeConsoleAPICalled "error"
           [ {| Background.argType := "string";
                Background.argValue := JStr "boom";
                Background.argDescription := None;
                Background.argPreview := None |} ]
           (Some {| Background.callFrames :=
                      Some [ {| Background.cfFunctionName := Some "load";
                                Background.cfUrl :=
                                  Some "http://localhost:3000/app.js";
                                Background.cfLineNumber := Some 12;
                                Background.cfColumnNumber := Some 3 |} ] |}) |};
    {| Background.atIso := "2024-05-01T10:00:00.450Z";
       Background.atNow := 1450; Background.onTab := 7;
       Background.delivered :=
         Background.RuntimeConsoleAPICalled "log"
           [ {| Background.argType := "string";
                Background.argValue := JStr "[Pointa] saved";
                Background.argDescription := None;
                Background.argPreview := None |} ]
           (Some {| Background.callFrames :=
                      Some [ {| Background.cfFunctionName := Some "save";
                                Background.cfUrl :=
                                  Some "chrome-extension://abc/content/x.js";
                                Background.cfLineNumber := Some 1;
                                Background.cfColumnNumber := Some 1 |} ] |}) |} ].

(** Tab 7 after the debugger was detached behind the extension's back
    (the user dismissed the debugging banner) while the viewport override
    is still stored. *)
Definition detachedBehind : Background.State :=
  Background.setChrome DebuggerSamples.quietChrome DebuggerSamples.emulating.

(** ** What the correlator leaves of an event *)

(** [e] is [e0] up to its message and its stack trace. *)
Definition sameButMessage (e e0 : Event) : Prop :=
  timestamp e = timestamp e0 /\ relativeTime e = relativeTime e0
  /\ type e = type e0 /\ subtype e = subtype e0
  /\ severity e = severity e0 /\ source e = source e0
  /\ level (data e) = level (data e0)
  /\ dataSource (data e) = dataSource (data e0)
  /\ url (data e) = url (data e0) /\ method (data e) = method (data e0)
  /\ status (data e) = status (data e0)
  /\ lineNumber (data e) = lineNumber (data e0)
  /\ columnNumber (data e) = columnNumber (data e0)
  /\ stack (data e) = stack (data e0)
  /\ responseBody (data e) = responseBody (data e0)
  /\ extra (data e) = extra (data e0).

(** [e] stems from an event of [l]. *)
Definition stemsFrom (l : list Event) (e : Event) : Prop :=
  exists e0, e0 ∈ l /\ sameButMessage e e0.

(** A recording whose network buffer holds two requests. *)
Definition twoRequests (a b : Event) : BugRecorder.RecordingData :=
  {| BugRecorder.console := []; BugRecorder.network := [a; b];
     BugRecorder.interactions := []; BugRecorder.backendLogs := Some [] |}.

(** ** Clock texts *)

(** The decimal digit [d]. *)
Definition digit (d : Z) : ascii := ascii_of_nat (48 + Z.to_nat d).

(** The text [MM:SS] of [m] minutes and [s] seconds. *)
Definition clockText (m s : Z) : string :=
  String (digit (m / 10))
    (String (digit (m mod 10))
       (String ":"%char
          (String (digit (s / 10)) (String (digit (s mod 10)) "")))).

(** The texts of every whole second below [upTo] are clock texts. *)
Definition clockTextsAgree (upTo : nat) : bool :=
  forallb
    (fun n =>
       let s := Z.of_nat n in
       String.eqb
         (BugRecorder.padStart2 (JS.numToString (s / 60)) +:+ ":"
          +:+ BugRecorder.padStart2 (JS.numToString (Z.rem s 60)))
         (clockText (s / 60) (s mod 60)))
    (seq 0 upTo).

(** ** The buffers of a recording *)

(** Every buffer holds events of its own kind. *)
Definition typedBuffers (rd : BugRecorder.RecordingData) : Prop :=
  Forall (fun e => JS.startsWith (type e) "console" = true)
    (BugRecorder.console rd)
  /\ Forall (fun e => type e = "network") (BugRecorder.network rd)
  /\ Forall (fun e => JS.startsWith (type e) "user-interaction" = true)
       (BugRecorder.interactions rd)
  /\ Forall (fun e => JS.startsWith (type e) "backend-" = true)
       (default [] (BugRecorder.backendLogs rd)).

(** The same input element holding another value. *)
Definition withValue (target : RecorderSession.InputTarget)
    (value : JsAtom) : RecorderSession.InputTarget :=
  {| RecorderSession.targetTagName := RecorderSession.targetTagName target;
     RecorderSession.targetType := RecorderSession.targetType target;
     RecorderSession.targetId := RecorderSession.targetId target;
     RecorderSession.targetClassName :=
       RecorderSession.targetClassName target;
     RecorderSession.targetValue := value;
     RecorderSession.targetSelector := RecorderSession.targetSelector target;
     RecorderSession.targetXpath := RecorderSession.targetXpath target |}.

(** A recorder on which the user switched the terminal output off after
    asking for backend logs. *)
Definition consoleOnlyAsked : RecorderSession.Recorder :=
  RecorderSession.setCaptureStdout (JBool false)
    (RecorderSession.setIncludeBackendLogs (JBool true)
       RecorderSession.initial).

(** The data of the recorder is typed. *)
Definition typedRecorder (r : RecorderSession.Recorder) : Prop :=
  forall rd, RecorderSession.recordingData r = Some rd -> typedBuffers rd.

(** While a recording runs, its data is there. *)
Definition ready (r : RecorderSession.Recorder) : Prop :=
  RecorderSession.isRecording r = true ->
  is_Some (RecorderSession.recordingData r).

(** A page event its handler cannot read: a rejection whose reason has
    no string conversion; an input whose target has no tag name, whose
    value (read unless the field is a password or an email) has no
    [substring], or whose selectors cannot be computed. *)
Definition unreadable (a : RecorderSession.Action) : bool :=
  match a with
  | RecorderSession.UnhandledRejection _ _ RecorderSession.Unprintable =>
      true
  | RecorderSession.InputEvent _ _ target =>
      negb (bool_decide (is_Some (RecorderSession.targetTagName target)))
      || negb (bool_decide (is_Some (RecorderSession.recordedValue target)))
      || negb (bool_decide (is_Some (RecorderSession.targetSelector target)))
      || negb (bool_decide (is_Some (RecorderSession.targetXpath target)))
  | _ => false
  end.

(** Sample events: a promise rejected with a symbol, a custom element
    that keeps a number as its value, and the same value in a password
    field. *)
Definition symbolRejection : RecorderSession.Action :=
  RecorderSession.UnhandledRejection "2024-05-01T10:00:00.500Z" 1500
    RecorderSession.Unprintable.

Definition sliderInput (type : option string) : RecorderSession.Action :=
  RecorderSession.InputEvent "2024-05-01T10:00:00.550Z" 1550
    {| RecorderSession.targetTagName := Some "x-slider";
       RecorderSession.targetType := type;
       RecorderSession.targetId := "volume";
       RecorderSession.targetClassName := "";
       RecorderSession.targetValue := JNum 7;
       RecorderSession.targetSelector := Some "#volume";
       RecorderSession.targetXpath := Some "//*[@id='volume']" |}.

(** The CDP reply of every stop is one the background script builds. *)
Definition fromBackground (a : RecorderSession.Action) : Prop :=
  match a with
  | RecorderSession.Stop (Some reply) _ _ _ _ _ =>
      exists tabId st, reply = (Background.onStopCDPRecording tabId st).1
  | _ => True
  end.

(** A session with backend logs: an uncaught error, a password typed, the
    Enter key, then the stop with the events of the sample CDP run and one
    backend error. *)
Definition sampleSession : list RecorderSession.Action :=
  [ RecorderSession.SetIncludeBackendLogs (JBool true);
    RecorderSession.Start JUndefined "http://localhost:3000/" 1000
      "2024-05-01T10:00:00.000Z" 1000;
    RecorderSession.WindowError "2024-05-01T10:00:00.420Z" 1420
      {| RecorderSession.errorMessage := Some "Uncaught TypeError: x is null";
         RecorderSession.errorFilename := Some "http://localhost:3000/app.js";
         RecorderSession.errorLineno := Some 12;
         RecorderSession.errorColno := Some 3;
         RecorderSession.errorStack := None |};
    RecorderSession.InputEvent "2024-05-01T10:00:00.600Z" 1600
      {| RecorderSession.targetTagName := Some "input";
         RecorderSession.targetType := Some "password";
         RecorderSession.targetId := "pw";
         RecorderSession.targetClassName := "";
         RecorderSession.targetValue := JStr "hunter2";
         RecorderSession.targetSelector := Some "#pw";
         RecorderSession.targetXpath := Some "//*[@id='pw']" |};
    RecorderSession.KeyDown "2024-05-01T10:00:00.700Z" 1700 "Enter";
    RecorderSession.Stop
      (Some (Background.onStopCDPRecording 7
               (Background.deliverAll recordingTab7 sampleRun)).1)
      (Some {| RecorderSession.backendSuccess := true;
               RecorderSession.backendLogEntries :=
                 Some [ {| RecorderSession.logTimestamp :=
                             "2024-05-01T10:00:00.260Z";
                           RecorderSession.logRelativeTime := Some 260;
                           RecorderSession.logLevel := "error";
                           RecorderSession.logMessage :=
                             Some "database is locked";
                           RecorderSession.logStack := None |} ] |})
      "2024-05-01T10:00:02.000Z" 3000 "2024-05-01T10:00:02.100Z" 3100 ].

(** The recorder of the sample session just before its stop. *)
Definition sampleRunning : RecorderSession.Recorder :=
  match RecorderSession.run RecorderSession.initial (take 5 sampleSession) with
  | Some (r, _) => r
  | None => RecorderSession.initial
  end.

(** ** The logs of a backend client *)

Definition isLog (m : Message) : bool :=
  match m with
  | Log _ _ _ _ => true
  | _ => false
  end.





(** [st'] is [st] after [frames] were handed to the socket or the queue:
    written when the socket is open, queued otherwise, nothing else
    changed. *)
Definition emits (st st' : Preload.State) (frames : list Message) : Prop :=
  Preload.ws st' = Preload.ws st
  /\ Preload.isRecording st' = Preload.isRecording st
  /\ Preload.captureStdout st' = Preload.captureStdout st
  /\ Preload.stdoutHooked st' = Preload.stdoutHooked st
  /\ Preload.reconnectAttempts st' = Preload.reconnectAttempts st
  /\ Preload.timeouts st' = Preload.timeouts st
  /\ Preload.pendingTimers st' = Preload.pendingTimers st
  /\ (if Preload.isOpen st
      then Preload.wire st' = Preload.wire st ++ frames
           /\ Preload.messageQueue st' = Preload.messageQueue st
      else Preload.wire st' = Preload.wire st
           /\ Preload.messageQueue st' = Preload.messageQueue st ++ frames).


(** The text of a chunk of terminal output as [sendStdoutLog] cleans it. *)
Definition cleaned (chunk : string) : string :=
  JS.replaceAll Preload.ansiCode "" chunk.

(** The log frames the SDK logger wrote or still buffers. *)
Definition loggerLogs (st : ServerLogger.State) : list Message :=
  List.filter isLog (ServerLogger.wire st ++ ServerLogger.buffer st).

(** The server does not ask for a recording. *)
Definition notStart (i : ServerLogger.Input) : Prop :=
  match i with
  | ServerLogger.SocketMessage (StartRecording _) => False
  | _ => True
  end.

(** A Pointa server that is not running: every connection is refused
    (an error, then the close), and the timer starts the next one. *)
Definition serverDown : list ServerLogger.Input :=
  [ ServerLogger.CallConnect;
    ServerLogger.SocketError true; ServerLogger.SocketClose;
    ServerLogger.TimerFires;
    ServerLogger.SocketError true; ServerLogger.SocketClose;
    ServerLogger.TimerFires;
    ServerLogger.SocketError true; ServerLogger.SocketClose ].

(** The SDK logger, connected and recording. *)
Definition loggerRecording : ServerLogger.State :=
  LogClientSamples.after ServerLogger.initial
    [ServerLogger.CallConnect; ServerLogger.SocketOpen;
     ServerLogger.SocketMessage (StartRecording None)].

(** The opens of a run of the process. *)
Definition isOpenInput (i : LoggerProcess.Input) : bool :=
  match i with
  | LoggerProcess.Socket ServerLogger.SocketOpen => true
  | _ => false
  end.

Definition isDisconnect (i : LoggerProcess.Input) : bool :=
  match i with
  | LoggerProcess.Disconnect => true
  | _ => false
  end.

(** A server restarted once while the SDK logger runs, then a recording
    and a rejected promise. *)
Definition restartedServer : list LoggerProcess.Input :=
  [ LoggerProcess.Socket ServerLogger.CallConnect;
    LoggerProcess.Socket ServerLogger.SocketOpen;
    LoggerProcess.Socket ServerLogger.SocketClose;
    LoggerProcess.Socket ServerLogger.TimerFires;
    LoggerProcess.Socket ServerLogger.SocketOpen;
    LoggerProcess.Socket (ServerLogger.SocketMessage (StartRecording None));
    LoggerProcess.UnhandledRejection "connection reset"
      "2024-05-01T10:00:05.000Z" None ].


(* ===================================================================== *)
(** * Properties *)
(* ===================================================================== *)

(** ** The scan of a global replacement always finishes *)

(** The fuel of [JS.replaceAll], the length of the string, is enough: any
    larger fuel gives the same result. *)
Lemma replaceAllFrom_fuel pattern replacement fuel : forall s fuel',
  (String.length s <= fuel)%nat -> (String.length s <= fuel')%nat ->
  JS.replaceAllFrom fuel pattern replacement s
  = JS.replaceAllFrom fuel' pattern replacement s.
Proof.
  induction fuel as [|fuel IH]; intros s fuel' Hs Hs'.
  - destruct s; [by destruct fuel' | simpl in Hs; lia].
  - destruct s as [|c rest]; [by destruct fuel'|].
    destruct fuel' as [|fuel']; [simpl in Hs'; lia|].
    simpl in Hs, Hs'. cbn [JS.replaceAllFrom].
    destruct (JS.matchItems pattern (String c rest)) as [after|].
    + destruct (Nat.ltb_spec (String.length after)
                  (String.length (String c rest))) as [Hlt|Hge].
      * simpl in Hlt. f_equal. apply IH; lia.
      * f_equal. apply IH; lia.
    + f_equal. apply IH; lia.
Qed.

(** ** The stable sort *)

Section StableSortFacts.
Context {A : Type} (key : A -> Z).

Local Abbreviation le_key := (fun a b : A => key a <= key b).

Lemma insertByKey_Forall (P : A -> Prop) x l :
  P x -> Forall P l -> Forall P (insertByKey key x l).
Proof.
  intros Hx Hl. induction Hl as [|y l Hy Hl IH]; simpl.
  - by constructor.
  - destruct (key x <=? key y); repeat constructor; auto.
Qed.

Lemma sortByKey_Forall (P : A -> Prop) l :
  Forall P l -> Forall P (sortByKey key l).
Proof.
  induction 1 as [|x l Hx Hl IH]; simpl; [constructor|].
  by apply insertByKey_Forall.
Qed.

Lemma insertByKey_sorted x l :
  StronglySorted le_key l -> StronglySorted le_key (insertByKey key x l).
Proof.
  induction 1 as [|y l Hl IH Hy]; simpl.
  - repeat constructor.
  - destruct (Z.leb_spec (key x) (key y)) as [Hxy|Hxy].
    + constructor; [by constructor|].
      constructor; [done|].
      eapply Forall_impl; [exact Hy|]. simpl. intros z Hz. lia.
    + constructor; [done|].
      apply insertByKey_Forall; [lia | done].
Qed.

Lemma sortByKey_sorted l : StronglySorted le_key (sortByKey key l).
Proof.
  induction l as [|x l IH]; simpl; [constructor|].
  by apply insertByKey_sorted.
Qed.

Lemma insertByKey_perm x l : insertByKey key x l ≡ₚ x :: l.
Proof.
  induction l as [|y l IH]; simpl; [done|].
  destruct (key x <=? key y); [done|].
  rewrite IH. apply Permutation_swap.
Qed.

Lemma sortByKey_perm l : sortByKey key l ≡ₚ l.
Proof.
  induction l as [|x l IH]; simpl; [done|].
  by rewrite insertByKey_perm, IH.
Qed.

Lemma sortByKey_nil_inv l : sortByKey key l = [] -> l = [].
Proof.
  intros H. apply Permutation_nil_r. by rewrite <- H, sortByKey_perm.
Qed.

(** Stability: events with the same key keep their relative order. *)
Lemma insertByKey_stable k x l :
  StronglySorted le_key l ->
  List.filter (fun a => key a =? k) (insertByKey key x l)
  = List.filter (fun a => key a =? k) (x :: l).
Proof.
  induction 1 as [|y l Hl IH Hy]; [done|].
  simpl. destruct (Z.leb_spec (key x) (key y)) as [Hxy|Hxy]; [done|].
  simpl. rewrite IH. simpl.
  destruct (Z.eqb_spec (key x) k) as [Hx|Hx];
    destruct (Z.eqb_spec (key y) k) as [Hy'|Hy']; try done.
  lia.
Qed.

Lemma sortByKey_stable k l :
  List.filter (fun a => key a =? k) (sortByKey key l)
  = List.filter (fun a => key a =? k) l.
Proof.
  induction l as [|x l IH]; [done|].
  simpl sortByKey. rewrite insertByKey_stable by apply sortByKey_sorted.
  simpl. by rewrite IH.
Qed.
End StableSortFacts.

(** ** Filtering *)

Lemma Forall_List_filter {A} (P : A -> Prop) (f : A -> bool) l :
  Forall P l -> Forall P (List.filter f l).
Proof.
  induction 1 as [|x l Hx Hl IH]; simpl; [constructor|].
  destruct (f x); [by constructor | done].
Qed.

(** ** The deduplication loop of the correlator *)

Section Dedupe.
Import BugRecorder.


Lemma dedupe_loop rest : forall d first count,
  flushRun (fold_left dedupeStep rest
              {| deduped := d; lastEvent := Some first;
                 repeatCount := count |})
  = d ++ dedupeFrom first count rest.
Proof.
  induction rest as [|e rest IH]; intros d first count; [done|].
  simpl. unfold dedupeStep at 2. simpl.
  destruct (isSameMessage first e).
  - apply IH.
  - unfold flushRun at 2. simpl. rewrite IH. by rewrite <- app_assoc.
Qed.

Lemma dedupeEvents_cons first rest :
  dedupeEvents (first :: rest) = dedupeFrom first 0 rest.
Proof.
  unfold dedupeEvents. simpl. unfold dedupeStep at 2. simpl.
  unfold flushRun at 2. simpl. apply dedupe_loop.
Qed.

Lemma dedupeFrom_run first run : forall count rest,
  Forall (fun e => isSameMessage first e = true) run ->
  dedupeFrom first count (run ++ rest)
  = dedupeFrom first (count + length run) rest.
Proof.
  induction run as [|e run IH]; intros count rest Hrun; simpl.
  - by rewrite Nat.add_0_r.
  - inversion Hrun as [|? ? He Hrun']; subst. rewrite He.
    rewrite IH by done. f_equal. lia.
Qed.

Lemma dedupeFrom_stop first count rest :
  match rest with
  | [] => True
  | b :: _ => isSameMessage first b = false
  end ->
  dedupeFrom first count rest = closeRun first count :: dedupeEvents rest.
Proof.
  destruct rest as [|b rest]; [done|].
  intros Hb. rewrite dedupeEvents_cons. simpl. by rewrite Hb.
Qed.

Lemma isSameMessage_spec a b :
  isSameMessage a b = true <->
  type b = type a /\ message (data b) = message (data a)
  /\ Z.abs (relativeTime b - relativeTime a) < 100.
Proof.
  unfold isSameMessage.
  rewrite !andb_true_iff, !bool_decide_eq_true, Z.ltb_lt.
  split; [intros [[Ht Hm] Hd] | intros (Ht & Hm & Hd)]; auto.
Qed.

Lemma closeRun_relativeTime first count :
  relativeTime (closeRun first count) = relativeTime first.
Proof. unfold closeRun. by destruct (0 <? count)%nat. Qed.

Lemma closeRun_type first count :
  type (closeRun first count) = type first.
Proof. unfold closeRun. by destruct (0 <? count)%nat. Qed.

(** Whatever [closeRun] preserves holds of the output when it holds of
    the input. *)
Lemma dedupeFrom_preserves (P : Event -> Prop) rest : forall first count,
  (forall e n, P e -> P (closeRun e n)) ->
  Forall P (first :: rest) ->
  Forall P (dedupeFrom first count rest).
Proof.
  induction rest as [|e rest IH]; intros first count Hclose H; simpl.
  - constructor; [|constructor]. apply Hclose. by inversion H.
  - inversion H as [|? ? Hf Hrest]; subst.
    inversion Hrest as [|? ? He Hrest']; subst.
    destruct (isSameMessage first e).
    + apply IH; [done|]. by constructor.
    + constructor; [by apply Hclose|].
      apply IH; [done|]. by constructor.
Qed.

Lemma dedupeEvents_preserves (P : Event -> Prop) l :
  (forall e n, P e -> P (closeRun e n)) ->
  Forall P l -> Forall P (dedupeEvents l).
Proof.
  intros Hclose. destruct l as [|first rest]; [done|].
  rewrite dedupeEvents_cons. by apply dedupeFrom_preserves.
Qed.

Lemma dedupeFrom_Forall (P : Z -> Prop) rest first count :
  Forall (fun e => P (relativeTime e)) (first :: rest) ->
  Forall (fun e => P (relativeTime e)) (dedupeFrom first count rest).
Proof.
  apply dedupeFrom_preserves. intros e n. by rewrite closeRun_relativeTime.
Qed.

Lemma dedupeFrom_sorted rest : forall first count,
  StronglySorted (fun a b => relativeTime a <= relativeTime b)
    (first :: rest) ->
  StronglySorted (fun a b => relativeTime a <= relativeTime b)
    (dedupeFrom first count rest).
Proof.
  induction rest as [|e rest IH]; intros first count H; simpl.
  - repeat constructor.
  - apply StronglySorted_inv in H as [Hrest Hfirst].
    pose proof Hrest as Hrest0.
    apply StronglySorted_inv in Hrest as [Hrest' He].
    inversion Hfirst as [|? ? Hfe Hfirst']; subst.
    destruct (isSameMessage first e).
    + apply IH. by constructor.
    + constructor; [by apply IH|].
      rewrite closeRun_relativeTime.
      apply (dedupeFrom_Forall (fun t => relativeTime first <= t)).
      by constructor.
Qed.

Lemma dedupeEvents_sorted l :
  StronglySorted (fun a b => relativeTime a <= relativeTime b) l ->
  StronglySorted (fun a b => relativeTime a <= relativeTime b)
    (dedupeEvents l).
Proof.
  destruct l as [|first rest]; [done|].
  rewrite dedupeEvents_cons. apply dedupeFrom_sorted.
Qed.

Lemma dedupeEvents_types (P : string -> Prop) l :
  Forall (fun e => P (type e)) l ->
  Forall (fun e => P (type e)) (dedupeEvents l).
Proof.
  apply dedupeEvents_preserves. intros e n. by rewrite closeRun_type.
Qed.
End Dedupe.


(** ** C3: what the deduplication collapses *)

Section DedupeClaims.
Import BugRecorder Samples.

(** C3, as stated, fails: [dedupeEvents] compares every event with the
    FIRST event of the current run, and only consecutive events.  Two
    identical errors 60 ms apart (at 60 and 120) stay two events when the
    run they follow started at 0; identical errors exactly 100 ms apart
    are kept apart; identical errors 20 ms apart with another event in
    between are kept apart. *)
Lemma dedupeEvents_not_every_close_pair :
  dedupeEvents [boom 0; boom 60; boom 120] = [boomTimes 0 "2"; boom 120]
  /\ dedupeEvents [boom 0; boom 100] = [boom 0; boom 100]
  /\ dedupeEvents [boom 0; careful 10; boom 20]
     = [boom 0; careful 10; boom 20].
Proof. repeat split; vm_compute; reflexivity. Qed.

Lemma isSameMessage_repeats first e :
  isSameMessage first e = true <-> repeats first e.
Proof. apply isSameMessage_spec. Qed.

Lemma closeRun_collapsed first acc :
  closeRun first (length acc) = collapsed (first, acc).
Proof. unfold closeRun, collapsed. by destruct acc. Qed.

Lemma dedupeFrom_runs rest : forall first acc,
  Forall (repeats first) acc ->
  exists runs : list Run,
    first :: acc ++ rest = concat (map runEvents runs)
    /\ Forall isRun runs
    /\ separated runs
    /\ (exists r later, runs = r :: later /\ r.1 = first)
    /\ dedupeFrom first (length acc) rest = map collapsed runs.
Proof.
  induction rest as [|e rest IH]; intros first acc Hacc.
  - exists [(first, acc)]. simpl. rewrite !app_nil_r.
    repeat split; eauto using closeRun_collapsed.
    f_equal. apply closeRun_collapsed.
  - simpl. destruct (isSameMessage first e) eqn:Hsame.
    + destruct (IH first (acc ++ [e])) as (runs & Hcat & Hruns & Hsep & Hhd & Hout).
      { apply Forall_app; split; [done|].
        constructor; [by apply isSameMessage_repeats | constructor]. }
      exists runs. rewrite <- Hcat, <- app_assoc. simpl.
      repeat split; try done.
      rewrite <- Hout, length_app. simpl. f_equal. lia.
    + destruct (IH e []) as (runs & Hcat & Hruns & Hsep & Hhd & Hout);
        [constructor|].
      destruct Hhd as (r & later & -> & Hr).
      exists ((first, acc) :: r :: later). simpl in *.
      split; [by rewrite <- Hcat|].
      split; [by constructor|].
      split.
      { split; [|done]. rewrite Hr. intros Hrep.
        apply isSameMessage_repeats in Hrep. congruence. }
      split; [by eauto|].
      rewrite <- Hout. f_equal. apply closeRun_collapsed.
Qed.

(** C3, amended: every list of events splits, in order, into runs (a first
    event followed by the consecutive events of the same type and message
    that are strictly less than 100 ms from that FIRST event) that cannot
    be extended, and [dedupeEvents] returns one event per run: the first
    event of the run, its message suffixed with [" (×N)"], [N] the length
    of the run, when [N >= 2].  So an event is folded into the run before
    it exactly when it repeats the run's first event; an event 100 ms or
    more from it starts a run of its own. *)
Theorem dedupeEvents_collapses_runs (events : list Event) :
  exists runs : list Run,
    events = concat (map runEvents runs)
    /\ Forall isRun runs
    /\ separated runs
    /\ dedupeEvents events = map collapsed runs.
Proof.
  destruct events as [|first rest].
  - by exists [].
  - destruct (dedupeFrom_runs rest first []) as (runs & Hcat & Hruns & Hsep & _ & Hout);
      [constructor|].
    exists runs. rewrite dedupeEvents_cons. by repeat split.
Qed.

(** The same for one run at the head of the list. *)
Lemma dedupeEvents_head_run (first : Event) (run rest : list Event) :
  Forall (repeats first) run ->
  match rest with
  | [] => True
  | next :: _ => ~ repeats first next
  end ->
  dedupeEvents (first :: run ++ rest)
  = collapsed (first, run) :: dedupeEvents rest.
Proof.
  intros Hrun Hrest.
  rewrite dedupeEvents_cons, dedupeFrom_run.
  - rewrite dedupeFrom_stop.
    + f_equal. apply closeRun_collapsed.
    + destruct rest as [|next rest']; [done|].
      destruct (isSameMessage first next) eqn:E; [|done].
      apply isSameMessage_repeats in E. contradiction.
  - eapply Forall_impl; [exact Hrun|].
    intros e He. by apply isSameMessage_repeats.
Qed.

(** Two errors 60 ms apart, then a third 120 ms after the first. *)
Lemma dedupeEvents_head_run_example :
  dedupeEvents (boom 0 :: [boom 60] ++ [boom 120])
  = boomTimes 0 "2" :: dedupeEvents [boom 120].
Proof.
  apply (dedupeEvents_head_run (boom 0) [boom 60] [boom 120]).
  - repeat constructor; simpl; lia.
  - simpl. intros (_ & _ & H). simpl in H. lia.
Defined.

End DedupeClaims.

(** ** C4: the generated timeline is sorted *)

Section TimelineClaims.
Import BugRecorder.

(** C4: for every recording the events of [generateTimeline] are in
    non-decreasing [relativeTime] order: every event is at or before every
    later one. *)
Theorem generateTimeline_sorted (rd : RecordingData) :
  StronglySorted (fun a b => relativeTime a <= relativeTime b)
    (events (generateTimeline rd)).
Proof.
  unfold generateTimeline. simpl.
  apply dedupeEvents_sorted, sortByKey_sorted.
Qed.

(** The earlier recorder sorts and does not deduplicate. *)
Lemma generateTimeline_v1_sorted (rd : RecordingData) :
  StronglySorted (fun a b => relativeTime a <= relativeTime b)
    (events (BugRecorderV1.generateTimeline rd)).
Proof. unfold BugRecorderV1.generateTimeline. simpl. apply sortByKey_sorted. Qed.
End TimelineClaims.

(** ** Noise never reaches the timeline *)

Section FilterClaims.
Import BugRecorder Samples.

Lemma filter_keeps_only {A} (f : A -> bool) l :
  Forall (fun x => f x = true) (List.filter f l).
Proof.
  induction l as [|x l IH]; simpl; [constructor|].
  destruct (f x) eqn:E; [by constructor | done].
Qed.

(** X1: When only the network buffer holds network events (as
    [addTimelineEvent] and the merge of [stopRecording] arrange), no
    network event of the timeline is one that [shouldFilterNetworkEvent]
    rejects: none has the OPTIONS method or the url of Pointa's own health
    check or backend-log API. *)
Theorem filtered_network_never_in_timeline (rd : RecordingData) :
  Forall (fun e => type e <> "network")
    (console rd ++ interactions rd ++ default [] (backendLogs rd)) ->
  Forall (fun e => type e = "network" -> shouldFilterNetworkEvent e = false)
    (events (generateTimeline rd)).
Proof.
  intros Hother. apply Forall_app in Hother as [Hc Hother].
  apply Forall_app in Hother as [Hi Hb].
  unfold generateTimeline. simpl.
  apply dedupeEvents_preserves.
  { intros e n He. unfold closeRun. destruct (0 <? n)%nat; [|done].
    intros Ht. by apply He. }
  apply sortByKey_Forall. rewrite !Forall_app. repeat split.
  - unfold filteredConsole. rewrite Forall_map.
    eapply Forall_impl; [apply Forall_List_filter; exact Hc|].
    simpl. intros e Hne Ht. contradiction.
  - unfold filteredNetwork.
    eapply Forall_impl; [apply filter_keeps_only|].
    simpl. intros e He _. by destruct (shouldFilterNetworkEvent e).
  - eapply Forall_impl; [exact Hi|]. simpl. intros e Hne Ht. contradiction.
  - unfold truncatedBackendLogs. rewrite Forall_map.
    eapply Forall_impl; [exact Hb|]. simpl. intros e Hne Ht. contradiction.
Qed.

(** A preflight, a health check and a real request: only the request is
    in the timeline. *)
Lemma filtered_network_never_in_timeline_witness :
  Forall (fun e => type e = "network" -> shouldFilterNetworkEvent e = false)
    (events (generateTimeline noisyRecording))
  /\ map (fun e => (type e, url (data e), method (data e)))
       (events (generateTimeline noisyRecording))
     = [("console-error", None, None);
        ("network", Some "http://localhost:3000/api/data", Some "POST")].
Proof.
  split; [|vm_compute; reflexivity].
  apply (filtered_network_never_in_timeline noisyRecording).
  repeat constructor. simpl. discriminate.
Defined.

(** The scenario of the specification: an error logged from the
    extension's own script at 500 ms, a request failing with status 500 at
    800 ms and an error of the page at 820 ms give a timeline of two
    events, and the network failure is the root cause. *)
Lemma scenario_network_failure_is_root_cause :
  map (fun e => (relativeTime e, type e))
    (events (generateTimeline scenarioRecording))
  = [(800, "network"); (820, "console-error")]
  /\ map (fun k => (issueType k, description k, isRootCause k))
       (analyzeKeyIssues (generateTimeline scenarioRecording))
     = [("network-failure",
         Some "GET /api/data failed with status 500", true);
        ("console-error", Some "Cannot read properties of undefined",
         false)].
Proof. split; vm_compute; reflexivity. Qed.
End FilterClaims.

(** ** C5: the root cause among the key issues *)

Section KeyIssueClaims.
Import BugRecorder.

Lemma detectRootCause_first (keyIssues : list KeyIssue) :
  Forall (fun k => isRootCause k = false) keyIssues ->
  match detectRootCause keyIssues with
  | [] => keyIssues = []
  | rootCause :: rest =>
      isRootCause rootCause = true
      /\ Forall (fun k =>
                   isRootCause k = false
                   /\ issueRelativeTime rootCause <= issueRelativeTime k)
           rest
  end.
Proof.
  intros Hfresh. destruct keyIssues as [|k0 l]; [done|].
  unfold detectRootCause.
  pose proof (sortByKey_sorted issueRelativeTime (k0 :: l)) as Hsorted.
  pose proof (sortByKey_Forall issueRelativeTime _ _ Hfresh) as Hfalse.
  destruct (sortByKey issueRelativeTime (k0 :: l)) as [|k rest] eqn:E.
  - by apply sortByKey_nil_inv in E.
  - split; [done|].
    apply StronglySorted_inv in Hsorted as [_ Hle].
    inversion Hfalse as [|? ? _ Hrest]; subst.
    rewrite Forall_forall in Hle, Hrest |- *. intros k' Hin.
    split; [by apply Hrest | by apply Hle].
Qed.

Lemma fresh_console l :
  Forall (fun k => isRootCause k = false) (map consoleErrorIssue l).
Proof. induction l; constructor; auto. Qed.

Lemma fresh_network l :
  Forall (fun k => isRootCause k = false) (map networkFailureIssue l).
Proof. induction l; constructor; auto. Qed.

Lemma fresh_backend l :
  Forall (fun k => isRootCause k = false) (map backendErrorIssue l).
Proof. induction l; constructor; auto. Qed.

Lemma rootCause_count rootCause rest :
  isRootCause rootCause = true ->
  Forall (fun k =>
            isRootCause k = false
            /\ issueRelativeTime rootCause <= issueRelativeTime k) rest ->
  length (List.filter isRootCause (rootCause :: rest)) = 1%nat.
Proof.
  intros Hroot Hrest. simpl. rewrite Hroot. simpl. f_equal.
  induction Hrest as [|k l [Hk _] _ IH]; [done|].
  simpl. by rewrite Hk.
Qed.

(** C5: in both recorders the list returned by [analyzeKeyIssues] is
    empty or starts with the one issue flagged [isRootCause]; no other
    issue is flagged and none has a smaller [relativeTime].  So exactly
    one issue is flagged when there is an issue, and none otherwise. *)
Theorem analyzeKeyIssues_one_root_cause (timeline : Timeline) :
  (match analyzeKeyIssues timeline with
   | [] => True
   | rootCause :: rest =>
       isRootCause rootCause = true
       /\ Forall (fun k =>
                    isRootCause k = false
                    /\ issueRelativeTime rootCause <= issueRelativeTime k)
            rest
   end
   /\ length (List.filter isRootCause (analyzeKeyIssues timeline))
      = Nat.min 1 (length (analyzeKeyIssues timeline)))
  /\
  (match BugRecorderV1.analyzeKeyIssues timeline with
   | [] => True
   | rootCause :: rest =>
       isRootCause rootCause = true
       /\ Forall (fun k =>
                    isRootCause k = false
                    /\ issueRelativeTime rootCause <= issueRelativeTime k)
            rest
   end
   /\ length (List.filter isRootCause
                (BugRecorderV1.analyzeKeyIssues timeline))
      = Nat.min 1 (length (BugRecorderV1.analyzeKeyIssues timeline))).
Proof.
  assert (Hgen : forall keyIssues,
    Forall (fun k => isRootCause k = false) keyIssues ->
    match detectRootCause keyIssues with
    | [] => True
    | rootCause :: rest =>
        isRootCause rootCause = true
        /\ Forall (fun k =>
                     isRootCause k = false
                     /\ issueRelativeTime rootCause <= issueRelativeTime k)
             rest
    end
    /\ length (List.filter isRootCause (detectRootCause keyIssues))
       = Nat.min 1 (length (detectRootCause keyIssues))).
  { intros keyIssues Hfresh.
    pose proof (detectRootCause_first keyIssues Hfresh) as H.
    destruct (detectRootCause keyIssues) as [|k rest]; [done|].
    destruct H as [Hroot Hrest]. split; [done|].
    by rewrite (rootCause_count k rest). }
  split.
  - apply Hgen. unfold analyzeKeyIssues.
    rewrite !Forall_app.
    auto using fresh_console, fresh_network, fresh_backend.
  - apply Hgen. rewrite !Forall_app.
    auto using fresh_console, fresh_network.
Qed.
End KeyIssueClaims.

(** ** C10: the recording markers are dropped *)

Section MarkerClaims.
Import BugRecorder.


Lemma addTimelineEvent_noMarkers iso now startTime event rd :
  noMarkers (console rd) -> noMarkers (network rd) ->
  noMarkers (interactions rd) ->
  let rd' := addTimelineEvent iso now startTime event rd in
  noMarkers (console rd') /\ noMarkers (network rd')
  /\ noMarkers (interactions rd') /\ backendLogs rd' = backendLogs rd.
Proof.
  intros Hc Hn Hi. unfold addTimelineEvent.
  destruct (JS.startsWith (initType event) "console") eqn:E1; simpl.
  { repeat split; try done. apply Forall_app; split; [done|].
    constructor; [|constructor]. simpl.
    split; intros Heq; rewrite Heq in E1; discriminate. }
  destruct (decide (initType event = "network")) as [E2|E2]; simpl.
  { repeat split; try done. apply Forall_app; split; [done|].
    constructor; [|constructor]. simpl. rewrite E2. by split. }
  destruct (JS.startsWith (initType event) "user-interaction") eqn:E3; simpl.
  { repeat split; try done. apply Forall_app; split; [done|].
    constructor; [|constructor]. simpl.
    split; intros Heq; rewrite Heq in E3; discriminate. }
  done.
Qed.

Lemma recorded_noMarkers startTime calls : forall rd,
  noMarkers (console rd) -> noMarkers (network rd) ->
  noMarkers (interactions rd) ->
  let rd' :=
    fold_left (fun rd '(iso, now, event) =>
                 addTimelineEvent iso now startTime event rd) calls rd in
  noMarkers (console rd') /\ noMarkers (network rd')
  /\ noMarkers (interactions rd') /\ backendLogs rd' = backendLogs rd.
Proof.
  induction calls as [|[[iso now] event] calls IH]; intros rd Hc Hn Hi;
    simpl; [done|].
  destruct (addTimelineEvent_noMarkers iso now startTime event rd Hc Hn Hi)
    as (Hc' & Hn' & Hi' & Hb').
  destruct (IH _ Hc' Hn' Hi') as (? & ? & ? & Hb).
  repeat split; try done. by rewrite <- Hb'.
Qed.

Lemma generateTimeline_noMarkers rd :
  noMarkers (console rd) -> noMarkers (network rd) ->
  noMarkers (interactions rd) -> noMarkers (default [] (backendLogs rd)) ->
  noMarkers (events (generateTimeline rd)).
Proof.
  intros Hc Hn Hi Hb. unfold generateTimeline. simpl.
  apply (dedupeEvents_types notMarker), sortByKey_Forall.
  unfold noMarkers in *. rewrite !Forall_app. repeat split.
  - unfold filteredConsole. rewrite Forall_map. simpl.
    by apply Forall_List_filter.
  - unfold filteredNetwork. by apply Forall_List_filter.
  - done.
  - unfold truncatedBackendLogs. by rewrite Forall_map.
Qed.

(** C10: [addTimelineEvent] called with a ['recording-start'] or a
    ['recording-end'] event returns the recording data unchanged, whatever
    the rest of the event and the clock are; and the timeline generated
    after any sequence of [addTimelineEvent] calls on a fresh recording
    holds no event of these two types. *)
Theorem addTimelineEvent_drops_markers (iso : string) (now startTime : Z)
    (sub : option string) (sev : string) (d : EventData)
    (rd : RecordingData) (calls : list (string * Z * TimelineEventInit)) :
  addTimelineEvent iso now startTime
    {| initType := "recording-start"; initSubtype := sub;
       initSeverity := sev; initData := d |} rd = rd
  /\ addTimelineEvent iso now startTime
       {| initType := "recording-end"; initSubtype := sub;
          initSeverity := sev; initData := d |} rd = rd
  /\ Forall (fun e => type e <> "recording-start"
                      /\ type e <> "recording-end")
       (events
          (generateTimeline
             (fold_left (fun rd '(iso, now, event) =>
                           addTimelineEvent iso now startTime event rd)
                calls freshRecording))).
Proof.
  split; [reflexivity|]. split; [reflexivity|].
  apply generateTimeline_noMarkers;
    destruct (recorded_noMarkers startTime calls freshRecording)
      as (Hc & Hn & Hi & Hb); try (by constructor); try done.
  rewrite Hb. by constructor.
Qed.
End MarkerClaims.

(** ** The shared debugger: C1 and C9 *)


Section DebuggerClaims.
Import Background DebuggerSamples.


(** C1, the failing input: on tab 7 the viewport emulation and a
    recording both use the debugger.  [resetViewport], the release of
    ONE consumer, detaches the debugger although the recording is still
    in [cdpRecordings]. *)
Lemma resetViewport_detaches_under_recording :
  (is_Some (viewportOverrides emulatingAndRecording !! 7)
   /\ is_Some (cdpRecordings emulatingAndRecording !! 7)
   /\ attached (chrome emulatingAndRecording) = {[7]})
  /\ (let released := (resetViewport 7 emulatingAndRecording).2 in
      is_Some (cdpRecordings released !! 7)
      /\ attached (chrome released) = ∅).
Proof.
  repeat split; try (eexists; vm_compute; reflexivity);
    vm_compute; reflexivity.
Qed.

(** The same on every tab: when the browser accepts the calls,
    [resetViewport] detaches and leaves the recordings as they are. *)
Lemma resetViewport_always_detaches (tabId : Z) (st : State) :
  (tabId ∈ attached (chrome st)) ->
  rejects (chrome st) tabId
    (SendCommand "Emulation.clearDeviceMetricsOverride") = None ->
  rejects (chrome st) tabId Detach = None ->
  let released := (resetViewport tabId st).2 in
  (tabId ∉ attached (chrome released))
  /\ cdpRecordings released = cdpRecordings st
  /\ viewportOverrides released !! tabId = None.
Proof.
  intros Hatt Hclear Hdetach. run_promise.
  rewrite Hclear. simpl. destruct (decide (tabId ∈ attached (chrome st)));
    [|contradiction]. simpl. rewrite Hdetach. simpl.
  destruct (decide (tabId ∈ attached (chrome st))); [|contradiction]. simpl.
  repeat split; [|apply lookup_delete_eq].
  rewrite elem_of_difference, elem_of_singleton. tauto.
Qed.

(** X2: The sibling path: [stopCDPRecording] keeps the attachment while the
    viewport emulation uses it, and detaches when it is the last user. *)
Theorem stopCDPRecording_respects_viewport (tabId : Z) (st : State) :
  is_Some (cdpRecordings st !! tabId) ->
  (tabId ∈ attached (chrome st)) ->
  rejects (chrome st) tabId Detach = None ->
  let stopped := (stopCDPRecording tabId st).2 in
  cdpRecordings stopped !! tabId = None
  /\ (is_Some (viewportOverrides st !! tabId) ->
      tabId ∈ attached (chrome stopped))
  /\ (viewportOverrides st !! tabId = None ->
      tabId ∉ attached (chrome stopped)).
Proof.
  intros [recording Hrec] Hatt Hdetach. run_promise. rewrite Hrec. simpl.
  repeat split_call; try contradiction; try discriminate;
    (split; [apply lookup_delete_eq|]);
    (split; [intros [? ?]; try discriminate; try done
            | intros ?; try discriminate;
              rewrite elem_of_difference, elem_of_singleton; tauto]).
Qed.

(** Tab 7 with both users of the debugger: stopping the recording keeps
    the debugger attached for the viewport emulation. *)
Lemma stopCDPRecording_respects_viewport_witness :
  cdpRecordings (stopCDPRecording 7 emulatingAndRecording).2 !! 7 = None
  /\ 7 ∈ attached (chrome (stopCDPRecording 7 emulatingAndRecording).2).
Proof.
  destruct (stopCDPRecording_respects_viewport 7 emulatingAndRecording)
    as (Hgone & Hkept & _).
  - eexists. vm_compute. reflexivity.
  - replace (attached (chrome emulatingAndRecording)) with ({[7]} : gset Z)
      by (vm_compute; reflexivity).
    by apply elem_of_singleton.
  - vm_compute. reflexivity.
  - split; [exact Hgone|]. apply Hkept. eexists. vm_compute. reflexivity.
Defined.

Lemma perform_throws (tabId : Z) (call : DebuggerCall) (error : string)
    (st st' : State) :
  perform tabId call st = (Throw error, st') <->
  (st' = st
   /\ (rejects (chrome st) tabId call = Some error
      \/ (rejects (chrome st) tabId call = None
          /\ call = Attach /\ tabId ∈ attached (chrome st)
          /\ error = "Another debugger is already attached to the tab")
      \/ (rejects (chrome st) tabId call = None
          /\ call <> Attach /\ (tabId ∉ attached (chrome st))
          /\ error = "Debugger is not attached to the tab"))).
Proof.
  destruct call as [| |command]; unfold perform, debuggerAttach,
    debuggerDetach, debuggerSendCommand; cbv zeta;
    (match goal with |- context [rejects ?c ?t ?call] =>
       destruct (rejects c t call) as [refusal|] eqn:Hrej
     end);
    try (destruct (decide (tabId ∈ attached (chrome st))) as [Hin|Hout]);
    (split;
     [ intros H;
       first [ discriminate H
             | injection H as <- <-; split; [reflexivity|];
               first [ by left | by (right; left)
                     | right; right; repeat split; congruence ] ]
     | intros [-> [H | [(H & ? & ? & ->) | (H & ? & ? & ->)]]];
       first [ discriminate | contradiction | congruence | reflexivity ] ]).
Qed.

Lemma perform_frame (tabId : Z) (call : DebuggerCall) (st : State) :
  viewportOverrides (perform tabId call st).2 = viewportOverrides st
  /\ cdpRecordings (perform tabId call st).2 = cdpRecordings st.
Proof.
  destruct call; unfold perform, debuggerAttach, debuggerDetach,
    debuggerSendCommand; cbv zeta;
    repeat split_call; by split.
Qed.

Lemma perform_elsewhere (tabId : Z) (call : DebuggerCall)
    (recordings : gmap Z Recording) (st : State) :
  perform tabId call (setCdpRecordings recordings st)
  = ((perform tabId call st).1,
     setCdpRecordings recordings (perform tabId call st).2).
Proof.
  destruct call; unfold perform, debuggerAttach, debuggerDetach,
    debuggerSendCommand; cbv zeta; simpl;
    repeat split_call; reflexivity.
Qed.

Lemma performAll_frame (tabId : Z) (calls : list DebuggerCall) :
  forall st,
    viewportOverrides (performAll tabId calls st).2 = viewportOverrides st
    /\ cdpRecordings (performAll tabId calls st).2 = cdpRecordings st.
Proof.
  induction calls as [|call calls IH]; intros st; [by split|].
  cbn [performAll]. unfold bind.
  destruct (perform_frame tabId call st) as [Hview Hrec].
  destruct (perform tabId call st) as [[[]|error] st1]; simpl in *.
  - destruct (IH st1) as [-> ->]. by split.
  - by split.
Qed.

Lemma performAll_elsewhere (tabId : Z) (calls : list DebuggerCall)
    (recordings : gmap Z Recording) :
  forall st,
    performAll tabId calls (setCdpRecordings recordings st)
    = ((performAll tabId calls st).1,
       setCdpRecordings recordings (performAll tabId calls st).2).
Proof.
  induction calls as [|call calls IH]; intros st; [reflexivity|].
  cbn [performAll]. unfold bind. rewrite perform_elsewhere.
  destruct (perform tabId call st) as [[[]|error] st1]; simpl.
  - apply IH.
  - reflexivity.
Qed.

(** The sequence throws the error of its first call that throws. *)
Lemma performAll_first_failure (tabId : Z) (calls : list DebuggerCall)
    (error : string) :
  forall st st',
    performAll tabId calls st = (Throw error, st') <->
    exists before call after stB,
      calls = before ++ call :: after
      /\ performAll tabId before st = (Ok tt, stB)
      /\ perform tabId call stB = (Throw error, st').
Proof.
  induction calls as [|first calls IH]; intros st st'.
  - split; [discriminate|]. intros (before & call & after & stB & H & _).
    by destruct before.
  - cbn [performAll]. unfold bind. split.
    + destruct (perform tabId first st) as [[[]|failure] st1] eqn:Hfirst.
      * intros Hrest. apply IH in Hrest
          as (before & call & after & stB & -> & Hbefore & Hcall).
        exists (first :: before), call, after, stB.
        split; [reflexivity|]. split; [|exact Hcall].
        cbn [performAll]. unfold bind. by rewrite Hfirst.
      * intros [= <- <-]. by exists [], first, calls, st.
    + intros (before & call & after & stB & Hcalls & Hbefore & Hcall).
      destruct before as [|first' before]; simpl in Hcalls;
        injection Hcalls as <- ->.
      * injection Hbefore as <-. by rewrite Hcall.
      * cbn [performAll] in Hbefore. unfold bind in Hbefore.
        destruct (perform tabId first st) as [[[]|failure] st1];
          [|discriminate].
        apply IH. by exists before, call, after, stB.
Qed.

(** [startCDPRecording] on a tab without recording: its calls in turn; the
    entry stays when all succeed and is removed when one throws. *)
Lemma start_as_performAll (now tabId : Z) (st : State) :
  cdpRecordings st !! tabId = None ->
  startCDPRecording now tabId st
  = match performAll tabId (startCalls st tabId) st with
    | (Ok _, st') =>
        (Ok tt,
         setCdpRecordings
           (<[tabId := {| recEvents := []; startTime := now;
                          pendingRequests := Some ∅ |}]> (cdpRecordings st))
           st')
    | (Throw error, st') => (Throw error, st')
    end.
Proof.
  intros Hrec.
  assert (Hdel :
    delete tabId
      (<[tabId := {| recEvents := []; startTime := now;
                     pendingRequests := Some ∅ |}]> (cdpRecordings st))
    = cdpRecordings st).
  { rewrite delete_insert_eq. by apply delete_id. }
  destruct st as [overrides recordings browser]; simpl in Hrec, Hdel.
  unfold startCalls. cbn [viewportOverrides].
  destruct (overrides !! tabId) eqn:Hview; simpl;
    unfold perform; run_promise; rewrite Hrec, ?Hview; simpl;
    repeat split_call; simplify_eq; try contradiction;
    unfold setCdpRecordings, setChrome; simpl; rewrite ?Hdel; reflexivity.
Qed.

(** C9: [startCDPRecording] on a tab without recording awaits, in this
    order, the attach (unless the viewport emulation already holds the
    debugger) and the three [enable] commands.  It throws exactly when one
    of them throws, and then the error it throws is the error of that
    call, the first to fail: the calls before it succeeded and none after
    it is made.  A call throws the error the browser rejects it with, or,
    when the browser has no reason of its own, the error of the
    attachment: an attach on an attached tab, a command on a tab that is
    not.  Whenever [startCDPRecording] throws, [cdpRecordings] is what it
    was before the call, with no entry for the tab; with a recording
    already running for the tab it makes no call and throws nothing. *)
Theorem startCDPRecording_failure_propagates (now tabId : Z) (st : State) :
  (forall error st',
     cdpRecordings st !! tabId = None ->
     (startCDPRecording now tabId st = (Throw error, st') <->
      exists before call after stB,
        startCalls st tabId = before ++ call :: after
        /\ performAll tabId before st = (Ok tt, stB)
        /\ perform tabId call stB = (Throw error, st')))
  /\ (forall call error st0 st',
        perform tabId call st0 = (Throw error, st') <->
        (st' = st0
         /\ (rejects (chrome st0) tabId call = Some error
            \/ (rejects (chrome st0) tabId call = None
                /\ call = Attach /\ tabId ∈ attached (chrome st0)
                /\ error = "Another debugger is already attached to the tab")
            \/ (rejects (chrome st0) tabId call = None
                /\ call <> Attach /\ (tabId ∉ attached (chrome st0))
                /\ error = "Debugger is not attached to the tab"))))
  /\ (forall error st',
        startCDPRecording now tabId st = (Throw error, st') ->
        cdpRecordings st' = cdpRecordings st
        /\ cdpRecordings st' !! tabId = None)
  /\ (is_Some (cdpRecordings st !! tabId) ->
      startCDPRecording now tabId st = (Ok tt, st)).
Proof.
  split.
  { intros error st' Hrec. rewrite (start_as_performAll now tabId st Hrec).
    rewrite <- performAll_first_failure.
    destruct (performAll tabId (startCalls st tabId) st) as [[[]|failure] st1].
    - split; discriminate.
    - reflexivity. }
  split; [intros call error st0 st'; apply perform_throws|].
  split.
  { intros error st'.
    destruct (cdpRecordings st !! tabId) as [recording|] eqn:Hrec.
    - run_promise. rewrite Hrec. discriminate.
    - rewrite (start_as_performAll now tabId st Hrec).
      destruct (performAll_frame tabId (startCalls st tabId) st) as [_ Hmap].
      destruct (performAll tabId (startCalls st tabId) st)
        as [[[]|failure] st1]; [discriminate|].
      intros [= <- <-]. simpl in Hmap. by rewrite Hmap. }
  intros [recording Hrec]. run_promise. by rewrite Hrec.
Qed.

(** A page that refuses every domain, each with its own error, on a tab
    nobody is attached to: the attach succeeds, [Network.enable] is the
    first call to fail, and its error is the one thrown; no recording is
    left. *)
Lemma startCDPRecording_failure_propagates_witness :
  exists st',
    startCDPRecording 1000 7 (idle noDomains)
      = (Throw "Network.enable refused", st')
    /\ rejects noDomains 7 (SendCommand "Log.enable")
       = Some "Log.enable refused"
    /\ cdpRecordings st' = ∅.
Proof.
  destruct (startCDPRecording_failure_propagates 1000 7 (idle noDomains))
    as (Hfirst & _ & Hframe & _).
  eexists. split; [|split; [reflexivity|]].
  - apply Hfirst; [reflexivity|].
    exists [Attach], (SendCommand "Network.enable"),
      [SendCommand "Log.enable"; SendCommand "Runtime.enable"].
    eexists. split; [reflexivity|]. split; reflexivity.
  - vm_compute. reflexivity.
Defined.

(** Another debugger holds tab 7 and the browser rejects nothing of its
    own: the attach fails on the attachment, [startCDPRecording] throws
    its error and no recording is left. *)
Lemma startCDPRecording_fails_on_foreign_debugger :
  startCDPRecording 1000 7 (idle foreignDebugger)
  = (Throw "Another debugger is already attached to the tab",
     idle foreignDebugger).
Proof.
  rewrite start_as_performAll by reflexivity.
  unfold startCalls, idle. simpl. unfold bind, debuggerAttach. simpl.
  destruct (decide (7 ∈ ({[7]} : gset Z))) as [_|Hout]; [reflexivity|].
  exfalso. apply Hout. by apply elem_of_singleton.
Qed.

(** X3: A failure after the attach leaves the debugger attached: when the
    viewport emulation does not hold the debugger, the attach succeeds and
    the browser rejects an [enable] command, [startCDPRecording] throws
    and removes its entry, but the tab stays attached. *)
Theorem startCDPRecording_failure_keeps_attachment (now tabId : Z)
    (st : State) (command error : string) :
  cdpRecordings st !! tabId = None ->
  viewportOverrides st !! tabId = None ->
  (tabId ∉ attached (chrome st)) ->
  rejects (chrome st) tabId Attach = None ->
  command = "Network.enable" \/ command = "Log.enable"
  \/ command = "Runtime.enable" ->
  rejects (chrome st) tabId (SendCommand command) = Some error ->
  exists error' st',
    startCDPRecording now tabId st = (Throw error', st')
    /\ cdpRecordings st' = cdpRecordings st
    /\ tabId ∈ attached (chrome st').
Proof.
  intros Hrec Hview Hfree Hattach Hcommand Hrej.
  assert (Hdel :
    delete tabId
      (<[tabId := {| recEvents := []; startTime := now;
                     pendingRequests := Some ∅ |}]> (cdpRecordings st))
    = cdpRecordings st).
  { rewrite delete_insert_eq. by apply delete_id. }
  assert (Hin : tabId ∈ ({[tabId]} ∪ attached (chrome st) : gset Z)).
  { apply elem_of_union. left. by apply elem_of_singleton. }
  run_promise. rewrite Hrec. simpl. rewrite Hview. simpl.
  rewrite Hattach. simpl.
  destruct (decide (tabId ∈ attached (chrome st))); [contradiction|]. simpl.
  destruct Hcommand as [-> | [-> | ->]];
    repeat split_call; try contradiction; try congruence;
    eexists _, _; (split; [reflexivity|]); simpl; by rewrite ?Hdel.
Qed.

(** The page that refuses the Log domain, on tab 7. *)
Lemma startCDPRecording_failure_keeps_attachment_witness :
  exists error' st',
    startCDPRecording 1000 7 (idle noLogDomain) = (Throw error', st')
    /\ cdpRecordings st' = cdpRecordings (idle noLogDomain)
    /\ 7 ∈ attached (chrome st').
Proof.
  apply (startCDPRecording_failure_keeps_attachment 1000 7
           (idle noLogDomain) "Log.enable" "Log domain refused").
  - reflexivity.
  - reflexivity.
  - simpl. apply not_elem_of_empty.
  - reflexivity.
  - right; left; reflexivity.
  - reflexivity.
Defined.

(** When the browser accepts every call, the recording starts. *)
Lemma startCDPRecording_starts :
  (startCDPRecording 1000 7 (idle quietChrome)).1 = Ok tt
  /\ cdpRecordings (startCDPRecording 1000 7 (idle quietChrome)).2 !! 7
     = Some {| recEvents := []; startTime := 1000;
               pendingRequests := Some ∅ |}
  /\ attached (chrome (startCDPRecording 1000 7 (idle quietChrome)).2)
     = {[7]}.
Proof. repeat split; vm_compute; reflexivity. Qed.

End DebuggerClaims.

(** ** The CDP listener: C2 and C8 *)


Section ListenerClaims.
Import Background ListenerSamples.

(** C2, as stated, fails: no branch of the listener removes an entry from
    [pendingRequests].  After request ["r1"] started and failed, the
    failure event carries the method and url recorded at the start, and
    the entry for ["r1"] is still in the map. *)
Lemma pending_entry_survives_failure :
  map (fun e => (type e, subtype e, method (data e), url (data e)))
    (recEvents r1Failed)
  = [("network", Some "failed", Some "POST",
      Some "http://localhost:3000/api/data")]
  /\ trackedRequest r1Failed "r1"
     = Some {| pendingUrl := "http://localhost:3000/api/data";
               pendingMethod := "POST" |}.
Proof. split; vm_compute; reflexivity. Qed.

(** C2, amended: for a terminal outcome of request [requestId] the
    listener appends exactly one network event and leaves
    [pendingRequests] unchanged.  For a response the event has the
    response's url, the method recorded by [Network.requestWillBeSent]
    (['GET'] when none was recorded), and is a success exactly for a
    status in 200..399; for a loading failure it is a failure with the
    recorded url and method (['unknown'] when none was recorded).
    [Network.requestWillBeSent] records the url and method under the
    request id. *)
Theorem terminal_outcome_emits_and_keeps_entry (iso : string) (t : Z)
    (recording : Recording) (requestId : string) (response : Response)
    (resourceType errorText blockedReason : option string)
    (canceled : option bool) (requestUrl requestMethod : string) :
  (exists ev,
     handleEvent iso t
       (NetworkResponseReceived requestId response resourceType) recording
     = {| recEvents := recEvents recording ++ [ev];
          startTime := startTime recording;
          pendingRequests := pendingRequests recording |}
     /\ type ev = "network" /\ relativeTime ev = t
     /\ subtype ev
        = Some (if (200 <=? responseStatus response)
                   && (responseStatus response <? 400)
                then "success" else "failed")
     /\ url (data ev) = Some (responseUrl response)
     /\ method (data ev)
        = Some (JS.orElse
                  (pendingMethod <$> trackedRequest recording requestId)
                  "GET"))
  /\ (exists ev,
        handleEvent iso t
          (NetworkLoadingFailed requestId errorText canceled blockedReason)
          recording
        = {| recEvents := recEvents recording ++ [ev];
             startTime := startTime recording;
             pendingRequests := pendingRequests recording |}
        /\ type ev = "network" /\ relativeTime ev = t
        /\ subtype ev = Some "failed"
        /\ url (data ev)
           = Some (JS.orElse
                     (pendingUrl <$> trackedRequest recording requestId)
                     "unknown")
        /\ method (data ev)
           = Some (JS.orElse
                     (pendingMethod <$> trackedRequest recording requestId)
                     "unknown"))
  /\ trackedRequest
       (handleEvent iso t
          (NetworkRequestWillBeSent requestId requestUrl requestMethod)
          recording) requestId
     = Some {| pendingUrl := requestUrl; pendingMethod := requestMethod |}.
Proof.
  split; [|split].
  - eexists. simpl. unfold pushEvent. repeat split.
  - eexists. simpl. unfold pushEvent. repeat split.
  - unfold trackedRequest. simpl. apply lookup_insert_eq.
Qed.

(** C8, as stated, fails for uncaught exceptions: the event of a
    [Runtime.exceptionThrown] four frames deep carries all four frames,
    one line each, in its [stack]. *)
Lemma exception_stack_is_not_capped :
  map (fun e => stack (data e))
    (recEvents
       (handleEvent "2025-01-01T00:00:01.300Z" 300
          (RuntimeExceptionThrown deepException) started))
  = [Some (JS.join newline
             ["    at a (http://localhost:3000/app.js:10:1)";
              "    at b (http://localhost:3000/app.js:20:1)";
              "    at c (http://localhost:3000/app.js:30:1)";
              "    at d (http://localhost:3000/app.js:40:1)"])].
Proof. vm_compute. reflexivity. Qed.

(** C8, amended: a [Runtime.consoleAPICalled] is either suppressed (a
    frame comes from the extension itself) or forwarded as one event whose
    [stackTrace] holds the first 3 call frames at most, and no [stack];
    a [Log.entryAdded] event has neither; a [Runtime.exceptionThrown] is
    forwarded as one event with no [stackTrace] and a [stack] text made
    of one line for EVERY call frame. *)
Theorem forwarded_stack_depth (iso : string) (t : Z)
    (recording : Recording) (callType : string) (args : list RemoteObject)
    (trace : option StackTrace) (exception : ExceptionDetails)
    (entry : LogEntry) :
  (handleEvent iso t (RuntimeConsoleAPICalled callType args trace) recording
   = recording
   \/ exists ev,
        recEvents
          (handleEvent iso t (RuntimeConsoleAPICalled callType args trace)
             recording)
        = recEvents recording ++ [ev]
        /\ stack (data ev) = None
        /\ match trace ≫= callFrames with
           | Some frames =>
               exists forwarded,
                 stackTrace (data ev) = Some forwarded
                 /\ forwarded = forwardedFrames frames
                 /\ length forwarded = Nat.min 3 (length frames)
           | None => stackTrace (data ev) = None
           end)
  /\ (handleEvent iso t (LogEntryAdded entry) recording = recording
      \/ exists ev,
           recEvents (handleEvent iso t (LogEntryAdded entry) recording)
           = recEvents recording ++ [ev]
           /\ stack (data ev) = None /\ stackTrace (data ev) = None)
  /\ (exists ev,
        recEvents
          (handleEvent iso t (RuntimeExceptionThrown exception) recording)
        = recEvents recording ++ [ev]
        /\ stackTrace (data ev) = None
        /\ stack (data ev)
           = (fun frames => JS.join newline (map stackLine frames))
               <$> (exceptionStackTrace exception ≫= callFrames)).
Proof.
  split; [|split].
  - simpl.
    destruct (existsb _ _); [by left|]. right.
    eexists. split; [reflexivity|]. simpl. split; [done|].
    destruct (trace ≫= callFrames) as [frames|]; simpl; [|done].
    eexists. split; [reflexivity|]. split; [done|].
    unfold forwardedFrames. by rewrite length_map, length_take.
  - simpl. destruct (isPointaUrl _); [by left|]. right.
    eexists. repeat split.
  - eexists. repeat split.
Qed.

End ListenerClaims.

(** ** The backend log clients: C6 and C7 *)


Section ReconnectClaims.
Import LogClientSamples.

(** *** preload.cjs *)

Lemma preload_delay_doubles (n : nat) :
  Preload.reconnectDelay (S n) = Z.min (2 * Preload.reconnectDelay n) 30000
  /\ 1000 <= Preload.reconnectDelay n <= 30000.
Proof.
  unfold Preload.reconnectDelay.
  rewrite Nat2Z.inj_succ, Z.pow_succ_r by lia.
  assert (0 < 2 ^ Z.of_nat n) by (apply Z.pow_pos_nonneg; lia).
  lia.
Qed.

Lemma preload_connect_exhausted wsInstalled st :
  (Preload.MAX_RECONNECT_ATTEMPTS <= Preload.reconnectAttempts st)%nat ->
  Preload.connect wsInstalled st = st.
Proof.
  intros H. unfold Preload.connect.
  destruct (Nat.leb_spec Preload.MAX_RECONNECT_ATTEMPTS
              (Preload.reconnectAttempts st)); [done | lia].
Qed.

Lemma preload_sendOrQueue_emits frame st :
  emits st (Preload.sendOrQueue frame st) [frame].
Proof.
  unfold emits, Preload.sendOrQueue.
  destruct (Preload.isOpen st) eqn:Hopen; simpl; rewrite ?Hopen; tauto.
Qed.

Lemma emits_nothing st : emits st st [].
Proof.
  unfold emits. rewrite !app_nil_r. destruct (Preload.isOpen st); tauto.
Qed.

Lemma emits_isOpen st st' frames :
  emits st st' frames -> Preload.isOpen st' = Preload.isOpen st.
Proof. intros (Hws & _). unfold Preload.isOpen. by rewrite Hws. Qed.

Lemma emits_then st st1 st2 frames1 frames2 :
  emits st st1 frames1 -> emits st1 st2 frames2 ->
  emits st st2 (frames1 ++ frames2).
Proof.
  intros H1 H2. pose proof (emits_isOpen _ _ _ H1) as Hopen.
  destruct H1 as (? & ? & ? & ? & ? & ? & ? & Hout1).
  destruct H2 as (? & ? & ? & ? & ? & ? & ? & Hout2).
  unfold emits. rewrite Hopen in Hout2.
  repeat (split; [congruence|]).
  destruct (Preload.isOpen st); destruct Hout1 as [Hw1 Hq1];
    destruct Hout2 as [Hw2 Hq2]; rewrite Hw2, Hq2, ?Hw1, ?Hq1, ?app_assoc;
    by split.
Qed.

(** [sendLog] hands over the frame of the call when the client records,
    and nothing otherwise. *)
Lemma preload_sendLog_emits level message iso stack st :
  emits st (Preload.sendLog level message iso stack st)
    (if Preload.isRecording st then
       [Log level message iso
          (match stack with
           | Some s => if decide (s = "") then None else Some s
           | None => None
           end)]
     else []).
Proof.
  unfold Preload.sendLog. destruct (Preload.isRecording st); simpl.
  - apply preload_sendOrQueue_emits.
  - apply emits_nothing.
Qed.

(** [write] hands over the cleaned chunk as a terminal frame when the
    hooks are installed, the client records and captures the terminal,
    and the chunk is not blank; nothing otherwise. *)
Lemma preload_write_emits stream chunk iso st :
  emits st (Preload.write stream chunk iso st)
    (if Preload.stdoutHooked st && Preload.isRecording st
        && Preload.captureStdout st
        && negb (bool_decide (JS.trim (cleaned chunk) = ""))
     then [Terminal (if decide (stream = "stderr") then "stderr"
                     else "stdout")
             (JS.trimEnd (cleaned chunk)) iso]
     else []).
Proof.
  unfold Preload.write, Preload.sendStdoutLog, cleaned.
  destruct (Preload.stdoutHooked st); simpl; [|apply emits_nothing].
  destruct (Preload.isRecording st); simpl; [|apply emits_nothing].
  destruct (Preload.captureStdout st); simpl; [|apply emits_nothing].
  destruct (decide (JS.trim (JS.replaceAll Preload.ansiCode "" chunk) = ""))
    as [Hblank|Hfull].
  - rewrite bool_decide_eq_true_2 by exact Hblank. apply emits_nothing.
  - rewrite bool_decide_eq_false_2 by exact Hfull.
    apply preload_sendOrQueue_emits.
Qed.

Lemma preload_consoleCall_emits level message iso stack printed isoPrinted st :
  exists frames,
    emits st
      (Preload.consoleCall level message iso stack printed isoPrinted st)
      frames.
Proof.
  eexists. unfold Preload.consoleCall.
  eapply emits_then; [apply preload_sendLog_emits|apply preload_write_emits].
Qed.

Lemma preload_step_exhausted st i st' :
  Preload.ws st = None ->
  (Preload.MAX_RECONNECT_ATTEMPTS <= Preload.reconnectAttempts st)%nat ->
  Preload.step st i = Some st' ->
  Preload.ws st' = None
  /\ Preload.reconnectAttempts st' = Preload.reconnectAttempts st
  /\ Preload.timeouts st' = Preload.timeouts st.
Proof.
  intros Hws Hmax. destruct i; simpl; rewrite ?Hws; simpl; try discriminate.
  - destruct (Preload.pendingTimers st); [discriminate|].
    intros [= <-]. by rewrite preload_connect_exhausted.
  - intros [= <-].
    match goal with |- context [Preload.consoleCall ?l ?m ?i ?s ?p ?ip st] =>
      destruct (preload_consoleCall_emits l m i s p ip st)
        as (frames & H1 & _ & _ & _ & H5 & H6 & _)
    end.
    rewrite H1, H5, H6. by rewrite Hws.
  - intros [= <-]. unfold Preload.errorListener.
    match goal with |- context [Preload.sendLog ?l ?m ?i ?s st] =>
      destruct (preload_sendLog_emits l m i s st)
        as (H1 & _ & _ & _ & H5 & H6 & _)
    end.
    rewrite H1, H5, H6. by rewrite Hws.
  - intros [= <-].
    match goal with |- context [Preload.write ?s ?c ?i st] =>
      destruct (preload_write_emits s c i st)
        as (H1 & _ & _ & _ & H5 & H6 & _)
    end.
    rewrite H1, H5, H6. by rewrite Hws.
Qed.

Lemma preload_run_exhausted inputs : forall st st',
  Preload.ws st = None ->
  (Preload.MAX_RECONNECT_ATTEMPTS <= Preload.reconnectAttempts st)%nat ->
  Preload.run st inputs = Some st' ->
  Preload.ws st' = None
  /\ Preload.reconnectAttempts st' = Preload.reconnectAttempts st
  /\ Preload.timeouts st' = Preload.timeouts st.
Proof.
  induction inputs as [|i inputs IH]; intros st st' Hws Hmax; simpl.
  - by intros [= <-].
  - destruct (Preload.step st i) as [st1|] eqn:Hstep; [|discriminate].
    destruct (preload_step_exhausted _ _ _ Hws Hmax Hstep)
      as (Hws1 & Hn1 & Ht1).
    intros Hrun. destruct (IH st1 st' Hws1) as (? & ? & ?);
      [by rewrite Hn1 | done |].
    repeat split; congruence.
Qed.

(** *** logger.js *)

Lemma logger_send_reconnect data st :
  ServerLogger.reconnectAttempts (ServerLogger.send data st)
    = ServerLogger.reconnectAttempts st
  /\ ServerLogger.maxReconnectAttempts (ServerLogger.send data st)
     = ServerLogger.maxReconnectAttempts st
  /\ ServerLogger.timeouts (ServerLogger.send data st)
     = ServerLogger.timeouts st.
Proof.
  unfold ServerLogger.send.
  destruct (ServerLogger.isOpen st); [done|].
  by destruct (_ <? _)%nat.
Qed.

Lemma logger_scheduleReconnect_exhausted st :
  (ServerLogger.maxReconnectAttempts st
   <= ServerLogger.reconnectAttempts st)%nat ->
  ServerLogger.scheduleReconnect st
  = ServerLogger.setReconnect (ServerLogger.reconnectAttempts st) None st.
Proof.
  intros H. unfold ServerLogger.scheduleReconnect. simpl.
  destruct (Nat.leb_spec (ServerLogger.maxReconnectAttempts st)
              (ServerLogger.reconnectAttempts st)); [done | lia].
Qed.

Lemma logger_step_exhausted st i st' :
  (ServerLogger.maxReconnectAttempts st
   <= ServerLogger.reconnectAttempts st)%nat ->
  i <> ServerLogger.SocketOpen ->
  ServerLogger.step st i = Some st' ->
  ServerLogger.reconnectAttempts st' = ServerLogger.reconnectAttempts st
  /\ ServerLogger.maxReconnectAttempts st'
     = ServerLogger.maxReconnectAttempts st
  /\ ServerLogger.timeouts st' = ServerLogger.timeouts st.
Proof.
  intros Hmax Hi. destruct i; simpl; try done.
  - destruct (decide _); [|discriminate]. intros [= <-].
    destruct msg; simpl; try done. apply logger_send_reconnect.
  - destruct (ServerLogger.ws st) as [[]|]; try discriminate;
      intros [= <-]; unfold ServerLogger.onError;
      destruct refused; try done;
      by rewrite logger_scheduleReconnect_exhausted.
  - destruct (ServerLogger.ws st) as [[]|]; try discriminate;
      by intros [= <-].
  - destruct (ServerLogger.ws st) as [[]|]; try discriminate;
      intros [= <-]; unfold ServerLogger.onClose;
      by rewrite logger_scheduleReconnect_exhausted.
  - destruct (ServerLogger.reconnectTimer st); [|discriminate].
    intros [= <-]. unfold ServerLogger.connect. simpl.
    by destruct (_ || _).
  - destruct (ServerLogger.consoleIntercepted st); [|discriminate].
    intros [= <-]. unfold ServerLogger.consoleCall.
    destruct (_ && _); [|done]. apply logger_send_reconnect.
  - intros [= <-]. unfold ServerLogger.connect.
    by destruct (_ || _).
Qed.

Lemma logger_run_exhausted inputs : forall st st',
  (ServerLogger.maxReconnectAttempts st
   <= ServerLogger.reconnectAttempts st)%nat ->
  Forall (fun i => i <> ServerLogger.SocketOpen) inputs ->
  ServerLogger.run st inputs = Some st' ->
  ServerLogger.reconnectAttempts st' = ServerLogger.reconnectAttempts st
  /\ ServerLogger.timeouts st' = ServerLogger.timeouts st.
Proof.
  induction inputs as [|i inputs IH]; intros st st' Hmax Hin; simpl.
  - by intros [= <-].
  - inversion Hin as [|? ? Hi Hin']; subst.
    destruct (ServerLogger.step st i) as [st1|] eqn:Hstep; [|discriminate].
    destruct (logger_step_exhausted _ _ _ Hmax Hi Hstep) as (Hn & Hm & Ht).
    intros Hrun. destruct (IH st1 st') as (? & ?); [lia | done | done |].
    split; congruence.
Qed.
End ReconnectClaims.

Section BackoffClaims.
Import LogClientSamples.

Lemma backoffDelay_grows (d : Q) (n : nat) :
  Qeq (ServerLogger.backoffDelay d (S (S n)))
      ((3 # 2) * ServerLogger.backoffDelay d (S n)).
Proof.
  unfold ServerLogger.backoffDelay.
  replace (Z.of_nat (S (S n)) - 1) with (1 + (Z.of_nat (S n) - 1)) by lia.
  rewrite Qpower_plus by discriminate.
  change ((3 # 2) ^ 1)%Q with (3 # 2)%Q. ring.
Qed.

(** C6, as stated, fails for the SDK logger: six connections closed in a
    row schedule five reconnects, after 2000, 3000, 4500, 6750 and 10125
    ms (each 1.5 times the one before, not twice), and the sixth close
    schedules nothing. *)
Lemma logger_backoff_is_not_doubling :
  let sixCloses :=
    after ServerLogger.initial
      (ServerLogger.CallConnect
       :: concat (replicate 5 [ServerLogger.SocketClose;
                               ServerLogger.TimerFires])
       ++ [ServerLogger.SocketClose]) in
  map Qred (ServerLogger.timeouts sixCloses)
    = [2000; 3000; 4500; 6750; 10125]%Q
  /\ ServerLogger.reconnectTimer sixCloses = None
  /\ ServerLogger.reconnectAttempts sixCloses = 5%nat.
Proof. repeat split; vm_compute; reflexivity. Qed.

(** C6, amended.
    The preload client: every socket close counts one more attempt and
    schedules [connect] after [min(1000 * 2^attempts, 30000)] ms, a delay
    that doubles from 2 s on and is capped at 30 s; once 10 closes in a
    row are counted and the socket is gone, nothing that can still happen
    creates a socket or schedules a timer.
    The SDK logger: [scheduleReconnect] below the bound of
    [maxReconnectAttempts] counts one more attempt and arms a timer of
    [reconnectDelay * 1.5^(attempts - 1)] ms, 1.5 times the previous delay
    with no cap; at the bound, as long as no socket opens, no input
    schedules a timer. *)
Theorem reconnect_backoff_bounded :
  (forall st,
     Preload.timeouts (Preload.onClose st)
       = Preload.timeouts st
         ++ [Preload.reconnectDelay (S (Preload.reconnectAttempts st))]
     /\ Preload.reconnectAttempts (Preload.onClose st)
        = S (Preload.reconnectAttempts st)
     /\ Preload.ws (Preload.onClose st) = None)
  /\ (forall n,
        Preload.reconnectDelay (S n)
          = Z.min (2 * Preload.reconnectDelay n) 30000
        /\ Preload.reconnectDelay 1 = 2000
        /\ Preload.reconnectDelay n <= 30000)
  /\ (forall st inputs st',
        Preload.ws st = None ->
        (Preload.MAX_RECONNECT_ATTEMPTS <= Preload.reconnectAttempts st)%nat ->
        Preload.run st inputs = Some st' ->
        Preload.ws st' = None
        /\ Preload.timeouts st' = Preload.timeouts st)
  /\ (forall st,
        (ServerLogger.reconnectAttempts st
         < ServerLogger.maxReconnectAttempts st)%nat ->
        let delay :=
          ServerLogger.backoffDelay (ServerLogger.reconnectDelay st)
            (S (ServerLogger.reconnectAttempts st)) in
        ServerLogger.reconnectAttempts (ServerLogger.scheduleReconnect st)
          = S (ServerLogger.reconnectAttempts st)
        /\ ServerLogger.reconnectTimer (ServerLogger.scheduleReconnect st)
           = Some delay
        /\ ServerLogger.timeouts (ServerLogger.scheduleReconnect st)
           = ServerLogger.timeouts st ++ [delay])
  /\ (forall d n,
        Qeq (ServerLogger.backoffDelay d (S (S n)))
            ((3 # 2) * ServerLogger.backoffDelay d (S n))
        /\ Qeq (ServerLogger.backoffDelay d 1) d)
  /\ (forall st inputs st',
        (ServerLogger.maxReconnectAttempts st
         <= ServerLogger.reconnectAttempts st)%nat ->
        Forall (fun i => i <> ServerLogger.SocketOpen) inputs ->
        ServerLogger.run st inputs = Some st' ->
        ServerLogger.timeouts st' = ServerLogger.timeouts st).
Proof.
  split; [by intros st|].
  split.
  { intros n. destruct (preload_delay_doubles n) as [Hd Hb].
    repeat split; [exact Hd | lia]. }
  split.
  { intros st inputs st' Hws Hmax Hrun.
    destruct (preload_run_exhausted inputs st st' Hws Hmax Hrun)
      as (? & ? & ?). by split. }
  split.
  { intros st Hlt. unfold ServerLogger.scheduleReconnect. simpl.
    destruct (Nat.leb_spec (ServerLogger.maxReconnectAttempts st)
                (ServerLogger.reconnectAttempts st)); [lia|]. done. }
  split.
  { intros d n. split; [apply backoffDelay_grows|].
    unfold ServerLogger.backoffDelay. simpl. ring. }
  intros st inputs st' Hmax Hin Hrun.
  by destruct (logger_run_exhausted inputs st st' Hmax Hin Hrun).
Qed.

(** The exhausted preload client: its last timer fires and the program
    keeps logging, and still no socket and no new timer. *)
Lemma reconnect_backoff_bounded_witness :
  let later :=
    afterPreload preloadExhausted
      [Preload.TimerFires true;
       Preload.ConsoleCall "log" "still running"
         "2025-01-01T00:10:00.000Z" None
         "still running" "2025-01-01T00:10:00.001Z"] in
  Preload.timeouts preloadExhausted
    = [2000; 4000; 8000; 16000; 30000; 30000; 30000; 30000; 30000; 30000]
  /\ Preload.ws later = None
  /\ Preload.timeouts later = Preload.timeouts preloadExhausted.
Proof.
  split; [vm_compute; reflexivity|].
  apply (proj1 (proj2 (proj2 reconnect_backoff_bounded)) preloadExhausted
           [Preload.TimerFires true;
            Preload.ConsoleCall "log" "still running"
              "2025-01-01T00:10:00.000Z" None
              "still running" "2025-01-01T00:10:00.001Z"]).
  - vm_compute; reflexivity.
  - vm_compute. lia.
  - vm_compute; reflexivity.
Defined.
End BackoffClaims.

Section BufferClaims.
Import LogClientSamples.


Lemma logger_flushLoop pending : forall st,
  ServerLogger.isOpen st = true ->
  ServerLogger.buffer st = pending ->
  ServerLogger.buffer (ServerLogger.flushLoop pending st) = []
  /\ ServerLogger.wire (ServerLogger.flushLoop pending st)
     = ServerLogger.wire st ++ pending
  /\ ServerLogger.maxBufferSize (ServerLogger.flushLoop pending st)
     = ServerLogger.maxBufferSize st.
Proof.
  induction pending as [|data rest IH]; intros st Hopen Hbuf; simpl.
  - by rewrite app_nil_r.
  - rewrite Hopen.
    assert (Hsend :
      ServerLogger.send data
        (ServerLogger.setQueues rest (ServerLogger.wire st) st)
      = ServerLogger.setQueues rest (ServerLogger.wire st ++ [data]) st).
    { unfold ServerLogger.send, ServerLogger.isOpen in *. simpl.
      by rewrite Hopen. }
    rewrite Hsend.
    destruct (IH (ServerLogger.setQueues rest
                    (ServerLogger.wire st ++ [data]) st))
      as (Hb & Hw & Hm); [done | done |].
    repeat split; [done | | done].
    rewrite Hw. simpl. by rewrite <- app_assoc.
Qed.

Lemma logger_onOpen_flushes st :
  ServerLogger.buffer (ServerLogger.onOpen st) = []
  /\ ServerLogger.wire (ServerLogger.onOpen st)
     = ServerLogger.wire st ++ ServerLogger.buffer st
  /\ ServerLogger.maxBufferSize (ServerLogger.onOpen st)
     = ServerLogger.maxBufferSize st.
Proof.
  unfold ServerLogger.onOpen, ServerLogger.flushBuffer.
  set (st1 := ServerLogger.setReconnect 0 _ _).
  destruct (logger_flushLoop (ServerLogger.buffer st1) st1)
    as (Hb & Hw & Hm); [reflexivity | reflexivity |].
  cbv zeta. unfold ServerLogger.setFlags.
  cbn [ServerLogger.buffer ServerLogger.wire ServerLogger.maxBufferSize].
  by rewrite Hb, Hw, Hm.
Qed.







End BufferClaims.

(** ** The CDP listener over a whole recording *)

Section ListenerRuns.
Import Background DebuggerSamples ListenerSamples.

Lemma consoleShape_of_level (iso : string) (rt : Z) (lvl : string)
    (d : EventData) :
  consoleShape
    {| timestamp := iso; relativeTime := rt; type := consoleEventType lvl;
       subtype := None; severity := consoleSeverity lvl; source := None;
       data := d |}.
Proof.
  unfold consoleShape, consoleEventType, consoleSeverity. simpl.
  split; [reflexivity|].
  destruct (decide (lvl = "error")); [tauto|].
  destruct (decide (lvl = "warning")); tauto.
Qed.

Lemma consoleEventType_not_network (lvl : string) :
  consoleEventType lvl <> "network".
Proof.
  unfold consoleEventType.
  destruct (decide (lvl = "error")); [discriminate|].
  destruct (decide (lvl = "warning")); discriminate.
Qed.

Lemma forwardedFrames_clean (frames : list CallFrame) :
  existsb (fun frame => isPointaUrl (cfUrl frame)) frames = false ->
  Forall (fun f => isPointaUrl (frameUrl f) = false) (forwardedFrames frames).
Proof.
  intros Hnone. unfold forwardedFrames. rewrite Forall_map. simpl.
  apply Forall_take. induction frames as [|f frames IH]; [constructor|].
  simpl in Hnone. apply orb_false_iff in Hnone as [Hf Hrest].
  constructor; [exact Hf | by apply IH].
Qed.

(** One call of the listener body keeps the start time, never touches the
    events already recorded and appends one event at most, stamped with
    the readings of the clock. *)
Lemma handleEvent_emits (iso : string) (rt : Z) (ev : CDPEvent)
    (recording : Recording) :
  startTime (handleEvent iso rt ev recording) = startTime recording
  /\ (recEvents (handleEvent iso rt ev recording) = recEvents recording
      \/ exists e,
           recEvents (handleEvent iso rt ev recording)
             = recEvents recording ++ [e]
           /\ timestamp e = iso /\ relativeTime e = rt /\ fromListener e).
Proof.
  destruct ev as [requestId response resourceType
                 | requestId errorText canceled blockedReason
                 | requestId requestUrl requestMethod
                 | entry | callType args trace | exception | name]; simpl.
  - split; [reflexivity|]. right. eexists. split; [reflexivity|].
    repeat split; simpl; try done.
    + left. split; [reflexivity|].
      destruct ((200 <=? responseStatus response)
                && (responseStatus response <? 400)); tauto.
    + by left.
  - split; [reflexivity|]. right. eexists. split; [reflexivity|].
    repeat split; simpl; try done.
    + left. split; [reflexivity|]. tauto.
    + by left.
  - split; [reflexivity|]. by left.
  - destruct (isPointaUrl (entryUrl entry)) eqn:Hown; simpl.
    + split; [reflexivity|]. by left.
    + split; [reflexivity|]. right. eexists. split; [reflexivity|].
      repeat split; simpl; try done.
      * right. apply consoleShape_of_level.
      * by right.
  - destruct (existsb _ _) eqn:Hown; simpl.
    + split; [reflexivity|]. by left.
    + split; [reflexivity|]. right. eexists. split; [reflexivity|].
      repeat split; simpl; try done.
      * right. apply consoleShape_of_level.
      * by right.
      * intros frames Hframes.
        destruct (trace ≫= callFrames) as [kept|] eqn:Htrace;
          simpl in *; [|discriminate].
        injection Hframes as <-. by apply forwardedFrames_clean.
  - split; [reflexivity|]. right. eexists. split; [reflexivity|].
    repeat split; simpl; try done.
    + right. split; [reflexivity|]. tauto.
    + by right.
  - split; [reflexivity|]. by left.
Qed.

(** The recording of a tab after one call of the listener. *)
Lemma onEvent_lookup (iso : string) (now tabId : Z) (ev : CDPEvent)
    (st : State) (t : Z) :
  cdpRecordings (onEvent iso now tabId ev st) !! t
  = (fun r => if decide (t = tabId)
              then handleEvent iso (now - startTime r) ev r else r)
      <$> (cdpRecordings st !! t).
Proof.
  unfold onEvent. destruct (cdpRecordings st !! tabId) as [r|] eqn:Hrec.
  - simpl. destruct (decide (t = tabId)) as [->|Hne].
    + rewrite lookup_insert_eq, Hrec. simpl.
      by destruct (decide (tabId = tabId)).
    + rewrite lookup_insert_ne by done.
      destruct (cdpRecordings st !! t); simpl; [|done].
      by destruct (decide (t = tabId)).
  - destruct (decide (t = tabId)) as [->|Hne].
    + by rewrite Hrec.
    + destruct (cdpRecordings st !! t); simpl; [|done].
      by destruct (decide (t = tabId)).
Qed.

Lemma onEvent_frame (iso : string) (now tabId : Z) (ev : CDPEvent)
    (st : State) :
  chrome (onEvent iso now tabId ev st) = chrome st
  /\ viewportOverrides (onEvent iso now tabId ev st) = viewportOverrides st.
Proof. unfold onEvent. by destruct (cdpRecordings st !! tabId). Qed.

Lemma deliverAll_cons (st : State) (d : Delivery) (ds : list Delivery) :
  deliverAll st (d :: ds) = deliverAll (deliver st d) ds.
Proof. reflexivity. Qed.

Lemma deliver_lookup (st : State) (d : Delivery) (t : Z) :
  cdpRecordings (deliver st d) !! t
  = (fun r => if decide (t = onTab d)
              then handleEvent (atIso d) (atNow d - startTime r)
                     (delivered d) r
              else r)
      <$> (cdpRecordings st !! t).
Proof. apply onEvent_lookup. Qed.

Lemma stampedBy_later (d : Delivery) (ds : list Delivery) (t start : Z)
    (l : list Event) :
  Forall (stampedBy ds t start) l -> Forall (stampedBy (d :: ds) t start) l.
Proof.
  intros Hl. eapply Forall_impl; [exact Hl|].
  intros e (d' & Hin & Hrest).
  exists d'. split; [by apply list_elem_of_further | exact Hrest].
Qed.

(** A run of the listener extends the recording of a tab. *)
Lemma deliverAll_appends (ds : list Delivery) (st : State) (t : Z)
    (r : Recording) :
  cdpRecordings st !! t = Some r ->
  exists r' added,
    cdpRecordings (deliverAll st ds) !! t = Some r'
    /\ startTime r' = startTime r
    /\ recEvents r' = recEvents r ++ added
    /\ (length added <= length (deliveriesFor t ds))%nat
    /\ Forall (stampedBy ds t (startTime r)) added
    /\ Forall fromListener added.
Proof.
  unfold deliveriesFor.
  revert st r. induction ds as [|d ds IH]; intros st r Hrec.
  - exists r, []. simpl. rewrite app_nil_r. repeat split; auto.
  - rewrite deliverAll_cons.
    pose proof (deliver_lookup st d t) as Hstep. rewrite Hrec in Hstep.
    simpl in Hstep.
    destruct (decide (t = onTab d)) as [Htab|Htab].
    + destruct (handleEvent_emits (atIso d) (atNow d - startTime r)
                  (delivered d) r) as [Hstart [Hsame | (e & Hpush & Hiso & Hrt & Hshape)]].
      * destruct (IH _ _ Hstep)
          as (r' & added & Hlook & Hst & Hev & Hlen & Hfrom & Hsh).
        exists r', added. rewrite Hstart in *. rewrite Hsame in Hev.
        split; [exact Hlook|]. split; [exact Hst|]. split; [exact Hev|].
        split; [simpl; destruct (bool_decide (onTab d = t)); simpl; lia|].
        split; [by apply stampedBy_later | exact Hsh].
      * destruct (IH _ _ Hstep)
          as (r' & added & Hlook & Hst & Hev & Hlen & Hfrom & Hsh).
        exists r', (e :: added). rewrite Hstart in *.
        rewrite Hpush, <- app_assoc in Hev.
        split; [exact Hlook|]. split; [exact Hst|]. split; [exact Hev|].
        split; [simpl; rewrite bool_decide_eq_true_2 by done; simpl; lia|].
        split; [|by constructor].
        constructor; [|by apply stampedBy_later].
        exists d. split; [apply list_elem_of_here|]. by rewrite Hiso, Hrt.
    + destruct (IH _ _ Hstep)
        as (r' & added & Hlook & Hst & Hev & Hlen & Hfrom & Hsh).
      exists r', added.
      split; [exact Hlook|]. split; [exact Hst|]. split; [exact Hev|].
      split; [simpl; rewrite bool_decide_eq_false_2 by done; exact Hlen|].
      split; [by apply stampedBy_later | exact Hsh].
Qed.

(** A run of the listener leaves a tab without a recording without one. *)
Lemma deliverAll_none (ds : list Delivery) (st : State) (t : Z) :
  cdpRecordings st !! t = None ->
  cdpRecordings (deliverAll st ds) !! t = None.
Proof.
  revert st. induction ds as [|d ds IH]; intros st Hrec; [exact Hrec|].
  rewrite deliverAll_cons. apply IH. rewrite deliver_lookup, Hrec. done.
Qed.

Lemma deliverAll_frame (ds : list Delivery) (st : State) :
  chrome (deliverAll st ds) = chrome st
  /\ viewportOverrides (deliverAll st ds) = viewportOverrides st.
Proof.
  revert st. induction ds as [|d ds IH]; intros st; [done|].
  rewrite deliverAll_cons. destruct (IH (deliver st d)) as [-> ->].
  apply onEvent_frame.
Qed.

Lemma deliverAll_elsewhere (ds : list Delivery) (st : State) (t : Z) :
  Forall (fun d => onTab d <> t) ds ->
  cdpRecordings (deliverAll st ds) !! t = cdpRecordings st !! t.
Proof.
  revert st. induction ds as [|d ds IH]; intros st Hother; [done|].
  apply Forall_cons in Hother as [Hd Hds].
  rewrite deliverAll_cons, IH by done. rewrite deliver_lookup.
  destruct (cdpRecordings st !! t); simpl; [|done].
  destruct (decide (t = onTab d)); [by subst|done].
Qed.

Lemma StronglySorted_snoc {A} (R : A -> A -> Prop) (l : list A) (x : A) :
  StronglySorted R l -> Forall (fun y => R y x) l ->
  StronglySorted R (l ++ [x]).
Proof.
  induction 1 as [|a l Hl IH Ha]; intros Hx; simpl.
  - repeat constructor.
  - apply Forall_cons in Hx as [Hax Hx].
    constructor; [by apply IH|].
    apply Forall_app. split; [exact Ha|]. by repeat constructor.
Qed.

(** With clock readings that never go back, every event the run adds is
    at or after the events before it. *)
Lemma deliverAll_sorted (ds : list Delivery) (st : State) (t bound : Z)
    (r : Recording) :
  cdpRecordings st !! t = Some r ->
  StronglySorted (fun a b => relativeTime a <= relativeTime b) (recEvents r) ->
  Forall (fun e => relativeTime e <= bound - startTime r) (recEvents r) ->
  Forall (fun d => bound <= atNow d) ds ->
  StronglySorted (fun a b => atNow a <= atNow b) ds ->
  exists r',
    cdpRecordings (deliverAll st ds) !! t = Some r'
    /\ StronglySorted (fun a b => relativeTime a <= relativeTime b)
         (recEvents r').
Proof.
  revert st r bound.
  induction ds as [|d ds IH]; intros st r bound Hrec Hsorted Hbound Hafter Hclock.
  - exists r. by split.
  - rewrite deliverAll_cons.
    pose proof (deliver_lookup st d t) as Hstep. rewrite Hrec in Hstep.
    simpl in Hstep.
    apply Forall_cons in Hafter as [Hd Hafter].
    apply StronglySorted_inv in Hclock as [Hclock Hlater].
    assert (Hold : Forall (fun e => relativeTime e <= atNow d - startTime r)
                     (recEvents r)).
    { eapply Forall_impl; [exact Hbound|]. simpl. intros e He. lia. }
    destruct (decide (t = onTab d)) as [Htab|Htab].
    + destruct (handleEvent_emits (atIso d) (atNow d - startTime r)
                  (delivered d) r)
        as [Hstart [Hsame | (e & Hpush & _ & Hrt & _)]].
      * apply (IH _ _ (atNow d) Hstep); rewrite ?Hstart, ?Hsame; auto.
      * apply (IH _ _ (atNow d) Hstep); rewrite ?Hstart, ?Hpush; auto.
        -- apply StronglySorted_snoc; [exact Hsorted|].
           eapply Forall_impl; [exact Hold|]. simpl. intros x Hx. lia.
        -- apply Forall_app. split; [exact Hold|].
           constructor; [lia|constructor].
    + apply (IH _ _ (atNow d) Hstep); auto.
Qed.

(** X4: a run of the listener only appends to the recording of a tab: the
    events already recorded stay where they are, each delivery for the tab
    adds one event at most, and every added event carries the clock
    readings of a delivery for this tab, its [relativeTime] counted from
    the start time of the recording, which never changes. *)
Theorem listener_only_appends (st : State) (ds : list Delivery) (t : Z)
    (r : Recording) :
  cdpRecordings st !! t = Some r ->
  exists r' added,
    cdpRecordings (deliverAll st ds) !! t = Some r'
    /\ startTime r' = startTime r
    /\ recEvents r' = recEvents r ++ added
    /\ (length added <= length (deliveriesFor t ds))%nat
    /\ Forall (stampedBy ds t (startTime r)) added.
Proof.
  intros Hrec.
  destruct (deliverAll_appends ds st t r Hrec)
    as (r' & added & H1 & H2 & H3 & H4 & H5 & _).
  exists r', added. auto.
Qed.

(** The sample run on a recording of tab 7 started at 1000: four
    deliveries are for the tab, two events are added. *)
Lemma listener_only_appends_witness :
  exists r' added,
    cdpRecordings (deliverAll recordingTab7 sampleRun) !! 7 = Some r'
    /\ startTime r' = 1000
    /\ recEvents r' = added
    /\ (length added <= 4)%nat
    /\ map relativeTime added = [250; 400].
Proof.
  destruct (listener_only_appends recordingTab7 sampleRun 7
              {| recEvents := []; startTime := 1000;
                 pendingRequests := Some ∅ |})
    as (r' & added & H1 & H2 & H3 & H4 & _).
  - vm_compute. reflexivity.
  - exists r', added. split; [exact H1|]. split; [exact H2|].
    split; [exact H3|]. split; [exact H4|].
    assert (Hrun : cdpRecordings (deliverAll recordingTab7 sampleRun) !! 7
                   = Some r') by exact H1.
    vm_compute in Hrun. injection Hrun as <-. simpl in H3. subst added.
    reflexivity.
Defined.

(** X5: whatever is delivered, a recording whose events the listener
    built holds only network outcomes (success with severity info, failure
    with severity error) and console events whose severity follows their
    type, none of them with a call frame or url of the extension's own
    scripts. *)
Theorem recordings_hold_listener_events (st : State) (ds : list Delivery) :
  (forall t r, cdpRecordings st !! t = Some r ->
               Forall fromListener (recEvents r)) ->
  forall t r, cdpRecordings (deliverAll st ds) !! t = Some r ->
              Forall fromListener (recEvents r).
Proof.
  intros Hbefore t r Hafter.
  destruct (cdpRecordings st !! t) as [r0|] eqn:Hrec.
  - destruct (deliverAll_appends ds st t r0 Hrec)
      as (r' & added & H1 & _ & H3 & _ & _ & H6).
    rewrite Hafter in H1. injection H1 as <-. rewrite H3.
    apply Forall_app. split; [by apply (Hbefore t)|exact H6].
  - by rewrite (deliverAll_none ds st t Hrec) in Hafter.
Qed.

(** The sample run: the console call of the extension's own script is not
    recorded. *)
Lemma recordings_hold_listener_events_witness :
  exists r,
    cdpRecordings (deliverAll recordingTab7 sampleRun) !! 7 = Some r
    /\ Forall fromListener (recEvents r)
    /\ map (fun e => (type e, message (data e))) (recEvents r)
       = [("network", None); ("console-error", Some "boom")].
Proof.
  eexists. split; [vm_compute; reflexivity|]. split; [|reflexivity].
  apply (recordings_hold_listener_events recordingTab7 sampleRun)
    with (t := 7); [|vm_compute; reflexivity].
  intros t r0 Hr0.
  replace (cdpRecordings recordingTab7)
    with ({[ 7 := started ]} : gmap Z Recording) in Hr0
    by (vm_compute; reflexivity).
  apply lookup_singleton_Some in Hr0 as [_ <-]. constructor.
Defined.

(** X6: when the clock readings of the deliveries never go back, the
    events of a recording that started empty are in non-decreasing
    [relativeTime] order, whatever the deliveries are. *)
Theorem recorded_events_follow_the_clock (st : State) (ds : list Delivery)
    (t : Z) (r : Recording) :
  cdpRecordings st !! t = Some r ->
  recEvents r = [] ->
  StronglySorted (fun a b => atNow a <= atNow b) ds ->
  exists r',
    cdpRecordings (deliverAll st ds) !! t = Some r'
    /\ StronglySorted (fun a b => relativeTime a <= relativeTime b)
         (recEvents r').
Proof.
  intros Hrec Hempty Hclock.
  apply (deliverAll_sorted ds st t
           (match ds with [] => 0 | d :: _ => atNow d end) r Hrec);
    rewrite ?Hempty; try constructor; [|exact Hclock].
  destruct ds as [|d ds]; [constructor|].
  apply StronglySorted_inv in Hclock as [_ Hlater].
  constructor; [lia|exact Hlater].
Qed.

(** The sample run is delivered in the order of the clock. *)
Lemma recorded_events_follow_the_clock_witness :
  exists r',
    cdpRecordings (deliverAll recordingTab7 sampleRun) !! 7 = Some r'
    /\ StronglySorted (fun a b => relativeTime a <= relativeTime b)
         (recEvents r').
Proof.
  apply (recorded_events_follow_the_clock recordingTab7 sampleRun 7 started).
  - vm_compute. reflexivity.
  - reflexivity.
  - unfold sampleRun. repeat constructor; simpl; lia.
Defined.

(** X7: the listener records and does nothing else: a run of deliveries
    leaves the debugger and the viewport overrides as they are, starts no
    recording and ends none, and changes the recording of no tab that
    received nothing. *)
Theorem listener_leaves_the_rest_alone (st : State) (ds : list Delivery) :
  chrome (deliverAll st ds) = chrome st
  /\ viewportOverrides (deliverAll st ds) = viewportOverrides st
  /\ (forall t, is_Some (cdpRecordings (deliverAll st ds) !! t)
                <-> is_Some (cdpRecordings st !! t))
  /\ (forall t, Forall (fun d => onTab d <> t) ds ->
                cdpRecordings (deliverAll st ds) !! t
                = cdpRecordings st !! t).
Proof.
  destruct (deliverAll_frame ds st) as [Hchrome Hview].
  split; [exact Hchrome|]. split; [exact Hview|]. split.
  - intros t. destruct (cdpRecordings st !! t) as [r|] eqn:Hrec.
    + destruct (deliverAll_appends ds st t r Hrec) as (r' & ? & -> & _).
      split; eauto.
    + rewrite (deliverAll_none ds st t Hrec). done.
  - intros t. apply deliverAll_elsewhere.
Qed.

Lemma filter_complement {A} (f : A -> bool) (l : list A) :
  List.filter f l ++ List.filter (fun x => negb (f x)) l ≡ₚ l.
Proof.
  induction l as [|x l IH]; simpl; [done|].
  destruct (f x); simpl.
  - by constructor.
  - rewrite <- Permutation_middle. by constructor.
Qed.

Lemma filter_agree {A} (f g : A -> bool) (l : list A) :
  Forall (fun x => f x = g x) l -> List.filter f l = List.filter g l.
Proof.
  induction 1 as [|x l Hx _ IH]; simpl; [done|]. by rewrite Hx, IH.
Qed.

Lemma fromListener_console_or_network (e : Event) :
  fromListener e ->
  JS.startsWith (type e) "console" = negb (bool_decide (type e = "network")).
Proof.
  intros [[[Ht _] | [_ [[Ht _] | [[Ht _] | [Ht _]]]]] _]; by rewrite Ht.
Qed.

(** X8: [stopCDPRecording] always resolves, whatever the debugger
    answers, and removes the recording; when the listener built the events
    of the recording, every one of them is returned, in order, either as a
    network event or as a console event. *)
Theorem stopCDPRecording_returns_every_event (tabId : Z) (st : State)
    (recording : Recording) :
  cdpRecordings st !! tabId = Some recording ->
  Forall fromListener (recEvents recording) ->
  exists captured st',
    stopCDPRecording tabId st = (Ok captured, st')
    /\ cdpRecordings st' !! tabId = None
    /\ capturedNetwork captured
       = List.filter (fun e => bool_decide (type e = "network"))
           (recEvents recording)
    /\ capturedConsole captured
       = List.filter (fun e => negb (bool_decide (type e = "network")))
           (recEvents recording)
    /\ capturedNetwork captured ++ capturedConsole captured
       ≡ₚ recEvents recording.
Proof.
  intros Hrec Hshape.
  assert (Hconsole :
    List.filter (fun e => JS.startsWith (type e) "console")
      (recEvents recording)
    = List.filter (fun e => negb (bool_decide (type e = "network")))
        (recEvents recording)).
  { apply filter_agree. eapply Forall_impl; [exact Hshape|].
    apply fromListener_console_or_network. }
  run_promise. rewrite Hrec. simpl.
  repeat split_call;
    (eexists _, _; split; [reflexivity|]; simpl;
     split; [apply lookup_delete_eq|];
     split; [reflexivity|];
     split; [exact Hconsole|];
     rewrite Hconsole; apply filter_complement).
Qed.

(** The sample run on tab 7: one network event and one console event come
    back. *)
Lemma stopCDPRecording_returns_every_event_witness :
  exists captured st',
    stopCDPRecording 7 (deliverAll recordingTab7 sampleRun)
      = (Ok captured, st')
    /\ cdpRecordings st' !! 7 = None
    /\ map relativeTime (capturedNetwork captured) = [250]
    /\ map relativeTime (capturedConsole captured) = [400].
Proof.
  destruct (deliverAll_appends sampleRun recordingTab7 7 started)
    as (r & added & Hr & _ & Hevents & _ & _ & Hshape);
    [vm_compute; reflexivity|].
  simpl in Hevents. rewrite <- Hevents in Hshape.
  destruct (stopCDPRecording_returns_every_event 7
              (deliverAll recordingTab7 sampleRun) r Hr Hshape)
    as (captured & st' & Hstop & Hgone & Hnet & Hcon & _).
  exists captured, st'. split; [exact Hstop|]. split; [exact Hgone|].
  vm_compute in Hr. injection Hr as <-.
  rewrite Hnet, Hcon. split; reflexivity.
Defined.

(** X9: a whole recording session on a tab nobody uses, in a browser
    that accepts the calls: [startCDPRecording] resolves, and after any run
    of deliveries [stopCDPRecording] returns events that all carry the
    clock readings of a delivery for this tab, counted from the start of
    the session, at most one per delivery; afterwards the debugger is
    attached to the tabs it was attached to before the session and the tab
    has no recording. *)
Theorem recording_session_restores_the_debugger (now tabId : Z) (st : State)
    (ds : list Delivery) :
  cdpRecordings st !! tabId = None ->
  viewportOverrides st !! tabId = None ->
  (tabId ∉ attached (chrome st)) ->
  (forall call, rejects (chrome st) tabId call = None) ->
  exists st1 captured st3,
    startCDPRecording now tabId st = (Ok tt, st1)
    /\ stopCDPRecording tabId (deliverAll st1 ds) = (Ok captured, st3)
    /\ attached (chrome st3) = attached (chrome st)
    /\ viewportOverrides st3 = viewportOverrides st
    /\ cdpRecordings st3 !! tabId = None
    /\ Forall (stampedBy ds tabId now)
         (capturedNetwork captured ++ capturedConsole captured)
    /\ (length (capturedNetwork captured ++ capturedConsole captured)
        <= length (deliveriesFor tabId ds))%nat.
Proof.
  intros Hrec Hview Hfree Haccepts.
  assert (Hin : tabId ∈ ({[tabId]} ∪ attached (chrome st) : gset Z)).
  { apply elem_of_union. left. by apply elem_of_singleton. }
  assert (Hback :
    ({[tabId]} ∪ attached (chrome st)) ∖ {[tabId]} = attached (chrome st)).
  { apply set_eq. intros x.
    rewrite elem_of_difference, elem_of_union, elem_of_singleton.
    split; [intros [[->|Hx] Hne]; [done|exact Hx]|].
    intros Hx. split; [by right|]. intros ->. contradiction. }
  set (fresh := {| recEvents := []; startTime := now;
                   pendingRequests := Some ∅ |}).
  set (st1 :=
    {| viewportOverrides := viewportOverrides st;
       cdpRecordings := <[tabId := fresh]> (cdpRecordings st);
       chrome := {| attached := {[tabId]} ∪ attached (chrome st);
                    rejects := rejects (chrome st) |} |}).
  assert (Hstart : startCDPRecording now tabId st = (Ok tt, st1)).
  { run_promise. rewrite Hrec. simpl. rewrite Hview. simpl.
    repeat (first [ rewrite Haccepts
                  | rewrite decide_True by exact Hin
                  | rewrite decide_False by exact Hfree ];
            unfold setChrome, setCdpRecordings; simpl).
    reflexivity. }
  destruct (deliverAll_appends ds st1 tabId fresh)
    as (r' & added & Hlook & _ & Hevents & Hlen & Hstamped & Hshape).
  { subst st1. simpl. apply lookup_insert_eq. }
  simpl in Hevents, Hstamped.
  destruct (deliverAll_frame ds st1) as [Hchrome2 Hview2].
  assert (Hconsole :
    List.filter (fun e => JS.startsWith (type e) "console") added
    = List.filter (fun e => negb (bool_decide (type e = "network"))) added).
  { apply filter_agree. eapply Forall_impl; [exact Hshape|].
    apply fromListener_console_or_network. }
  exists st1.
  eexists {| capturedNetwork :=
               List.filter (fun e => bool_decide (type e = "network")) added;
             capturedConsole :=
               List.filter (fun e => JS.startsWith (type e) "console")
                 added |}.
  eexists. split; [exact Hstart|]. split.
  - run_promise. rewrite Hlook. simpl.
    repeat (first [ rewrite Hchrome2 | rewrite Hview2 | rewrite Hview
                  | rewrite Haccepts
                  | rewrite decide_True by exact Hin ];
            unfold setChrome, setCdpRecordings; simpl).
    rewrite Hevents. reflexivity.
  - simpl. split; [exact Hback|]. split; [reflexivity|].
    split; [apply lookup_delete_eq|].
    rewrite Hconsole.
    pose proof (filter_complement
                  (fun e => bool_decide (type e = "network")) added) as Hperm.
    split.
    + rewrite Hperm. exact Hstamped.
    + rewrite Hperm. exact Hlen.
Qed.

(** The sample run on tab 7 of an idle browser. *)
Lemma recording_session_restores_the_debugger_witness :
  exists st1 captured st3,
    startCDPRecording 1000 7 (idle quietChrome) = (Ok tt, st1)
    /\ stopCDPRecording 7 (deliverAll st1 sampleRun) = (Ok captured, st3)
    /\ attached (chrome st3) = ∅
    /\ cdpRecordings st3 !! 7 = None
    /\ (length (capturedNetwork captured ++ capturedConsole captured)
        <= 4)%nat.
Proof.
  destruct (recording_session_restores_the_debugger 1000 7
              (idle quietChrome) sampleRun)
    as (st1 & captured & st3 & H1 & H2 & H3 & _ & H5 & _ & H7).
  - reflexivity.
  - reflexivity.
  - simpl. apply not_elem_of_empty.
  - reflexivity.
  - exists st1, captured, st3. auto.
Defined.

End ListenerRuns.

(** ** The two users of the debugger, in the other order *)

Section ViewportAndRecording.
Import Background DebuggerSamples.

(** X10: the viewport emulation does not share an attachment it did not
    make.  On a tab without a stored override to which a debugger is
    already attached (a recording started first), [setViewport] throws and
    changes nothing: neither the override nor the attachment. *)
Theorem setViewport_fails_on_attached_tab (tabId width height : Z)
    (st : State) :
  viewportOverrides st !! tabId = None ->
  (tabId ∈ attached (chrome st)) ->
  exists error, setViewport tabId width height st = (Throw error, st).
Proof.
  intros Hview Hatt. run_promise. rewrite Hview. simpl.
  destruct (rejects (chrome st) tabId Attach); simpl; [eauto|].
  rewrite decide_True by exact Hatt. simpl. eauto.
Qed.

(** Tab 7 with a recording started on an idle browser. *)
Lemma setViewport_fails_on_attached_tab_witness :
  is_Some (cdpRecordings recordingTab7 !! 7)
  /\ setViewport 7 1280 720 recordingTab7
     = (Throw "Another debugger is already attached to the tab",
        recordingTab7).
Proof.
  split; [eexists; vm_compute; reflexivity|].
  destruct (setViewport_fails_on_attached_tab 7 1280 720 recordingTab7)
    as [error Hthrows].
  - reflexivity.
  - replace (attached (chrome recordingTab7)) with ({[7]} : gset Z)
      by (vm_compute; reflexivity).
    by apply elem_of_singleton.
  - rewrite Hthrows. f_equal.
    assert (Herr : (setViewport 7 1280 720 recordingTab7).1 = Throw error)
      by (by rewrite Hthrows).
    vm_compute in Herr. congruence.
Defined.

(** X11: a stored override whose debugger is gone is never cleared.  When
    the override of a tab is stored and no debugger is attached to the tab
    any more, [resetViewport] swallows the failure and changes nothing,
    [setViewport] skips the attach and throws, and [startCDPRecording]
    skips the attach too, throws and leaves no recording: the state stays
    as it is under all three. *)
Theorem stale_override_is_never_cleared (tabId width height now : Z)
    (st : State) :
  is_Some (viewportOverrides st !! tabId) ->
  (tabId ∉ attached (chrome st)) ->
  resetViewport tabId st = (Ok tt, st)
  /\ (exists error, setViewport tabId width height st = (Throw error, st))
  /\ (cdpRecordings st !! tabId = None ->
      exists error st',
        startCDPRecording now tabId st = (Throw error, st')
        /\ cdpRecordings st' = cdpRecordings st
        /\ viewportOverrides st' = viewportOverrides st
        /\ chrome st' = chrome st).
Proof.
  intros [size Hview] Hgone. split; [|split].
  - run_promise.
    destruct (rejects (chrome st) tabId _); simpl; [reflexivity|].
    rewrite decide_False by exact Hgone. reflexivity.
  - run_promise. rewrite Hview. simpl.
    destruct (rejects (chrome st) tabId _); simpl; [eauto|].
    rewrite decide_False by exact Hgone. simpl. eauto.
  - intros Hrec.
    assert (Hdel :
      delete tabId
        (<[tabId := {| recEvents := []; startTime := now;
                       pendingRequests := Some ∅ |}]> (cdpRecordings st))
      = cdpRecordings st).
    { rewrite delete_insert_eq. by apply delete_id. }
    run_promise. rewrite Hrec. simpl. rewrite Hview. simpl.
    destruct (rejects (chrome st) tabId _); simpl.
    + eexists _, _. split; [reflexivity|]. simpl. by rewrite Hdel.
    + rewrite decide_False by exact Hgone. simpl.
      eexists _, _. split; [reflexivity|]. simpl. by rewrite Hdel.
Qed.

(** Tab 7 after the banner was dismissed. *)
Lemma stale_override_is_never_cleared_witness :
  is_Some (viewportOverrides detachedBehind !! 7)
  /\ resetViewport 7 detachedBehind = (Ok tt, detachedBehind)
  /\ exists error,
       setViewport 7 375 667 detachedBehind = (Throw error, detachedBehind).
Proof.
  assert (Hstored : is_Some (viewportOverrides detachedBehind !! 7))
    by (eexists; vm_compute; reflexivity).
  split; [exact Hstored|].
  destruct (stale_override_is_never_cleared 7 375 667 1000 detachedBehind)
    as (Hreset & Hset & _).
  - exact Hstored.
  - simpl. apply not_elem_of_empty.
  - split; [exact Hreset | exact Hset].
Defined.

End ViewportAndRecording.

(** ** The recording session of the content script *)

Section RecorderSessionFacts.
Import BugRecorder RecorderSession.

Lemma record_ready (iso : string) (now : Z) (event : TimelineEventInit)
    (r : Recorder) :
  ready r -> isRecording r = true ->
  exists r', record iso now event r = Some r'
             /\ isRecording r' = true /\ ready r'.
Proof.
  intros Hready Hrec. destruct (Hready Hrec) as [rd Hrd].
  unfold record. rewrite Hrd. eexists. split; [reflexivity|].
  split; [exact Hrec|]. intros _. simpl. eauto.
Qed.

(** A step from a recorder that is ready: it completes, and its handler
    throws exactly when a recording is running and the event is one the
    handler cannot read; the recorder is then unchanged. *)
Lemma step_ready (r : Recorder) (a : Action) :
  ready r ->
  exists r' outcome,
    step r a = Some (r', outcome)
    /\ ready r'
    /\ threw outcome = isRecording r && unreadable a
    /\ (threw outcome = true ->
        r' = r /\ sent outcome = [] /\ resolved outcome = None).
Proof.
  intros Hready.
  destruct a as [include | capture | include href now isoMarker nowMarker
                | iso now event | iso now reason | iso now target
                | iso now key
                | cdpReply backendReply isoMarker nowMarker isoEnd nowEnd];
    cbn [step unreadable]; rewrite ?andb_false_r.
  - eexists _, _. split; [reflexivity|]. split; [|by split].
    unfold ready, setIncludeBackendLogs. by destruct (_ && _).
  - eexists _, _. split; [reflexivity|]. split; [exact Hready|by split].
  - unfold startRecording. destruct (isRecording r) eqn:Hrec; simpl.
    + eexists _, _. split; [reflexivity|]. split; [exact Hready|by split].
    + eexists _, _. split; [reflexivity|]. split; [|by split].
      intros _. simpl. eauto.
  - unfold errorHandler. destruct (isRecording r) eqn:Hrec.
    + destruct (record_ready iso now
                  {| initType := "console-error"; initSubtype := None;
                     initSeverity := "error";
                     initData :=
                       {| message := errorMessage event;
                          level := Some "error";
                          dataSource := errorFilename event; url := None;
                          method := None; status := None;
                          lineNumber := errorLineno event;
                          columnNumber := errorColno event;
                          stack := errorStack event; stackTrace := None;
                          responseBody := None;
                          extra :=
                            [("capturedBy",
                              JStr "window-error-handler")] |} |}
                  r Hready Hrec) as (r' & -> & _ & Hready').
      eexists _, _. split; [reflexivity|]. split; [exact Hready'|by split].
    + eexists _, _. split; [reflexivity|]. split; [exact Hready|by split].
  - unfold rejectionHandler. destruct (isRecording r) eqn:Hrec.
    + destruct reason as [text|].
      * match goal with |- context [record iso now ?e r] =>
          destruct (record_ready iso now e r Hready Hrec)
            as (r' & -> & _ & Hready')
        end.
        eexists _, _. split; [reflexivity|].
        split; [exact Hready'|by split].
      * eexists _, _. split; [reflexivity|]. split; [exact Hready|by split].
    + eexists _, _. split; [reflexivity|]. split; [exact Hready|by split].
  - unfold inputHandler. destruct (isRecording r) eqn:Hrec; cbn [negb].
    + destruct (targetTagName target) as [tagName|];
        [|eexists _, _; split; [reflexivity|]; split; [exact Hready|];
          by split].
      destruct (recordedValue target) as [value|];
        [|eexists _, _; split; [reflexivity|]; split; [exact Hready|];
          by split].
      destruct (targetSelector target) as [selector|];
        [|eexists _, _; split; [reflexivity|]; split; [exact Hready|];
          by split].
      destruct (targetXpath target) as [xpath|];
        [|eexists _, _; split; [reflexivity|]; split; [exact Hready|];
          by split].
      cbn [mbind option_bind].
      match goal with |- context [record iso now ?e r] =>
        destruct (record_ready iso now e r Hready Hrec)
          as (r' & -> & _ & Hready')
      end.
      eexists _, _. split; [reflexivity|]. split; [exact Hready'|by split].
    + eexists _, _. split; [reflexivity|]. split; [exact Hready|by split].
  - unfold keypressHandler. destruct (isRecording r) eqn:Hrec; cbn [negb].
    + destruct (_ || _).
      * match goal with |- context [record iso now ?e r] =>
          destruct (record_ready iso now e r Hready Hrec)
            as (r' & -> & _ & Hready')
        end.
        eexists _, _. split; [reflexivity|].
        split; [exact Hready'|by split].
      * eexists _, _. split; [reflexivity|]. split; [exact Hready|by split].
    + eexists _, _. split; [reflexivity|]. split; [exact Hready|by split].
  - unfold stopRecording. destruct (isRecording r) eqn:Hrec; simpl.
    + destruct (Hready Hrec) as [rd Hrd]. rewrite Hrd. simpl.
      eexists _, _. split; [reflexivity|]. split; [|by split].
      intros Hrun. discriminate.
    + eexists _, _. split; [reflexivity|]. split; [exact Hready|by split].
Qed.

Lemma run_ready (actions : list Action) (r : Recorder) :
  ready r ->
  exists r' outcomes,
    run r actions = Some (r', outcomes)
    /\ length outcomes = length actions
    /\ ready r'
    /\ Forall2 (fun a o => threw o = true -> unreadable a = true)
         actions outcomes.
Proof.
  revert r. induction actions as [|a actions IH]; intros r Hready.
  - exists r, []. split; [reflexivity|]. split; [reflexivity|].
    split; [exact Hready|constructor].
  - destruct (step_ready r a Hready)
      as (r1 & outcome & Hstep & Hready1 & Hthrew & _).
    destruct (IH r1 Hready1)
      as (r' & outcomes & Hrun & Hlen & Hready' & Hall).
    exists r', (outcome :: outcomes). simpl. rewrite Hstep. simpl.
    rewrite Hrun. simpl. split; [reflexivity|]. split; [by rewrite Hlen|].
    split; [exact Hready'|]. constructor; [|exact Hall].
    rewrite Hthrew. intros Hboth. by apply andb_true_iff in Hboth as [_ ?].
Qed.

(** X12: when the recorder throws.  From the initial recorder, every
    sequence of calls, page events (error, rejection, input, key) and
    replies completes: [startRecording] and [stopRecording] never reject,
    and whenever a recording is running its data is there, so
    [addTimelineEvent] never fails.  A handler does throw, but only
    during a recording and only on an event it cannot read: a rejection
    whose reason has no string conversion (a symbol, an object without
    [toString]), or an input whose target has no tag name, whose value
    (outside password and email fields) is neither a string nor
    [undefined] nor [null], or whose selectors cannot be computed.  In
    every state the recorder can reach these events make the handler
    throw exactly while a recording is running, and the recorder is then
    left as it was, so the event is missing from the recording. *)
Theorem handlers_throw_only_on_unreadable_events (actions : list Action) :
  (exists r outcomes,
     run initial actions = Some (r, outcomes)
     /\ length outcomes = length actions
     /\ (isRecording r = true -> is_Some (recordingData r))
     /\ Forall2 (fun a o => threw o = true -> unreadable a = true)
          actions outcomes)
  /\ (forall r outcomes a,
        run initial actions = Some (r, outcomes) ->
        exists r' outcome,
          step r a = Some (r', outcome)
          /\ threw outcome = isRecording r && unreadable a
          /\ (threw outcome = true ->
              r' = r /\ sent outcome = [] /\ resolved outcome = None)).
Proof.
  destruct (run_ready actions initial)
    as (r & outcomes & Hrun & Hlen & Hready & Hall).
  { intros Hrec. discriminate. }
  split; [by exists r, outcomes|].
  intros r0 outcomes0 a Hrun0. rewrite Hrun in Hrun0.
  injection Hrun0 as <- <-.
  destruct (step_ready r a Hready) as (r' & outcome & Hstep & _ & Hthrew).
  by exists r', outcome.
Qed.

(** During the sample session, a promise rejected with a symbol and a
    custom element with a numeric value make their handlers throw; the
    same element typed as a password field does not, and neither event
    throws before the recording starts. *)
Lemma handlers_throw_on_sample_events :
  option_map (fun result => map threw result.2)
    (run initial
       ([symbolRejection] ++ take 2 sampleSession
        ++ [symbolRejection; sliderInput None;
            sliderInput (Some "password")]))
  = Some [false; false; false; true; true; false].
Proof. vm_compute. reflexivity. Qed.

Lemma addTimelineEvent_end (iso : string) (now start : Z)
    (d : EventData) (rd : RecordingData) :
  addTimelineEvent iso now start
    {| initType := "recording-end"; initSubtype := None;
       initSeverity := "info"; initData := d |} rd = rd.
Proof. reflexivity. Qed.

(** X13: [stopRecording] on a running recording always resolves to a
    report, whatever the background script answers (no answer, a failure,
    an answer without events): the report's timeline and key issues are
    those of its data, the locally captured events are all in it (the
    interactions as they are, the console and network buffers as a prefix
    of the report's), the recording is over, and a second [stopRecording]
    resolves to [null], sends nothing and changes nothing. *)
Theorem stopRecording_always_reports
    (cdpReply : option Background.StopReply)
    (backendReply : option BackendStopReply)
    (isoMarker : string) (nowMarker : Z) (isoEnd : string) (nowEnd : Z)
    (r : Recorder) (rd : RecordingData) :
  isRecording r = true ->
  recordingData r = Some rd ->
  exists report r' requests,
    stopRecording cdpReply backendReply isoMarker nowMarker isoEnd nowEnd r
      = Some (Some report, r', StopCDPRecording :: requests)
    /\ isRecording r' = false
    /\ recordingData r' = Some (reportData report)
    /\ reportTimeline report = generateTimeline (reportData report)
    /\ reportKeyIssues report = analyzeKeyIssues (reportTimeline report)
    /\ interactions (reportData report) = interactions rd
    /\ console rd `prefix_of` console (reportData report)
    /\ network rd `prefix_of` network (reportData report)
    /\ (forall cdpReply' backendReply' isoMarker' nowMarker' isoEnd' nowEnd',
          stopRecording cdpReply' backendReply' isoMarker' nowMarker'
            isoEnd' nowEnd' r'
          = Some (None, r', [])).
Proof.
  intros Hrec Hrd. unfold stopRecording. rewrite Hrec, Hrd. simpl.
  eexists _, _, _. split; [reflexivity|]. simpl.
  split; [reflexivity|]. split; [reflexivity|]. split; [reflexivity|].
  split; [reflexivity|].
  assert (Hcdp :
    interactions (mergeCDP cdpReply rd) = interactions rd
    /\ console rd `prefix_of` console (mergeCDP cdpReply rd)
    /\ network rd `prefix_of` network (mergeCDP cdpReply rd)).
  { unfold mergeCDP. destruct cdpReply as [[[] [captured|] ?]|]; simpl;
      repeat split; try reflexivity; by apply prefix_app_r. }
  destruct Hcdp as (Hi & Hc & Hn).
  assert (Hbackend : forall rd0,
    interactions (mergeBackend backendReply rd0) = interactions rd0
    /\ console (mergeBackend backendReply rd0) = console rd0
    /\ network (mergeBackend backendReply rd0) = network rd0).
  { intros rd0. unfold mergeBackend.
    destruct backendReply as [[[] [logs|]]|]; simpl; auto. }
  rewrite !addTimelineEvent_end.
  destruct (truthy (includeBackendLogs r)).
  - destruct (Hbackend (mergeCDP cdpReply rd)) as (-> & -> & ->).
    split; [exact Hi|]. split; [exact Hc|]. split; [exact Hn|].
    intros. reflexivity.
  - split; [exact Hi|]. split; [exact Hc|]. split; [exact Hn|].
    intros. reflexivity.
Qed.

(** The sample session up to its stop, then a stop without any answer:
    the report holds the two interactions. *)
Lemma stopRecording_always_reports_witness :
  exists report r' requests,
    stopRecording None None "2024-05-01T10:00:02.000Z" 3000
      "2024-05-01T10:00:02.100Z" 3100 sampleRunning
    = Some (Some report, r', StopCDPRecording :: requests)
    /\ isRecording r' = false
    /\ map subtype (interactions (reportData report))
       = [Some "input"; Some "keypress"].
Proof.
  destruct (stopRecording_always_reports None None
              "2024-05-01T10:00:02.000Z" 3000 "2024-05-01T10:00:02.100Z"
              3100 sampleRunning
              (default freshRecording (recordingData sampleRunning)))
    as (report & r' & requests & Hstop & Hover & _ & _ & _ & Hkept & _).
  - vm_compute. reflexivity.
  - vm_compute. reflexivity.
  - exists report, r', requests. split; [exact Hstop|].
    split; [exact Hover|]. rewrite Hkept. vm_compute. reflexivity.
Defined.

Lemma typedBuffers_fresh : typedBuffers freshRecording.
Proof. repeat split; constructor. Qed.

(** [addTimelineEvent] files every event by its type. *)
Lemma addTimelineEvent_typed (iso : string) (now start : Z)
    (event : TimelineEventInit) (rd : RecordingData) :
  typedBuffers rd -> typedBuffers (addTimelineEvent iso now start event rd).
Proof.
  intros (Hc & Hn & Hi & Hb). unfold addTimelineEvent.
  destruct (JS.startsWith (initType event) "console") eqn:Hconsole.
  { split; [|by repeat split]. simpl. apply Forall_app. split; [done|].
    by repeat constructor. }
  destruct (decide (initType event = "network")) as [Hnetwork|_].
  { split; [done|]. split; [|by split]. simpl. apply Forall_app.
    split; [done|]. by repeat constructor. }
  destruct (JS.startsWith (initType event) "user-interaction") eqn:Huser.
  { split; [done|]. split; [done|]. split; [|done]. simpl.
    apply Forall_app. split; [done|]. by repeat constructor. }
  by repeat split.
Qed.

Lemma filter_keeps (f : Event -> bool) (l : list Event) :
  Forall (fun e => f e = true) (List.filter f l).
Proof.
  induction l as [|x l IH]; simpl; [constructor|].
  destruct (f x) eqn:E; [by constructor | done].
Qed.

(** The two lists [stopCDPRecording] resolves to hold events of their
    kind. *)
Lemma stopCDPRecording_typed (tabId : Z) (st : Background.State)
    (captured : Background.CapturedEvents) (st' : Background.State) :
  Background.stopCDPRecording tabId st = (Background.Ok captured, st') ->
  Forall (fun e => type e = "network") (Background.capturedNetwork captured)
  /\ Forall (fun e => JS.startsWith (type e) "console" = true)
       (Background.capturedConsole captured).
Proof.
  run_promise. destruct (Background.cdpRecordings st !! tabId); simpl.
  - repeat split_call; intros [= <- <-]; simpl;
      (split; [|apply filter_keeps]);
      (eapply Forall_impl; [apply filter_keeps|]);
      simpl; intros e He; by apply bool_decide_eq_true in He.
  - intros [= <- <-]. split; constructor.
Qed.

Lemma mergeCDP_typed (reply : option Background.StopReply)
    (rd : RecordingData) :
  (forall r, reply = Some r ->
     exists tabId st, r = (Background.onStopCDPRecording tabId st).1) ->
  typedBuffers rd -> typedBuffers (mergeCDP reply rd).
Proof.
  intros Hfrom (Hc & Hn & Hi & Hb). unfold mergeCDP.
  destruct reply as [r|]; [|by repeat split].
  destruct (Hfrom r eq_refl) as (tabId & st & ->).
  unfold Background.onStopCDPRecording.
  destruct (Background.stopCDPRecording tabId st) as [[captured|error] st']
    eqn:Hstop; simpl; [|by repeat split].
  destruct (stopCDPRecording_typed _ _ _ _ Hstop) as [Hnet Hcon].
  split; [by apply Forall_app|]. split; [by apply Forall_app|]. by split.
Qed.

Lemma mergeBackend_typed (reply : option BackendStopReply)
    (rd : RecordingData) :
  typedBuffers rd -> typedBuffers (mergeBackend reply rd).
Proof.
  intros (Hc & Hn & Hi & Hb). unfold mergeBackend.
  destruct reply as [[[] [logs|]]|]; simpl; try by repeat split.
  split; [done|]. split; [done|]. split; [done|]. simpl.
  rewrite Forall_map.
  induction logs as [|log logs IH]; [constructor|].
  constructor; [|exact IH].
  unfold JS.startsWith. simpl. by destruct (logLevel log).
Qed.

Lemma record_typed (iso : string) (now : Z) (event : TimelineEventInit)
    (r r' : Recorder) :
  typedRecorder r -> record iso now event r = Some r' -> typedRecorder r'.
Proof.
  intros Htyped. unfold record.
  destruct (recordingData r) as [rd|] eqn:Hrd; [|discriminate].
  intros [= <-] rd' [= <-]. by apply addTimelineEvent_typed, Htyped.
Qed.

Lemma step_typed (r : Recorder) (a : Action) (r' : Recorder)
    (outcome : Outcome) :
  typedRecorder r -> fromBackground a ->
  step r a = Some (r', outcome) ->
  typedRecorder r'
  /\ forall report, resolved outcome = Some report ->
       typedBuffers (reportData report).
Proof.
  intros Htyped Hfrom. destruct a; simpl.
  - intros [= <- <-]. split; [|discriminate].
    unfold setIncludeBackendLogs. by destruct (_ && _).
  - intros [= <- <-]. split; [|discriminate]. exact Htyped.
  - unfold startRecording. destruct (isRecording r); simpl.
    + intros [= <- <-]. split; [|discriminate]. exact Htyped.
    + intros [= <- <-]. split; [|discriminate].
      intros rd [= <-]. apply typedBuffers_fresh.
  - unfold listen.
    destruct (errorHandler iso now event r) as [r1|] eqn:Hhandler;
      intros [= <- <-]; (split; [|discriminate]); [|exact Htyped].
    unfold errorHandler in Hhandler. destruct (isRecording r).
    + by eapply record_typed.
    + by injection Hhandler as <-.
  - unfold listen.
    destruct (rejectionHandler iso now reason r) as [r1|] eqn:Hhandler;
      intros [= <- <-]; (split; [|discriminate]); [|exact Htyped].
    unfold rejectionHandler in Hhandler. destruct (isRecording r).
    + destruct reason; [|discriminate]. by eapply record_typed.
    + by injection Hhandler as <-.
  - unfold listen.
    destruct (inputHandler iso now target r) as [r1|] eqn:Hhandler;
      intros [= <- <-]; (split; [|discriminate]); [|exact Htyped].
    unfold inputHandler in Hhandler. destruct (isRecording r); simpl in *.
    + destruct (targetTagName target); simpl in Hhandler; [|discriminate].
      destruct (recordedValue target); simpl in Hhandler; [|discriminate].
      destruct (targetSelector target); simpl in Hhandler; [|discriminate].
      destruct (targetXpath target); simpl in Hhandler; [|discriminate].
      by eapply record_typed.
    + by injection Hhandler as <-.
  - unfold listen.
    destruct (keypressHandler iso now key r) as [r1|] eqn:Hhandler;
      intros [= <- <-]; (split; [|discriminate]); [|exact Htyped].
    unfold keypressHandler in Hhandler.
    destruct (isRecording r); simpl in *.
    + destruct (_ || _).
      * by eapply record_typed.
      * by injection Hhandler as <-.
    + by injection Hhandler as <-.
  - unfold stopRecording. destruct (isRecording r); simpl.
    + destruct (recordingData r) as [rd|] eqn:Hrd; simpl; [|discriminate].
      rewrite !addTimelineEvent_end.
      assert (Hmerged :
        typedBuffers
          (if truthy (includeBackendLogs r)
           then mergeBackend backendReply (mergeCDP cdpReply rd)
           else mergeCDP cdpReply rd)).
      { assert (Hcdp : typedBuffers (mergeCDP cdpReply rd)).
        { apply mergeCDP_typed; [|by apply Htyped].
          intros reply ->. exact Hfrom. }
        destruct (truthy (includeBackendLogs r)); [|exact Hcdp].
        by apply mergeBackend_typed. }
      intros [= <- <-]. simpl. split.
      * intros rd' [= <-]. exact Hmerged.
      * intros report [= <-]. exact Hmerged.
    + intros [= <- <-]. split; [exact Htyped|discriminate].
Qed.

Lemma run_typed (actions : list Action) (r r' : Recorder)
    (outcomes : list Outcome) :
  typedRecorder r -> Forall fromBackground actions ->
  run r actions = Some (r', outcomes) ->
  Forall (fun o => forall report, resolved o = Some report ->
                     typedBuffers (reportData report)) outcomes.
Proof.
  revert r outcomes.
  induction actions as [|a actions IH]; intros r outcomes Htyped Hfrom; simpl.
  - intros [= <- <-]. constructor.
  - apply Forall_cons in Hfrom as [Ha Hrest].
    destruct (step r a) as [[r1 outcome]|] eqn:Hstep; simpl; [|discriminate].
    destruct (run r1 actions) as [[r2 later]|] eqn:Hrun; simpl;
      [|discriminate].
    intros [= <- <-].
    destruct (step_typed r a r1 outcome Htyped Ha Hstep) as [Htyped1 Hout].
    constructor; [exact Hout|]. by apply (IH r1).
Qed.

(** X14: every report a recorder ever returns keeps its buffers apart.
    From the initial recorder, for every sequence of calls, page events
    and stops whose CDP answer is the one the background script builds
    from [stopCDPRecording], each report has only console events in its
    console buffer, only network events in its network buffer, only user
    interactions in its interaction buffer and only backend events in its
    backend logs. *)
Theorem reports_keep_their_buffers_apart (actions : list Action) :
  Forall fromBackground actions ->
  exists r outcomes,
    run initial actions = Some (r, outcomes)
    /\ Forall (fun o => forall report, resolved o = Some report ->
                          typedBuffers (reportData report)) outcomes.
Proof.
  intros Hfrom.
  destruct (run_ready actions initial) as (r & outcomes & Hrun & _ & _).
  { intros Hrec. discriminate. }
  exists r, outcomes. split; [exact Hrun|].
  apply (run_typed actions initial r outcomes); [|exact Hfrom|exact Hrun].
  intros rd Hrd. discriminate.
Qed.

(** The sample session ends with the events of the sample CDP run. *)
Lemma reports_keep_their_buffers_apart_witness :
  exists r outcomes,
    run initial sampleSession = Some (r, outcomes)
    /\ Forall (fun o => forall report, resolved o = Some report ->
                          typedBuffers (reportData report)) outcomes
    /\ map (fun o => length (sent o)) outcomes = [0; 2; 0; 0; 0; 2]%nat.
Proof.
  destruct (reports_keep_their_buffers_apart sampleSession)
    as (r & outcomes & Hrun & Htyped).
  - unfold sampleSession. do 5 (constructor; [exact I|]).
    constructor; [|constructor].
    by exists 7, (Background.deliverAll recordingTab7 sampleRun).
  - exists r, outcomes. split; [exact Hrun|]. split; [exact Htyped|].
    pose proof Hrun as Hcopy. vm_compute in Hcopy.
    injection Hcopy as _ Houtcomes. rewrite <- Houtcomes. reflexivity.
Defined.

(** What [stopCDPRecording] resolves to for a tab with a recording. *)
Lemma stopCDPRecording_result (tabId : Z) (st : Background.State)
    (recording : Background.Recording) :
  Background.cdpRecordings st !! tabId = Some recording ->
  exists st',
    Background.stopCDPRecording tabId st
    = (Background.Ok
         {| Background.capturedNetwork :=
              List.filter (fun e => bool_decide (type e = "network"))
                (Background.recEvents recording);
            Background.capturedConsole :=
              List.filter (fun e => JS.startsWith (type e) "console")
                (Background.recEvents recording) |},
       st').
Proof.
  intros Hrec. run_promise. rewrite Hrec. simpl.
  repeat split_call; eexists; reflexivity.
Qed.

(** X15: the events the background script recorded reach the report.
    When the CDP answer given to [stopRecording] is the one the background
    script builds from a recording of listener events, the report's
    network buffer is the local one followed by the recorded network
    events and its console buffer the local one followed by the recorded
    console events: every recorded event is in exactly one of them, in
    the order of the recording. *)
Theorem recorded_events_reach_the_report (tabId : Z)
    (st : Background.State) (recording : Background.Recording)
    (backendReply : option BackendStopReply)
    (isoMarker : string) (nowMarker : Z) (isoEnd : string) (nowEnd : Z)
    (r : Recorder) (rd : RecordingData) :
  Background.cdpRecordings st !! tabId = Some recording ->
  Forall fromListener (Background.recEvents recording) ->
  isRecording r = true ->
  recordingData r = Some rd ->
  exists report r' requests,
    stopRecording (Some (Background.onStopCDPRecording tabId st).1)
      backendReply isoMarker nowMarker isoEnd nowEnd r
    = Some (Some report, r', requests)
    /\ network (reportData report)
       = network rd
         ++ List.filter (fun e => bool_decide (type e = "network"))
              (Background.recEvents recording)
    /\ console (reportData report)
       = console rd
         ++ List.filter (fun e => negb (bool_decide (type e = "network")))
              (Background.recEvents recording)
    /\ (length (network (reportData report))
        + length (console (reportData report))
        = length (network rd) + length (console rd)
          + length (Background.recEvents recording))%nat.
Proof.
  intros Hlook Hshape Hrec Hrd.
  destruct (stopCDPRecording_result tabId st recording Hlook) as [st' Hstop].
  assert (Hconsole :
    List.filter (fun e => JS.startsWith (type e) "console")
      (Background.recEvents recording)
    = List.filter (fun e => negb (bool_decide (type e = "network")))
        (Background.recEvents recording)).
  { apply filter_agree. eapply Forall_impl; [exact Hshape|].
    apply fromListener_console_or_network. }
  unfold stopRecording, Background.onStopCDPRecording.
  rewrite Hrec, Hrd, Hstop. simpl. rewrite !addTimelineEvent_end.
  eexists _, _, _. split; [reflexivity|]. simpl.
  assert (Hbackend : forall rd0,
    console (mergeBackend backendReply rd0) = console rd0
    /\ network (mergeBackend backendReply rd0) = network rd0).
  { intros rd0. unfold mergeBackend.
    destruct backendReply as [[[] [logs|]]|]; simpl; auto. }
  pose proof (filter_complement (fun e => bool_decide (type e = "network"))
                (Background.recEvents recording)) as Hperm.
  apply Permutation_length in Hperm. rewrite length_app in Hperm.
  destruct (truthy (includeBackendLogs r)).
  - destruct (Hbackend
                {| console := console rd
                     ++ List.filter
                          (fun e => JS.startsWith (type e) "console")
                          (Background.recEvents recording);
                   network := network rd
                     ++ List.filter
                          (fun e => bool_decide (type e = "network"))
                          (Background.recEvents recording);
                   interactions := interactions rd;
                   backendLogs := backendLogs rd |}) as [-> ->].
    simpl. rewrite Hconsole. split; [reflexivity|]. split; [reflexivity|].
    rewrite !length_app. lia.
  - simpl. rewrite Hconsole. split; [reflexivity|]. split; [reflexivity|].
    rewrite !length_app. lia.
Qed.

(** The sample CDP run handed to the sample recorder: one network event
    and one console event join the error the window handler captured. *)
Lemma recorded_events_reach_the_report_witness :
  exists report r' requests,
    stopRecording
      (Some (Background.onStopCDPRecording 7
               (Background.deliverAll recordingTab7 sampleRun)).1)
      None "2024-05-01T10:00:02.000Z" 3000 "2024-05-01T10:00:02.100Z" 3100
      sampleRunning
    = Some (Some report, r', requests)
    /\ map relativeTime (network (reportData report)) = [250]
    /\ map relativeTime (console (reportData report)) = [420; 400].
Proof.
  destruct (deliverAll_appends sampleRun recordingTab7 7
              ListenerSamples.started)
    as (recording & added & Hlook & _ & Hevents & _ & _ & Hshape);
    [vm_compute; reflexivity|].
  simpl in Hevents. rewrite <- Hevents in Hshape.
  destruct (recorded_events_reach_the_report 7
              (Background.deliverAll recordingTab7 sampleRun) recording None
              "2024-05-01T10:00:02.000Z" 3000 "2024-05-01T10:00:02.100Z"
              3100 sampleRunning
              (default freshRecording (recordingData sampleRunning))
              Hlook Hshape)
    as (report & r' & requests & Hstop & Hnet & Hcon & _).
  - vm_compute. reflexivity.
  - vm_compute. reflexivity.
  - exists report, r', requests. split; [exact Hstop|].
    rewrite Hnet, Hcon. vm_compute in Hlook. injection Hlook as <-.
    split; vm_compute; reflexivity.
Defined.

(** X16: the backend is never asked for a console-only capture.  Every
    [startBackendLogRecording] message that [startRecording] sends carries
    the [captureStdout] the recorder ends with, which is never [false]:
    when the setting is a boolean the message carries [true], also after
    [setCaptureStdout(false)]. *)
Theorem backend_request_always_asks_for_stdout (include : JsAtom)
    (href : string) (now : Z) (isoMarker : string) (nowMarker : Z)
    (r r' : Recorder) (requests : list Request) (capture : JsAtom) :
  startRecording include href now isoMarker nowMarker r
    = Some (r', requests) ->
  (StartBackendLogRecording capture ∈ requests) ->
  capture <> JBool false
  /\ capture = captureStdout r'
  /\ truthy (includeBackendLogs r') = true
  /\ ((exists b, captureStdout r = JBool b) -> capture = JBool true).
Proof.
  unfold startRecording. destruct (isRecording r).
  { intros [= <- <-] Hin. by apply elem_of_nil in Hin. }
  simpl.
  set (chosen := if decide (include = JUndefined)
                 then includeBackendLogs r else include).
  intros [= <- <-] Hin. simpl.
  apply elem_of_cons in Hin as [Hin|Hin]; [discriminate|].
  destruct (truthy chosen) eqn:Hchosen; [|by apply elem_of_nil in Hin].
  apply list_elem_of_singleton in Hin. injection Hin as ->. simpl.
  destruct (bool_decide (captureStdout r = JBool false)) eqn:Hfalse.
  - repeat split; try done.
  - apply bool_decide_eq_false in Hfalse.
    repeat split; try done.
    intros [[] Hb]; [exact Hb|contradiction].
Qed.

(** The user asked for backend logs, then switched the terminal output
    off: the message still asks for it. *)
Lemma backend_request_always_asks_for_stdout_witness :
  captureStdout consoleOnlyAsked = JBool false
  /\ exists r',
       startRecording JUndefined "http://localhost:3000/" 1000
         "2024-05-01T10:00:00.000Z" 1000 consoleOnlyAsked
       = Some (r', [StartCDPRecording;
                    StartBackendLogRecording (JBool true)])
       /\ captureStdout r' = JBool true.
Proof.
  split; [reflexivity|]. eexists. split; [reflexivity|].
  destruct (backend_request_always_asks_for_stdout JUndefined
              "http://localhost:3000/" 1000 "2024-05-01T10:00:00.000Z" 1000
              consoleOnlyAsked _ _ (JBool true) eq_refl)
    as (_ & Hcapture & _).
  - apply list_elem_of_further, list_elem_of_here.
  - by rewrite <- Hcapture.
Defined.

Lemma length_substring_le (n : nat) (s : string) :
  (String.length (String.substring 0 n s) <= n)%nat.
Proof.
  revert s. induction n as [|n IH]; intros [|c s]; simpl; try lia.
  specialize (IH s). lia.
Qed.

(** X17: what the input handler keeps of a field.  Whenever it records a
    value, it never records more than 20 characters of it, and for a
    password or an email field it reads and records nothing of the value:
    the handler ends in the same way, and the recorder in the same state,
    whatever the field holds. *)
Theorem input_values_are_redacted (iso : string) (now : Z)
    (target : InputTarget) (r : Recorder) :
  (forall value,
     recordedValue target = Some value ->
     (String.length value <= 20)%nat)
  /\ (targetType target = Some "password"
      \/ targetType target = Some "email" ->
      forall typed typed',
        inputHandler iso now (withValue target typed) r
        = inputHandler iso now (withValue target typed') r).
Proof.
  split.
  - intros value. unfold recordedValue, cutValue.
    destruct (_ && _); [|intros [= <-]; simpl; lia].
    destruct (targetValue target) as [| |b|z|v]; try discriminate;
      try (intros [= <-]; simpl; lia).
    intros [= <-].
    destruct (decide (String.substring 0 20 v = "")); [simpl; lia|].
    apply length_substring_le.
  - intros Htype typed typed'. unfold inputHandler, recordedValue, withValue.
    simpl. by destruct Htype as [-> | ->].
Qed.

End RecorderSessionFacts.

(** ** More on the correlator *)

Section CorrelatorFacts.
Import BugRecorder Samples.

Lemma startsWith_other_letter (t p q : string) (a b : ascii) :
  a <> b ->
  JS.startsWith t (String a p) = true ->
  JS.startsWith t (String b q) = false.
Proof.
  intros Hab. unfold JS.startsWith. destruct t as [|c t]; simpl; [done|].
  destruct (ascii_dec a c) as [<-|_]; [|discriminate]. intros _.
  by destruct (ascii_dec b a) as [->|_].
Qed.

(** X18: no console event of the timeline has a [data.source] in an
    extension.  When the buffers hold events of their kind, no console
    event of the timeline that [generateTimeline] builds has a
    [data.source] starting with [chrome-extension://]: the filter drops
    the console events that carry such a source, and neither the
    optimisation, the sort nor the deduplication gives one to an event.
    Only [data.source] is looked at: a console event of an extension that
    carries no such source is not concerned. *)
Theorem timeline_console_has_no_extension_source (rd : RecordingData) :
  typedBuffers rd ->
  Forall (fun e =>
            JS.startsWith (type e) "console" = true ->
            JS.startsWith (JS.orElse (dataSource (data e)) "")
              "chrome-extension://" = false)
    (events (generateTimeline rd)).
Proof.
  intros (Hc & Hn & Hi & Hb). unfold generateTimeline. simpl.
  apply dedupeEvents_preserves.
  { intros e n He. unfold closeRun. by destruct (0 <? n)%nat. }
  apply sortByKey_Forall. rewrite !Forall_app. repeat split.
  - unfold filteredConsole. rewrite Forall_map.
    eapply Forall_impl; [apply filter_keeps|]. simpl.
    intros e Hkept _. unfold shouldFilterConsoleEvent in Hkept.
    destruct (JS.startsWith (JS.orElse (dataSource (data e)) "")
                "chrome-extension://"); [discriminate|done].
  - unfold filteredNetwork. apply Forall_List_filter.
    eapply Forall_impl; [exact Hn|]. simpl. intros e -> Hconsole.
    discriminate.
  - eapply Forall_impl; [exact Hi|]. simpl. intros e Huser Hconsole.
    by rewrite (startsWith_other_letter (type e) "ser-interaction"
                  "onsole" "u" "c") in Hconsole.
  - unfold truncatedBackendLogs. rewrite Forall_map.
    eapply Forall_impl; [exact Hb|]. simpl. intros e Hbackend Hconsole.
    by rewrite (startsWith_other_letter (type e) "ackend-"
                  "onsole" "b" "c") in Hconsole.
Qed.

(** The scenario with an error whose [data.source] is a script of an
    extension: the event is not in the timeline. *)
Lemma timeline_console_has_no_extension_source_witness :
  Forall (fun e =>
            JS.startsWith (type e) "console" = true ->
            JS.startsWith (JS.orElse (dataSource (data e)) "")
              "chrome-extension://" = false)
    (events (generateTimeline scenarioRecording))
  /\ map (fun e => (relativeTime e, type e))
       (events (generateTimeline scenarioRecording))
     = [(800, "network"); (820, "console-error")].
Proof.
  split; [|vm_compute; reflexivity].
  apply (timeline_console_has_no_extension_source scenarioRecording).
  unfold typedBuffers, scenarioRecording. simpl.
  repeat split; repeat constructor.
Defined.

(** X19: a failure that follows another request by less than 100 ms is
    lost.  Network events carry no message, so the deduplication takes
    two of them less than 100 ms apart for repeats whatever their urls and
    outcomes: the timeline keeps the first, renamed [undefined (×2)], the
    summary still counts the failure and the key issues do not have it. *)
Theorem failure_close_to_a_request_is_lost (a b : Event) :
  type a = "network" -> type b = "network" ->
  message (data a) = None -> message (data b) = None ->
  shouldFilterNetworkEvent a = false ->
  shouldFilterNetworkEvent b = false ->
  relativeTime a <= relativeTime b < relativeTime a + 100 ->
  subtype a = Some "success" -> subtype b = Some "failed" ->
  events (generateTimeline (twoRequests a b))
  = [withData a (withMessage (data a) (Some "undefined (×2)"))]
  /\ networkFailures (summary (generateTimeline (twoRequests a b))) = 1%nat
  /\ analyzeKeyIssues (generateTimeline (twoRequests a b)) = [].
Proof.
  intros Hta Htb Hma Hmb Hfa Hfb Htime Hsa Hsb.
  assert (Hevents :
    events (generateTimeline (twoRequests a b))
    = [withData a (withMessage (data a) (Some "undefined (×2)"))]).
  { unfold generateTimeline. cbn [events].
    assert (Hall :
      filteredConsole (twoRequests a b) ++ filteredNetwork (twoRequests a b)
      ++ interactions (twoRequests a b)
      ++ truncatedBackendLogs (twoRequests a b) = [a; b]).
    { unfold filteredConsole, filteredNetwork, truncatedBackendLogs,
        twoRequests. simpl. by rewrite Hfa, Hfb. }
    rewrite Hall.
    assert (Hsort : sortByKey relativeTime [a; b] = [a; b]).
    { simpl. by destruct (Z.leb_spec (relativeTime a) (relativeTime b));
        [|lia]. }
    rewrite Hsort. change [a; b] with (a :: [b] ++ []).
    rewrite dedupeEvents_head_run.
    - unfold collapsed. simpl. by rewrite Hma.
    - repeat constructor; simpl; [congruence|congruence|lia].
    - exact I. }
  split; [exact Hevents|]. split.
  - unfold generateTimeline, twoRequests, filteredNetwork, countIf. simpl.
    rewrite Hfa, Hfb. simpl. rewrite Hsa, Hsb. reflexivity.
  - unfold analyzeKeyIssues. rewrite Hevents. simpl.
    unfold isConsoleError, isNetworkFailure, isBackendError. simpl.
    rewrite Hta, Hsa. reflexivity.
Qed.

(** A page load at 100 ms and a failing POST 50 ms later. *)
Lemma failure_close_to_a_request_is_lost_witness :
  map (fun e => (method (data e), url (data e), subtype e))
    (events
       (generateTimeline
          (twoRequests
             (request 100 "success" "GET" "http://localhost:3000/" (Some 200))
             (request 150 "failed" "POST" "http://localhost:3000/api/pay"
                (Some 500)))))
  = [(Some "GET", Some "http://localhost:3000/", Some "success")]
  /\ analyzeKeyIssues
       (generateTimeline
          (twoRequests
             (request 100 "success" "GET" "http://localhost:3000/" (Some 200))
             (request 150 "failed" "POST" "http://localhost:3000/api/pay"
                (Some 500))))
     = [].
Proof.
  destruct (failure_close_to_a_request_is_lost
              (request 100 "success" "GET" "http://localhost:3000/" (Some 200))
              (request 150 "failed" "POST" "http://localhost:3000/api/pay"
                 (Some 500)))
    as (Hevents & _ & Hissues); try reflexivity.
  - simpl. lia.
  - split; [|exact Hissues]. rewrite Hevents. reflexivity.
Defined.

Lemma sameButMessage_refl (e : Event) : sameButMessage e e.
Proof. unfold sameButMessage. repeat split. Qed.

Lemma sameButMessage_closeRun (e e0 : Event) (n : nat) :
  sameButMessage e e0 -> sameButMessage (closeRun e n) e0.
Proof. unfold closeRun. by destruct (0 <? n)%nat. Qed.

Lemma stemsFrom_app_l (l l' : list Event) (e : Event) :
  stemsFrom l e -> stemsFrom (l ++ l') e.
Proof.
  intros (e0 & Hin & Hsame). exists e0. split; [|exact Hsame].
  apply elem_of_app. by left.
Qed.

Lemma stemsFrom_app_r (l l' : list Event) (e : Event) :
  stemsFrom l' e -> stemsFrom (l ++ l') e.
Proof.
  intros (e0 & Hin & Hsame). exists e0. split; [|exact Hsame].
  apply elem_of_app. by right.
Qed.

Lemma stemsFrom_filter_map (f : Event -> bool) (g : Event -> Event)
    (l : list Event) :
  (forall e, sameButMessage (g e) e) ->
  Forall (stemsFrom l) (map g (List.filter f l)).
Proof.
  intros Hg. rewrite Forall_map. apply Forall_forall. intros e Hin.
  exists e. split; [|apply Hg].
  apply list_elem_of_In in Hin. apply filter_In in Hin as [Hin _].
  by apply list_elem_of_In.
Qed.

(** X20: the timeline invents nothing.  Every event of the timeline that
    [generateTimeline] builds is an event of one of the four buffers in
    which only the message and the stack trace may differ: time, type,
    subtype, severity, url, method, status and the rest are those of the
    buffered event. *)
Theorem timeline_events_stem_from_the_buffers (rd : RecordingData) :
  Forall
    (stemsFrom (console rd ++ network rd ++ interactions rd
                ++ default [] (backendLogs rd)))
    (events (generateTimeline rd)).
Proof.
  unfold generateTimeline. cbn [events].
  apply dedupeEvents_preserves.
  { intros e n (e0 & Hin & Hsame). exists e0. split; [exact Hin|].
    by apply sameButMessage_closeRun. }
  apply sortByKey_Forall. rewrite !Forall_app. repeat split.
  - eapply Forall_impl;
      [apply (stemsFrom_filter_map
                (fun e => negb (shouldFilterConsoleEvent e))
                optimizeConsoleEvent (console rd))|].
    + intros e. unfold sameButMessage. by repeat split.
    + intros e. apply stemsFrom_app_l.
  - eapply Forall_impl.
    + pose proof (stemsFrom_filter_map
                    (fun e => negb (shouldFilterNetworkEvent e))
                    (fun e => e) (network rd) sameButMessage_refl) as H.
      rewrite map_id in H. exact H.
    + intros e He. by apply stemsFrom_app_r, stemsFrom_app_l.
  - apply Forall_forall. intros e Hin.
    apply stemsFrom_app_r, stemsFrom_app_r, stemsFrom_app_l.
    exists e. split; [exact Hin | apply sameButMessage_refl].
  - unfold truncatedBackendLogs. rewrite Forall_map. apply Forall_forall.
    intros e Hin.
    apply stemsFrom_app_r, stemsFrom_app_r, stemsFrom_app_r.
    exists e. split; [exact Hin|]. unfold sameButMessage. by repeat split.
Qed.

Lemma length_append (a b : string) :
  String.length (a +:+ b) = (String.length a + String.length b)%nat.
Proof. induction a as [|c a IH]; simpl; [done|]. by rewrite IH. Qed.

Lemma truncateMessage_length (m : option string) (n : nat) (t : string) :
  truncateMessage m n = Some t -> (String.length t <= n + 3)%nat.
Proof.
  destruct m as [m|]; simpl; [|discriminate].
  destruct (decide (m = "")) as [->|_]; [intros [= <-]; simpl; lia|].
  destruct (Nat.leb_spec (String.length m) n) as [Hle|Hgt].
  - intros [= <-]. lia.
  - intros [= <-]. rewrite length_append. simpl.
    pose proof (length_substring_le n m). lia.
Qed.

Lemma truncateMessage_nonempty (m : string) (n : nat) :
  m <> "" ->
  exists t, truncateMessage (Some m) n = Some t /\ t <> "".
Proof.
  intros Hm. simpl. destruct (decide (m = "")); [contradiction|].
  destruct (String.length m <=? n)%nat; eexists; (split; [reflexivity|]);
    [exact Hm|].
  intros Hempty. apply (f_equal String.length) in Hempty.
  rewrite length_append in Hempty. simpl in Hempty. lia.
Qed.

(** X21: what [optimizeConsoleEvent] does to a console event.  The
    message it leaves has 303 characters at most (300 and the ellipsis), a
    message that was not empty is still there and not empty, a
    [console-log] loses its stack trace and no other event does, and
    nothing else changes. *)
Theorem optimizeConsoleEvent_contract (event : Event) :
  sameButMessage (optimizeConsoleEvent event) event
  /\ (forall m, message (data (optimizeConsoleEvent event)) = Some m ->
                (String.length m <= 303)%nat)
  /\ (forall m, message (data event) = Some m -> m <> "" ->
        exists m', message (data (optimizeConsoleEvent event)) = Some m'
                   /\ m' <> "")
  /\ (stackTrace (data (optimizeConsoleEvent event))
      = if decide (type event = "console-log") then None
        else stackTrace (data event)).
Proof.
  split; [unfold sameButMessage; by repeat split|].
  split; [|split; [|reflexivity]].
  - intros m Hm. simpl in Hm.
    apply (truncateMessage_length _ 300 m Hm).
  - intros m Hm Hne. cbn [optimizeConsoleEvent withData data
                          withMessageAndTrace message].
    rewrite Hm. unfold stripConsoleStyling.
    destruct (decide (m = "")); [contradiction|].
    match goal with
    | |- context [decide (?cleaned = "")] =>
        destruct (decide (cleaned = "")) as [_|Hcleaned]
    end; by apply truncateMessage_nonempty.
Qed.

Lemma detectRootCause_perm (l : list KeyIssue) :
  map issueRelativeTime (detectRootCause l) ≡ₚ map issueRelativeTime l.
Proof.
  destruct l as [|k l]; [done|]. unfold detectRootCause.
  pose proof (sortByKey_perm issueRelativeTime (k :: l)) as Hperm.
  destruct (sortByKey issueRelativeTime (k :: l)) as [|root rest].
  - apply Permutation_nil in Hperm. discriminate.
  - rewrite <- Hperm. reflexivity.
Qed.

Lemma detectRootCause_sorted (l : list KeyIssue) :
  StronglySorted (fun a b => issueRelativeTime a <= issueRelativeTime b)
    (detectRootCause l).
Proof.
  destruct l as [|k l]; [constructor|]. unfold detectRootCause.
  pose proof (sortByKey_sorted issueRelativeTime (k :: l)) as Hsorted.
  destruct (sortByKey issueRelativeTime (k :: l)) as [|root rest];
    [constructor|].
  apply StronglySorted_inv in Hsorted as [Hrest Hroot].
  constructor; [exact Hrest | exact Hroot].
Qed.

Lemma detectRootCause_severity (l : list KeyIssue) :
  Forall (fun k => issueSeverity k = "error") l ->
  Forall (fun k => issueSeverity k = "error") (detectRootCause l).
Proof.
  intros Hl. destruct l as [|k l]; [constructor|]. unfold detectRootCause.
  pose proof (sortByKey_Forall issueRelativeTime _ _ Hl) as Hsorted.
  destruct (sortByKey issueRelativeTime (k :: l)) as [|root rest];
    [constructor|].
  apply Forall_cons in Hsorted as [Hroot Hrest]. by constructor.
Qed.

(** X22: the key issues are the errors of the timeline, one each, in the
    order of time.  [analyzeKeyIssues] returns one issue for every console
    error that does not come from an extension, every failed request and
    every backend error of the timeline, at the time of its event; the
    issues are in non-decreasing time order and all have severity
    [error]. *)
Theorem keyIssues_are_the_errors_in_order (timeline : Timeline) :
  map issueRelativeTime (analyzeKeyIssues timeline)
  ≡ₚ map relativeTime
       (List.filter isConsoleError (events timeline)
        ++ List.filter isNetworkFailure (events timeline)
        ++ List.filter isBackendError (events timeline))
  /\ StronglySorted
       (fun a b => issueRelativeTime a <= issueRelativeTime b)
       (analyzeKeyIssues timeline)
  /\ Forall (fun k => issueSeverity k = "error")
       (analyzeKeyIssues timeline).
Proof.
  unfold analyzeKeyIssues. split; [|split].
  - rewrite detectRootCause_perm. rewrite !map_app, !map_map. reflexivity.
  - apply detectRootCause_sorted.
  - apply detectRootCause_severity. rewrite !Forall_app.
    repeat split; rewrite Forall_map; by apply Forall_true.
Qed.

(** X23: the earlier recorder loses nothing.  Its timeline is the three
    buffers merged: the same events, each as often as buffered, in
    non-decreasing time order, events of the same time in the order
    console, network, interactions; and [totalEvents] is their number. *)
Theorem timeline_v1_keeps_every_event (rd : RecordingData) :
  events (BugRecorderV1.generateTimeline rd)
  ≡ₚ console rd ++ network rd ++ interactions rd
  /\ (forall t,
        List.filter (fun e => relativeTime e =? t)
          (events (BugRecorderV1.generateTimeline rd))
        = List.filter (fun e => relativeTime e =? t)
            (console rd ++ network rd ++ interactions rd))
  /\ totalEvents (summary (BugRecorderV1.generateTimeline rd))
     = (length (console rd) + length (network rd)
        + length (interactions rd))%nat.
Proof.
  unfold BugRecorderV1.generateTimeline. simpl. split; [|split].
  - apply sortByKey_perm.
  - intros t. apply sortByKey_stable.
  - rewrite (Permutation_length (sortByKey_perm relativeTime _)).
    rewrite !length_app. lia.
Qed.

Lemma formatRelativeTime_seconds (ms : Z) :
  formatRelativeTime ms
  = padStart2 (JS.numToString (ms / 1000 / 60)) +:+ ":"
    +:+ padStart2 (JS.numToString (Z.rem (ms / 1000) 60)).
Proof. reflexivity. Qed.

Lemma clockTextsAgree_6000 : clockTextsAgree (Z.to_nat 6000) = true.
Proof. vm_compute. reflexivity. Qed.

Lemma clockTextsAgree_at (upTo : nat) (s : Z) :
  clockTextsAgree upTo = true ->
  0 <= s < Z.of_nat upTo ->
  padStart2 (JS.numToString (s / 60)) +:+ ":"
  +:+ padStart2 (JS.numToString (Z.rem s 60))
  = clockText (s / 60) (s mod 60).
Proof.
  unfold clockTextsAgree. intros Hall Hs.
  rewrite forallb_forall in Hall.
  specialize (Hall (Z.to_nat s)). cbv zeta in Hall.
  rewrite Z2Nat.id in Hall by lia.
  apply String.eqb_eq, Hall, in_seq. lia.
Qed.

(** X24: [formatRelativeTime] writes a time below 100 minutes as [MM:SS].
    For 0 <= ms < 6 000 000 the text has the two digits of the whole
    minutes, a colon and the two digits of the remaining seconds (0 to
    59), so that it reads back as the whole seconds of [ms]. *)
Theorem formatRelativeTime_is_MM_SS (ms : Z) :
  0 <= ms < 6000000 ->
  let seconds := ms / 1000 in
  formatRelativeTime ms = clockText (seconds / 60) (seconds mod 60)
  /\ 0 <= seconds / 60 < 100
  /\ 0 <= seconds mod 60 < 60
  /\ (seconds / 60) * 60 + seconds mod 60 = seconds.
Proof.
  intros Hms. cbv zeta.
  assert (Hs : 0 <= ms / 1000 < 6000).
  { split; [apply Z.div_pos; lia | apply Z.div_lt_upper_bound; lia]. }
  split; [|split; [|split]].
  - rewrite formatRelativeTime_seconds.
    apply (clockTextsAgree_at (Z.to_nat 6000)); [|lia].
    apply clockTextsAgree_6000.
  - split; [apply Z.div_pos; lia | apply Z.div_lt_upper_bound; lia].
  - apply Z.mod_pos_bound. lia.
  - pose proof (Z.div_mod (ms / 1000) 60). lia.
Qed.

(** 83.5 seconds read [01:23]. *)
Lemma formatRelativeTime_is_MM_SS_witness :
  formatRelativeTime 83500 = "01:23".
Proof.
  destruct (formatRelativeTime_is_MM_SS 83500) as [Htext _]; [lia|].
  rewrite Htext. reflexivity.
Defined.

End CorrelatorFacts.

(** ** The backend log clients over whole runs *)

Section LogClientRuns.
Import LogClientSamples.

Lemma filter_all {A} (f : A -> bool) (l : list A) :
  Forall (fun x => f x = true) l -> List.filter f l = l.
Proof. induction 1 as [|x l Hx _ IH]; simpl; [done|]. by rewrite Hx, IH. Qed.













(** X26: a refused connection uses up two attempts.  The socket of a
    refused connection emits an error with code ECONNREFUSED and then
    closes; both handlers call [scheduleReconnect], so the attempt counter
    goes up by two, two delays are computed and the timer of the first is
    cleared by the second. *)
Theorem refused_connection_counts_twice (st : ServerLogger.State) :
  ServerLogger.ws st = Some CONNECTING ->
  (ServerLogger.reconnectAttempts st + 2
   <= ServerLogger.maxReconnectAttempts st)%nat ->
  exists st',
    ServerLogger.run st [ServerLogger.SocketError true;
                         ServerLogger.SocketClose] = Some st'
    /\ ServerLogger.reconnectAttempts st'
       = (ServerLogger.reconnectAttempts st + 2)%nat
    /\ ServerLogger.timeouts st'
       = ServerLogger.timeouts st
         ++ [ServerLogger.backoffDelay (ServerLogger.reconnectDelay st)
               (ServerLogger.reconnectAttempts st + 1);
             ServerLogger.backoffDelay (ServerLogger.reconnectDelay st)
               (ServerLogger.reconnectAttempts st + 2)]
    /\ ServerLogger.reconnectTimer st'
       = Some (ServerLogger.backoffDelay (ServerLogger.reconnectDelay st)
                 (ServerLogger.reconnectAttempts st + 2)).
Proof.
  intros Hws Hroom. simpl. rewrite Hws. simpl.
  unfold ServerLogger.onError, ServerLogger.scheduleReconnect. simpl.
  destruct (Nat.leb_spec (ServerLogger.maxReconnectAttempts st)
              (ServerLogger.reconnectAttempts st)) as [Hfull|_]; [lia|].
  simpl. rewrite Hws. simpl.
  unfold ServerLogger.onClose, ServerLogger.scheduleReconnect. simpl.
  destruct (Nat.leb_spec (ServerLogger.maxReconnectAttempts st)
              (S (ServerLogger.reconnectAttempts st))) as [Hfull|_]; [lia|].
  simpl. eexists. split; [reflexivity|]. simpl.
  replace (ServerLogger.reconnectAttempts st + 1)%nat
    with (S (ServerLogger.reconnectAttempts st)) by lia.
  replace (ServerLogger.reconnectAttempts st + 2)%nat
    with (S (S (ServerLogger.reconnectAttempts st))) by lia.
  split; [reflexivity|]. split; [|reflexivity].
  by rewrite <- app_assoc.
Qed.

(** The first connection of a new logger is refused; and with the server
    down the logger gives up after three connections, not five. *)
Lemma refused_connection_counts_twice_witness :
  (exists st',
     ServerLogger.run (ServerLogger.connect ServerLogger.initial)
       [ServerLogger.SocketError true; ServerLogger.SocketClose] = Some st'
     /\ ServerLogger.reconnectAttempts st' = 2%nat)
  /\ ServerLogger.reconnectAttempts (after ServerLogger.initial serverDown)
     = 5%nat
  /\ ServerLogger.reconnectTimer (after ServerLogger.initial serverDown)
     = None.
Proof.
  split; [|split; vm_compute; reflexivity].
  destruct (refused_connection_counts_twice
              (ServerLogger.connect ServerLogger.initial))
    as (st' & Hrun & Hattempts & _).
  - reflexivity.
  - simpl. lia.
  - exists st'. split; [exact Hrun | exact Hattempts].
Defined.

(** X27: [disconnect()] does not keep the logger disconnected.  It clears
    the timer and forgets the socket, but the socket it closed still emits
    its close event, whose handler calls [scheduleReconnect]: while
    attempts are left a new timer is armed, and when it fires [connect]
    opens a new socket. *)
Theorem disconnect_does_not_stop_reconnection (st : ServerLogger.State) :
  (ServerLogger.reconnectAttempts st
   < ServerLogger.maxReconnectAttempts st)%nat ->
  let disconnected := ServerLogger.disconnect st in
  let closed := ServerLogger.onClose disconnected in
  (ServerLogger.ws disconnected = None
   /\ ServerLogger.reconnectTimer disconnected = None
   /\ ServerLogger.isRecording disconnected = false)
  /\ is_Some (ServerLogger.reconnectTimer closed)
  /\ exists st',
       ServerLogger.step closed ServerLogger.TimerFires = Some st'
       /\ ServerLogger.ws st' = Some CONNECTING.
Proof.
  intros Hleft. simpl. split; [by repeat split|].
  unfold ServerLogger.onClose, ServerLogger.scheduleReconnect,
    ServerLogger.disconnect. simpl.
  destruct (Nat.leb_spec (ServerLogger.maxReconnectAttempts st)
              (ServerLogger.reconnectAttempts st)) as [Hfull|_]; [lia|].
  simpl. split; [by eexists|]. eexists. split; reflexivity.
Qed.

(** The logger that was recording, disconnected by the program. *)
Lemma disconnect_does_not_stop_reconnection_witness :
  ServerLogger.ws loggerRecording = Some OPEN
  /\ ServerLogger.reconnectTimer
       (ServerLogger.onClose (ServerLogger.disconnect loggerRecording))
     = Some 2000%Q.
Proof.
  split; [reflexivity|].
  destruct (disconnect_does_not_stop_reconnection loggerRecording)
    as (_ & [delay Hdelay] & _).
  - vm_compute. lia.
  - rewrite Hdelay. f_equal. vm_compute in Hdelay. by injection Hdelay as <-.
Defined.

Lemma logger_flushLoop_isRecording (pending : list Message) :
  forall st,
    ServerLogger.isRecording (ServerLogger.flushLoop pending st)
    = ServerLogger.isRecording st.
Proof.
  induction pending as [|data rest IH]; intros st; simpl; [done|].
  destruct (ServerLogger.isOpen st) eqn:Hopen; [|done].
  rewrite IH. unfold ServerLogger.send, ServerLogger.isOpen in *. simpl.
  by rewrite Hopen.
Qed.

Lemma logger_send_logs (data : Message) (st : ServerLogger.State) :
  isLog data = false ->
  loggerLogs (ServerLogger.send data st) = loggerLogs st
  /\ ServerLogger.isRecording (ServerLogger.send data st)
     = ServerLogger.isRecording st.
Proof.
  intros Hdata. unfold ServerLogger.send, loggerLogs.
  destruct (ServerLogger.isOpen st); simpl.
  - split; [|reflexivity]. rewrite !List.filter_app. simpl.
    by rewrite Hdata, app_nil_r.
  - destruct (_ <? _)%nat; simpl; [|done]. split; [|reflexivity].
    rewrite !List.filter_app. simpl. by rewrite Hdata, app_nil_r.
Qed.

Lemma logger_scheduleReconnect_logs (st : ServerLogger.State) :
  loggerLogs (ServerLogger.scheduleReconnect st) = loggerLogs st
  /\ ServerLogger.isRecording (ServerLogger.scheduleReconnect st)
     = ServerLogger.isRecording st.
Proof.
  unfold ServerLogger.scheduleReconnect, loggerLogs. simpl.
  by destruct (_ <=? _)%nat.
Qed.

Lemma logger_connect_logs (st : ServerLogger.State) :
  loggerLogs (ServerLogger.connect st) = loggerLogs st
  /\ ServerLogger.isRecording (ServerLogger.connect st)
     = ServerLogger.isRecording st.
Proof. unfold ServerLogger.connect. by destruct (_ || _). Qed.

Lemma logger_step_idle (st st' : ServerLogger.State)
    (i : ServerLogger.Input) :
  ServerLogger.isRecording st = false ->
  notStart i ->
  ServerLogger.step st i = Some st' ->
  ServerLogger.isRecording st' = false /\ loggerLogs st' = loggerLogs st.
Proof.
  intros Hidle Hi. destruct i as [|msg|refused| | | |level message iso|];
    simpl.
  - destruct (decide (ServerLogger.ws st = Some CONNECTING)); [|discriminate].
    intros [= <-].
    destruct (logger_onOpen_flushes st) as (Hb & Hw & _).
    split.
    + unfold ServerLogger.onOpen, ServerLogger.flushBuffer. simpl.
      by rewrite logger_flushLoop_isRecording.
    + unfold loggerLogs. by rewrite Hb, Hw, app_nil_r.
  - destruct (decide (ServerLogger.ws st = Some OPEN)); [|discriminate].
    intros [= <-]. destruct msg; simpl; try done.
    destruct (logger_send_logs Pong st eq_refl) as [-> ->]. by split.
  - destruct (ServerLogger.ws st) as [[]|]; try discriminate;
      intros [= <-]; unfold ServerLogger.onError; destruct refused;
      try done;
      destruct (logger_scheduleReconnect_logs st) as [-> ->]; by split.
  - destruct (ServerLogger.ws st) as [[]|]; try discriminate;
      by intros [= <-].
  - destruct (ServerLogger.ws st) as [[]|]; try discriminate;
      intros [= <-]; unfold ServerLogger.onClose;
      match goal with
      | |- context [ServerLogger.scheduleReconnect ?s] =>
          destruct (logger_scheduleReconnect_logs s) as [-> ->]
      end; by split.
  - destruct (ServerLogger.reconnectTimer st); [|discriminate].
    intros [= <-].
    match goal with
    | |- context [ServerLogger.connect ?s] =>
        destruct (logger_connect_logs s) as [-> ->]
    end. by split.
  - destruct (ServerLogger.consoleIntercepted st); [|discriminate].
    intros [= <-]. unfold ServerLogger.consoleCall. by rewrite Hidle.
  - intros [= <-]. destruct (logger_connect_logs st) as [-> ->]. by split.
Qed.

(** X28: the SDK logger forwards nothing the server did not ask for.
    From a state in which it is not recording (the initial one, or the one
    every close leaves), whatever happens short of a [start_recording]
    message leaves it so, and no log frame is added to the socket or to
    the buffer: the console calls, also those made after a reconnection,
    are dropped. *)
Theorem logger_forwards_only_while_recording
    (inputs : list ServerLogger.Input) (st st' : ServerLogger.State) :
  ServerLogger.isRecording st = false ->
  Forall notStart inputs ->
  ServerLogger.run st inputs = Some st' ->
  ServerLogger.isRecording st' = false /\ loggerLogs st' = loggerLogs st.
Proof.
  revert st. induction inputs as [|i inputs IH]; intros st Hidle Hinputs;
    simpl.
  - by intros [= <-].
  - apply Forall_cons in Hinputs as [Hi Hrest].
    destruct (ServerLogger.step st i) as [st1|] eqn:Hstep; [|discriminate].
    intros Hrun.
    destruct (logger_step_idle st st1 i Hidle Hi Hstep) as [Hidle1 Hlogs1].
    destruct (IH st1 Hidle1 Hrest Hrun) as [Hidle' Hlogs'].
    split; [exact Hidle'|]. by rewrite Hlogs', Hlogs1.
Qed.

(** The logger that was recording loses its connection and gets it back:
    the log made afterwards is not forwarded. *)
Lemma logger_forwards_only_while_recording_witness :
  exists closed st',
    ServerLogger.step loggerRecording ServerLogger.SocketClose = Some closed
    /\ ServerLogger.run closed
         [ServerLogger.TimerFires; ServerLogger.SocketOpen;
          ServerLogger.ConsoleCall "error" "query failed"
            "2024-05-01T10:00:03.000Z"] = Some st'
    /\ ServerLogger.isRecording st' = false
    /\ loggerLogs st' = [].
Proof.
  eexists.
  destruct (ServerLogger.run
              (ServerLogger.onClose loggerRecording)
              [ServerLogger.TimerFires; ServerLogger.SocketOpen;
               ServerLogger.ConsoleCall "error" "query failed"
                 "2024-05-01T10:00:03.000Z"]) as [st'|] eqn:Hrun;
    [|vm_compute in Hrun; discriminate].
  exists st'. split; [reflexivity|]. split; [exact Hrun|].
  destruct (logger_forwards_only_while_recording
              [ServerLogger.TimerFires; ServerLogger.SocketOpen;
               ServerLogger.ConsoleCall "error" "query failed"
                 "2024-05-01T10:00:03.000Z"]
              (ServerLogger.onClose loggerRecording) st')
    as [Hidle Hlogs].
  - reflexivity.
  - repeat constructor.
  - exact Hrun.
  - split; [exact Hidle|]. rewrite Hlogs. reflexivity.
Defined.

Lemma rejection_handlers_write (n : nat) (message iso : string)
    (stack : option string) (st : ServerLogger.State) :
  ServerLogger.isRecording st = true ->
  ServerLogger.isConnected st = true ->
  ServerLogger.ws st = Some OPEN ->
  Nat.iter n (LoggerProcess.handleUnhandledRejection message iso stack) st
  = ServerLogger.setQueues (ServerLogger.buffer st)
      (ServerLogger.wire st
       ++ replicate n
            (Log "error" ("Unhandled Promise Rejection: " +:+ message) iso
               stack))
      st.
Proof.
  intros Hrec Hcon Hws. induction n as [|n IH].
  - simpl. rewrite app_nil_r. by destruct st.
  - rewrite Nat.iter_succ, IH.
    unfold LoggerProcess.handleUnhandledRejection, ServerLogger.sendLog,
      ServerLogger.send, ServerLogger.isOpen. simpl.
    rewrite Hrec, Hcon, Hws. simpl. unfold ServerLogger.setQueues. simpl.
    f_equal. rewrite <- app_assoc. f_equal.
    change (?x :: replicate n ?x) with (replicate (S n) x).
    by rewrite <- replicate_S_end.
Qed.

Lemma process_run_listeners (inputs : list LoggerProcess.Input)
    (p p' : LoggerProcess.Process) :
  LoggerProcess.captureRejections p = true ->
  forallb (fun i => negb (isDisconnect i)) inputs = true ->
  LoggerProcess.run p inputs = Some p' ->
  LoggerProcess.rejectionListeners p'
  = (LoggerProcess.rejectionListeners p
     + length (List.filter isOpenInput inputs))%nat.
Proof.
  revert p. induction inputs as [|i inputs IH]; intros p Hcapture Hinputs;
    simpl.
  - intros [= <-]. lia.
  - simpl in Hinputs. apply andb_true_iff in Hinputs as [Hi Hrest].
    destruct (LoggerProcess.step p i) as [p1|] eqn:Hstep; [|discriminate].
    intros Hrun.
    assert (Hp1 :
      LoggerProcess.captureRejections p1 = true
      /\ LoggerProcess.rejectionListeners p1
         = (LoggerProcess.rejectionListeners p
            + (if isOpenInput i then 1 else 0))%nat).
    { destruct i as [i0| |]; [| |discriminate].
      - destruct i0; unfold LoggerProcess.step in Hstep;
          (destruct (ServerLogger.step (LoggerProcess.logger p) _)
             as [st1|]; [|discriminate]);
          injection Hstep as <-; simpl; rewrite ?Hcapture;
          (split; [done|lia]).
      - injection Hstep as <-. simpl. split; [done|lia]. }
    destruct Hp1 as [Hcapture1 Hcount1].
    rewrite (IH p1 Hcapture1 Hrest Hrun), Hcount1.
    destruct (isOpenInput i); simpl; lia.
Qed.

(** X29: an unhandled rejection is logged once per connection made so
    far.  The open handler adds the rejection listener to [process] again
    on every open and nothing removes it on a close, so after a run of the
    process there are as many listeners as sockets were opened, and a
    rejection while the logger records writes that many copies of the same
    log frame. *)
Theorem rejection_is_logged_once_per_open
    (inputs : list LoggerProcess.Input) (p : LoggerProcess.Process)
    (message iso : string) (stack : option string) :
  forallb (fun i => negb (isDisconnect i)) inputs = true ->
  LoggerProcess.run (LoggerProcess.initial true) inputs = Some p ->
  ServerLogger.isRecording (LoggerProcess.logger p) = true ->
  ServerLogger.isConnected (LoggerProcess.logger p) = true ->
  ServerLogger.ws (LoggerProcess.logger p) = Some OPEN ->
  exists p',
    LoggerProcess.step p (LoggerProcess.UnhandledRejection message iso stack)
    = Some p'
    /\ ServerLogger.wire (LoggerProcess.logger p')
       = ServerLogger.wire (LoggerProcess.logger p)
         ++ replicate (length (List.filter isOpenInput inputs))
              (Log "error" ("Unhandled Promise Rejection: " +:+ message)
                 iso stack).
Proof.
  intros Hinputs Hrun Hrec Hcon Hws.
  pose proof (process_run_listeners inputs (LoggerProcess.initial true) p
                eq_refl Hinputs Hrun) as Hcount.
  simpl in Hcount. simpl. eexists. split; [reflexivity|]. simpl.
  rewrite rejection_handlers_write by done. simpl. by rewrite Hcount.
Qed.

(** The restarted server: one rejection, two log frames. *)
Lemma rejection_is_logged_once_per_open_witness :
  exists p p',
    LoggerProcess.run (LoggerProcess.initial true) (removelast restartedServer)
    = Some p
    /\ LoggerProcess.step p
         (LoggerProcess.UnhandledRejection "connection reset"
            "2024-05-01T10:00:05.000Z" None) = Some p'
    /\ ServerLogger.wire (LoggerProcess.logger p')
       = ServerLogger.wire (LoggerProcess.logger p)
         ++ [Log "error" "Unhandled Promise Rejection: connection reset"
               "2024-05-01T10:00:05.000Z" None;
             Log "error" "Unhandled Promise Rejection: connection reset"
               "2024-05-01T10:00:05.000Z" None].
Proof.
  destruct (LoggerProcess.run (LoggerProcess.initial true)
              (removelast restartedServer)) as [p|] eqn:Hrun;
    [|vm_compute in Hrun; discriminate].
  assert (Hp : LoggerProcess.run (LoggerProcess.initial true)
                 (removelast restartedServer) = Some p) by exact Hrun.
  vm_compute in Hp. injection Hp as Hp.
  destruct (rejection_is_logged_once_per_open (removelast restartedServer) p
              "connection reset" "2024-05-01T10:00:05.000Z" None)
    as (p' & Hstep & Hwire); try exact Hrun; try (by subst p).
  exists p, p'. split; [reflexivity|]. split; [exact Hstep|]. exact Hwire.
Defined.

End LogClientRuns.

(** ** Requests and their outcomes *)

Section RequestTracking.
Import Background.

Lemma handleEvent_tracked (iso : string) (rt : Z) (ev : CDPEvent)
    (recording : Recording) (requestId : string) :
  (forall u m, ev <> NetworkRequestWillBeSent requestId u m) ->
  trackedRequest (handleEvent iso rt ev recording) requestId
  = trackedRequest recording requestId.
Proof.
  intros Hother. destruct ev; simpl; try reflexivity.
  - unfold trackedRequest. simpl.
    destruct (decide (requestId0 = requestId)) as [->|Hne].
    + by destruct (Hother requestUrl requestMethod).
    + rewrite lookup_insert_ne by done.
      by destruct (pendingRequests recording).
  - by destruct (isPointaUrl (entryUrl entry)).
  - by destruct (existsb _ _).
Qed.

Lemma deliverAll_tracked (ds : list Delivery) (st : State) (t : Z)
    (r : Recording) (requestId : string) :
  cdpRecordings st !! t = Some r ->
  Forall (fun d => forall u m,
            delivered d <> NetworkRequestWillBeSent requestId u m) ds ->
  exists r',
    cdpRecordings (deliverAll st ds) !! t = Some r'
    /\ trackedRequest r' requestId = trackedRequest r requestId.
Proof.
  revert st r. induction ds as [|d ds IH]; intros st r Hrec Hds.
  - exists r. by split.
  - apply Forall_cons in Hds as [Hd Hrest]. rewrite deliverAll_cons.
    pose proof (deliver_lookup st d t) as Hstep. rewrite Hrec in Hstep.
    simpl in Hstep.
    destruct (IH _ _ Hstep Hrest) as (r' & Hlook & Htracked).
    exists r'. split; [exact Hlook|]. rewrite Htracked.
    destruct (decide (t = onTab d)); [|reflexivity].
    by apply handleEvent_tracked.
Qed.

(** X30: the start of a request is remembered until its outcome.  Once
    [Network.requestWillBeSent] was delivered for a request id, whatever
    is delivered afterwards on any tab, short of a new start with the same
    id, the recording still knows the request; a [Network.loadingFailed]
    for the id then adds a failure event with the url and the method of
    the start. *)
Theorem request_start_is_remembered (st : State) (ds : list Delivery)
    (t : Z) (r : Recording) (requestId : string) (p : PendingRequest) :
  cdpRecordings st !! t = Some r ->
  trackedRequest r requestId = Some p ->
  Forall (fun d => forall u m,
            delivered d <> NetworkRequestWillBeSent requestId u m) ds ->
  exists r',
    cdpRecordings (deliverAll st ds) !! t = Some r'
    /\ trackedRequest r' requestId = Some p
    /\ forall iso rt errorText canceled blockedReason,
       exists e,
         recEvents
           (handleEvent iso rt
              (NetworkLoadingFailed requestId errorText canceled
                 blockedReason) r')
         = recEvents r' ++ [e]
         /\ type e = "network" /\ subtype e = Some "failed"
         /\ url (data e) = Some (JS.orElse (Some (pendingUrl p)) "unknown")
         /\ method (data e)
            = Some (JS.orElse (Some (pendingMethod p)) "unknown").
Proof.
  intros Hrec Htracked Hds.
  destruct (deliverAll_tracked ds st t r requestId Hrec Hds)
    as (r' & Hlook & Hsame).
  exists r'. split; [exact Hlook|]. rewrite Htracked in Hsame.
  split; [exact Hsame|].
  intros iso rt errorText canceled blockedReason. simpl. rewrite Hsame.
  eexists. split; [reflexivity|]. simpl. by repeat split.
Qed.

(** The failing POST of the sample run, with the deliveries that follow
    its start. *)
Lemma request_start_is_remembered_witness :
  exists r',
    cdpRecordings
      (deliverAll (deliverAll recordingTab7 (take 1 sampleRun))
         (drop 1 sampleRun)) !! 7 = Some r'
    /\ trackedRequest r' "r1"
       = Some {| pendingUrl := "http://localhost:3000/api/data";
                 pendingMethod := "POST" |}.
Proof.
  destruct (request_start_is_remembered
              (deliverAll recordingTab7 (take 1 sampleRun))
              (drop 1 sampleRun) 7
              (handleEvent "2024-05-01T10:00:00.100Z" 100
                 (NetworkRequestWillBeSent "r1"
                    "http://localhost:3000/api/data" "POST")
                 ListenerSamples.started)
              "r1"
              {| pendingUrl := "http://localhost:3000/api/data";
                 pendingMethod := "POST" |})
    as (r' & Hlook & Htracked & _).
  - vm_compute. reflexivity.
  - vm_compute. reflexivity.
  - simpl. repeat constructor; intros u m; discriminate.
  - exists r'. split; [exact Hlook | exact Htracked].
Defined.

End RequestTracking.
